(** * Lateness tracker: the Schedule Registry, the Arrival Ledger and the
    Report Aggregator, embedded from the JavaScript sources.

    Layout of the development:
    - [JS]: the fragment of the JavaScript runtime the sources rely on
      (numbers with NaN, [Number], [split], [padStart], [Math.round],
      the calendar arithmetic of [Date], a stable [sort]);
    - the data model (Class, Student, Arrival), the host a call runs on
      and the store as the managers see it;
    - [ClassManager], [StudentManager], [ArrivalTracker]
      (js/models/ClassManager.js, StudentManager.js, ArrivalTracker.js);
    - [Json], [Storage] (js/utils/Storage.js, on the raw items of
      localStorage);
    - [ReportGenerator] (js/models/ReportGenerator.js);
    - [Bundle]: the pre-bundled copy of the same classes;
    - [UI], [Main]: the handlers of the controller (js/views/UI.js) and
      the start of the application (app.js);
    - [MiniJSON], a codec for the sample data, and the vocabulary of the
      statements;
    - the theorems. *)

From Stdlib Require Import ZArith List String Ascii Lia Bool DecimalString.
From Stdlib Require Import Floats Uint63.
From Stdlib Require Import OrderedTypeEx.
From stdpp Require Import base option gmap strings list.

Open Scope string_scope.
Open Scope Z_scope.

(** ** The JavaScript runtime fragment *)
Module JS.

(** A JavaScript number as the sources use it: an integer or NaN.  The
    sources only ever add, subtract, multiply and compare integers read
    from "HH:MM" strings and array lengths. *)
Inductive num := NaN | Int (z : Z).

Definition add (a b : num) : num :=
  match a, b with Int x, Int y => Int (x + y) | _, _ => NaN end.

Definition sub (a b : num) : num :=
  match a, b with Int x, Int y => Int (x - y) | _, _ => NaN end.

Definition mul (a b : num) : num :=
  match a, b with Int x, Int y => Int (x * y) | _, _ => NaN end.

(** [Math.max(a, b)]: NaN as soon as one argument is NaN. *)
Definition Math_max (a b : num) : num :=
  match a, b with Int x, Int y => Int (Z.max x y) | _, _ => NaN end.

(** [a > b]: false as soon as one side is NaN. *)
Definition gt (a b : num) : bool :=
  match a, b with Int x, Int y => y <? x | _, _ => false end.

(** An argument of a call, as the callee sees it: omitted (or
    [undefined]), [null], or a value. *)
Inductive arg (A : Type) := Undefined | Null | Val (a : A).
Arguments Undefined {A}.
Arguments Null {A}.
Arguments Val {A} a.

(** A default parameter [x = d] replaces [undefined] only. *)
Definition default_param {A} (d : A) (x : arg A) : arg A :=
  match x with Undefined => Val d | _ => x end.

(** [x || d] on an argument holding an object: objects are truthy,
    [null] and [undefined] are falsy. *)
Definition or_object {A} (x : arg A) (d : A) : A :=
  match x with Val a => a | _ => d end.

(** Truthiness of a string: every string but the empty one. *)
Definition truthy (s : string) : bool :=
  match s with EmptyString => false | _ => true end.

(** [s || d] for an optional string ([None] is null or undefined). *)
Definition or_string (s : option string) (d : string) : string :=
  match s with
  | Some x => if truthy x then x else d
  | None => d
  end.

Definition is_digit (c : ascii) : bool :=
  let n := N_of_ascii c in ((48 <=? n) && (n <=? 57))%N.

Definition digit_val (c : ascii) : Z := Z.of_N (N_of_ascii c) - 48.

Fixpoint digits_val (acc : Z) (s : string) : option Z :=
  match s with
  | EmptyString => Some acc
  | String c r =>
      if is_digit c then digits_val (10 * acc + digit_val c) r else None
  end.

(** [Number(s)] on the strings the sources feed it: a run of decimal
    digits is its value, the empty string is 0, and a string with any
    other character is NaN.  (Signs, fractions, exponents, hexadecimal
    and surrounding blanks are outside the modelled fragment; no "HH:MM"
    component has them.) *)
Definition Number (s : string) : num :=
  match digits_val 0 s with Some z => Int z | None => NaN end.

(** [Number(undefined)] is NaN: a destructured element that is missing. *)
Definition Number_opt (s : option string) : num :=
  match s with Some x => Number x | None => NaN end.

(** [s.split(sep)] for a one-character separator. *)
Fixpoint split_aux (sep : ascii) (cur : string) (s : string) : list string :=
  match s with
  | EmptyString => [String.rev cur]
  | String c r =>
      if Ascii.eqb c sep then String.rev cur :: split_aux sep EmptyString r
      else split_aux sep (String c cur) r
  end.

Definition split (sep : ascii) (s : string) : list string :=
  split_aux sep EmptyString s.

(** [String(n)] for an integer. *)
Definition String_of (z : Z) : string := NilZero.string_of_int (Z.to_int z).

Fixpoint repeat_char (c : ascii) (n : nat) : string :=
  match n with O => EmptyString | S k => String c (repeat_char c k) end.

(** [s.padStart(n, c)] for a one-character pad. *)
Definition padStart (n : nat) (c : ascii) (s : string) : string :=
  repeat_char c (n - String.length s) ++ s.

(** [a >= b] and [a <= b] on strings: lexicographic on code units (on
    the bytes here; the two agree on ASCII, which ISO dates are). *)
Definition str_ge (a b : string) : bool := String.leb b a.
Definition str_le (a b : string) : bool := String.leb a b.

(** [Math.round(a / b)] for integers [a] and [b > 0]: the integer
    nearest to the quotient, ties going up.  The double quotient and the
    exact one round alike as long as [a] and [b] stay below 2^26, which
    minute totals and entry counts do. *)
Definition Math_round_div (a b : Z) : Z := (2 * a + b) / (2 * b).

(** [Math.round(x)] on a double, from its exact value [m * 2^e]:
    the nearest integer, ties going up.  (An infinite double, which
    [Math.round] returns as it is, is not a [num]; the percentage below,
    the only use, is finite.) *)
Definition Math_round (x : float) : num :=
  match Prim2SF x with
  | S754_zero _ => Int 0
  | S754_finite s m e =>
      let v := if s then - Z.pos m else Z.pos m in
      if 0 <=? e then Int (v * 2 ^ e)
      else Int ((2 * v + 2 ^ (- e)) / 2 ^ (- e + 1))
  | _ => NaN
  end.

(** An integer below 2^53 as a double. *)
Definition float_of_Z (z : Z) : float := PrimFloat.of_uint63 (Uint63.of_Z z).

(** [Math.round((a / b) * 100)] in double arithmetic, as written. *)
Definition Math_round_percent (a b : Z) : num :=
  Math_round (PrimFloat.mul (PrimFloat.div (float_of_Z a) (float_of_Z b))
                            (float_of_Z 100)).

(** [arr.sort(cmp)]: the sort is stable; an element moves in front of
    the ones it does not compare greater than. *)
Section Sort.
Context {A : Type} (cmp : A -> A -> Z).

Fixpoint insert_sorted (x : A) (l : list A) : list A :=
  match l with
  | [] => [x]
  | y :: r => if cmp x y <=? 0 then x :: y :: r else y :: insert_sorted x r
  end.

Definition sort (l : list A) : list A := foldr insert_sorted [] l.
End Sort.

(** [s.startsWith(p)] *)
Definition startsWith (p s : string) : bool := String.prefix p s.

Fixpoint drop_chars (n : nat) (s : string) : string :=
  match n, s with
  | S k, String _ r => drop_chars k r
  | _, _ => s
  end.

(** [s.replace(pat, rep)] for a string pattern: the first occurrence
    only ([rep] has no dollar pattern in the sources). *)
Fixpoint replace (pat rep s : string) : string :=
  if String.prefix pat s then rep ++ drop_chars (String.length pat) s
  else match s with
       | EmptyString => EmptyString
       | String c r => String c (replace pat rep r)
       end.

(** *** Date

    Time values are milliseconds since 1970-01-01T00:00:00Z.  The host's
    local time is UTC plus a fixed number of minutes. *)

Definition msPerDay : Z := 86400000.
Definition msPerMinute : Z := 60000.

(** Day number of the civil date [y]-[m]-[d] (proleptic Gregorian
    calendar, [m] from 1 to 12), day 0 being 1970-01-01. *)
Definition days_from_civil (y m d : Z) : Z :=
  let y' := if m <=? 2 then y - 1 else y in
  let era := y' / 400 in
  let yoe := y' - era * 400 in
  let doy := (153 * (if 2 <? m then m - 3 else m + 9) + 2) / 5 + d - 1 in
  let doe := yoe * 365 + yoe / 4 - yoe / 100 + doy in
  era * 146097 + doe - 719468.

(** The civil date of a day number. *)
Definition civil_from_days (z : Z) : Z * Z * Z :=
  let z' := z + 719468 in
  let era := z' / 146097 in
  let doe := z' - era * 146097 in
  let yoe := (doe - doe / 1460 + doe / 36524 - doe / 146096) / 365 in
  let doy := doe - (365 * yoe + yoe / 4 - yoe / 100) in
  let mp := (5 * doy + 2) / 153 in
  let d := doy - (153 * mp + 2) / 5 + 1 in
  let m := if mp <? 10 then mp + 3 else mp - 9 in
  (if m <=? 2 then yoe + era * 400 + 1 else yoe + era * 400, m, d).

Definition is_leap (y : Z) : bool :=
  ((y mod 4 =? 0) && negb (y mod 100 =? 0)) || (y mod 400 =? 0).

Definition days_in_month (y m : Z) : Z :=
  if m =? 2 then (if is_leap y then 29 else 28)
  else if (m =? 4) || (m =? 6) || (m =? 9) || (m =? 11) then 30 else 31.

(** [MakeDay(year, month, date)] of the language standard, [month]
    counted from 0 and carried into the year when out of range. *)
Definition MakeDay (year month date : Z) : Z :=
  days_from_civil (year + month / 12) (month mod 12 + 1) 1 + date - 1.

(** [new Date(year, monthIndex, day)]: midnight of that day in local
    time, as a time value; [offset] is the host's minutes east of UTC.
    Years 0 to 99 stand for 1900 to 1999. *)
Definition Date_local (offset : Z) (year monthIndex day : Z) : Z :=
  let yr := if (0 <=? year) && (year <=? 99) then 1900 + year else year in
  MakeDay yr monthIndex day * msPerDay - offset * msPerMinute.

Definition pad2 (z : Z) : string := padStart 2 "0" (String_of z).

(** The year of [toISOString]: four digits from 0 to 9999, otherwise a
    sign and six digits. *)
Definition iso_year (y : Z) : string :=
  if (0 <=? y) && (y <=? 9999) then padStart 4 "0" (String_of y)
  else (if y <? 0 then "-" else "+") ++ padStart 6 "0" (String_of (Z.abs y)).

(** [d.toISOString()] of a time value: the UTC fields. *)
Definition toISOString (t : Z) : string :=
  let '(y, m, d) := civil_from_days (t / msPerDay) in
  let r := t mod msPerDay in
  iso_year y ++ "-" ++ pad2 m ++ "-" ++ pad2 d ++ "T"
    ++ pad2 (r / 3600000) ++ ":" ++ pad2 (r / 60000 mod 60) ++ ":"
    ++ pad2 (r / 1000 mod 60) ++ "."
    ++ padStart 3 "0" (String_of (r mod 1000)) ++ "Z".

(** The date-only form "YYYY-MM-DD" of the standard's date-time string
    format, read as UTC midnight; [None] when the string has another
    shape or names no calendar day. *)
Definition parse_iso_date (s : string) : option Z :=
  match split "-" s with
  | [ys; ms; ds] =>
      if (Nat.eqb (String.length ys) 4) && (Nat.eqb (String.length ms) 2)
         && (Nat.eqb (String.length ds) 2)
      then
        match digits_val 0 ys, digits_val 0 ms, digits_val 0 ds with
        | Some y, Some m, Some d =>
            if (1 <=? m) && (m <=? 12) && (1 <=? d) && (d <=? days_in_month y m)
            then Some (days_from_civil y m d * msPerDay)
            else None
        | _, _, _ => None
        end
      else None
  | _ => None
  end.

(** [new Date(s)]: the date-only ISO form, or whatever the engine's own
    heuristics [legacy] make of a string of another shape; [None] is the
    invalid date. *)
Definition Date_parse (legacy : string -> option Z) (s : string) : option Z :=
  match parse_iso_date s with
  | Some t => Some t
  | None => legacy s
  end.

(** [d.getDay()]: the weekday of the local day, 0 for Sunday; NaN for
    the invalid date. *)
Definition getDay (offset : Z) (d : option Z) : num :=
  match d with
  | Some t => Int (((t + offset * msPerMinute) / msPerDay + 4) mod 7)
  | None => NaN
  end.

(** *** Text

    A string stands for the bytes of its UTF-8 form. *)

(** White space and line terminators, as [trim] strips them: the ASCII
    ones (tab, line feed, vertical tab, form feed, carriage return,
    blank), then U+00A0 and, in three bytes, U+1680, U+2000 to U+200A,
    U+2028, U+2029, U+202F, U+205F, U+3000 and U+FEFF. *)
Definition is_space1 (a : ascii) : bool :=
  let n := N_of_ascii a in ((9 <=? n) && (n <=? 13) || (n =? 32))%N.

Definition is_space2 (a b : ascii) : bool :=
  ((N_of_ascii a =? 194) && (N_of_ascii b =? 160))%N.

Definition is_space3 (a b c : ascii) : bool :=
  let x := N_of_ascii a in
  let y := N_of_ascii b in
  let z := N_of_ascii c in
  ((x =? 225) && (y =? 154) && (z =? 128)
   || (x =? 226) && (y =? 128)
      && ((128 <=? z) && (z <=? 138) || (z =? 168) || (z =? 169) || (z =? 175))
   || (x =? 226) && (y =? 129) && (z =? 159)
   || (x =? 227) && (y =? 128) && (z =? 128)
   || (x =? 239) && (y =? 187) && (z =? 191))%N.

(** [s.trimStart()] *)
Fixpoint trimStart (s : string) : string :=
  match s with
  | EmptyString => EmptyString
  | String a r1 =>
      if is_space1 a then trimStart r1
      else match r1 with
           | EmptyString => s
           | String b r2 =>
               if is_space2 a b then trimStart r2
               else match r2 with
                    | EmptyString => s
                    | String c r3 => if is_space3 a b c then trimStart r3 else s
                    end
           end
  end.

(** A string of white space only. *)
Definition blank (s : string) : bool :=
  match trimStart s with EmptyString => true | _ => false end.

(** [s.trimEnd()]: the string up to its last run of white space. *)
Fixpoint trimEnd (s : string) : string :=
  if blank s then EmptyString
  else match s with
       | EmptyString => EmptyString
       | String a r => String a (trimEnd r)
       end.

(** [s.trim()] *)
Definition trim (s : string) : string := trimEnd (trimStart s).

(** [s.toLowerCase()] on the letters A to Z; the other bytes stay.  The
    sources use it to look for the word "name" only, and no character
    outside ASCII lowers to one of its letters. *)
Definition lower_char (a : ascii) : ascii :=
  let n := N_of_ascii a in
  if ((65 <=? n) && (n <=? 90))%N then ascii_of_N (n + 32) else a.

Fixpoint toLowerCase (s : string) : string :=
  match s with
  | EmptyString => EmptyString
  | String a r => String (lower_char a) (toLowerCase r)
  end.

(** [s.includes(pat)] *)
Fixpoint includes (pat s : string) : bool :=
  String.prefix pat s
  || match s with
     | EmptyString => false
     | String _ r => includes pat r
     end.

End JS.

(** ** Data model *)

(** One day of a weekly schedule: [{enabled: false}] or
    [{enabled: true, startTime: "HH:MM", endTime: "HH:MM"}]; a field that
    is absent is [None]. *)
Record DaySchedule := {
  enabled : bool;
  startTime : option string;
  endTime : option string
}.

(** A weekly schedule is an object keyed by day name. *)
Abbreviation Schedule := (gmap string DaySchedule).

Record Class := {
  cls_id : string;
  cls_name : string;
  cls_schedule : Schedule;
  cls_createdAt : string
}.

Record Student := {
  stu_id : string;
  stu_name : string;
  stu_classId : string;
  stu_photoUrl : option string;
  stu_createdAt : string
}.

Record Arrival := {
  arr_id : string;
  arr_studentId : string;
  arr_classId : string;
  arr_date : string;
  arr_time : string;
  arr_minutesLate : JS.num;
  arr_status : string;
  arr_createdAt : string
}.

(** What a call observes of its host: the time zone, the clock, the
    random source, the locale, and whether the browser accepts a write. *)
Record Host := {
  (* local time minus UTC, in minutes *)
  utcOffset : Z;
  (* [new Date(s)] on a string that is not an ISO date *)
  legacyDate : string -> option Z;
  (* [new Date().toTimeString().substr(0, 5)] *)
  clockTime : string;
  (* [new Date().toISOString()] *)
  clockISO : string;
  (* [Date.now().toString(36) + Math.random().toString(36).substr(2, 5)] *)
  idSuffix : string;
  (* does [localStorage.setItem] take a write to this key *)
  setItemOk : string -> bool;
  (* [a.localeCompare(b)] *)
  localeCompare : string -> string -> Z;
  (* [new Date(y, m).toLocaleString('default', {month: 'long'})] *)
  monthLong : Z -> Z -> string
}.

(** The namespaced store as the three components read and write it
    through [storage.get] and [storage.set]: under each of the keys
    "classes", "students" and "arrivals" either nothing or an array of
    records.  (The records are taken to come back as they were written;
    JSON would turn a NaN into null, and no statement below turns on a
    stored NaN.)  The wrapper itself, on the raw items, is [Storage]. *)
Record Store := {
  stored_classes : option (list Class);
  stored_students : option (list Student);
  stored_arrivals : option (list Arrival)
}.

(** [storage.get(key, defaultValue)]: the stored array, or the default
    when the key holds nothing. *)
Definition get_or {A} (slot : option A) (defaultValue : A) : A :=
  match slot with Some v => v | None => defaultValue end.

(** [storage.set(key, data)]: [true] and the new content, or [false] and
    the store as it was when the browser rejects the write. *)
Definition set_classes (h : Host) (data : list Class) (s : Store) : bool * Store :=
  if setItemOk h "classes"
  then (true, {| stored_classes := Some data;
                 stored_students := stored_students s;
                 stored_arrivals := stored_arrivals s |})
  else (false, s).

Definition set_students (h : Host) (data : list Student) (s : Store) : bool * Store :=
  if setItemOk h "students"
  then (true, {| stored_classes := stored_classes s;
                 stored_students := Some data;
                 stored_arrivals := stored_arrivals s |})
  else (false, s).

Definition set_arrivals (h : Host) (data : list Arrival) (s : Store) : bool * Store :=
  if setItemOk h "arrivals"
  then (true, {| stored_classes := stored_classes s;
                 stored_students := stored_students s;
                 stored_arrivals := Some data |})
  else (false, s).

(** The application: the shared store and the in-memory arrays of the
    three managers built on it. *)
Record App := {
  storage : Store;
  classes : list Class;
  students : list Student;
  arrivals : list Arrival
}.

Definition with_storage (s : Store) (a : App) : App :=
  {| storage := s; classes := classes a; students := students a;
     arrivals := arrivals a |}.

Definition with_classes (l : list Class) (a : App) : App :=
  {| storage := storage a; classes := l; students := students a;
     arrivals := arrivals a |}.

Definition with_students (l : list Student) (a : App) : App :=
  {| storage := storage a; classes := classes a; students := l;
     arrivals := arrivals a |}.

Definition with_arrivals (l : list Arrival) (a : App) : App :=
  {| storage := storage a; classes := classes a; students := students a;
     arrivals := l |}.

(** [arr.findIndex(p)]; [None] is -1. *)
Fixpoint findIndex {A} (p : A -> bool) (l : list A) : option nat :=
  match l with
  | [] => None
  | x :: r => if p x then Some O else option_map S (findIndex p r)
  end.

(** The fields an [updates] object may carry; [None] is an absent key. *)
Record ClassUpdates := {
  upd_id : option string;
  upd_name : option string;
  upd_schedule : option Schedule;
  upd_createdAt : option string
}.

(** The fields an [updates] object may carry for a student; [None] is an
    absent key, [Some None] a photo set to null. *)
Record StudentUpdates := {
  supd_id : option string;
  supd_name : option string;
  supd_classId : option string;
  supd_photoUrl : option (option string);
  supd_createdAt : option string
}.

(** What [importFromCSV] returns: [{success, imported, errors}]. *)
Record ImportReport := {
  imp_success : bool;
  imported : Z;
  errors : list string
}.

(** ** ClassManager (module source) *)
Module ClassManager.

Definition load (a : App) : App :=
  with_classes (get_or (stored_classes (storage a)) []) a.

Definition save (h : Host) (a : App) : App :=
  with_storage (snd (set_classes h (classes a) (storage a))) a.

Definition getAll (a : App) : list Class := classes a.

Definition getById (a : App) (id : string) : option Class :=
  List.find (fun c => String.eqb (cls_id c) id) (classes a).

Definition open_day (s e : string) : DaySchedule :=
  {| enabled := true; startTime := Some s; endTime := Some e |}.

Definition closed_day : DaySchedule :=
  {| enabled := false; startTime := None; endTime := None |}.

Definition defaultSchedule : Schedule :=
  <["monday" := open_day "12:30" "14:20"]>
  (<["tuesday" := open_day "12:30" "14:20"]>
  (<["wednesday" := open_day "12:30" "14:20"]>
  (<["thursday" := open_day "12:30" "14:20"]>
  (<["friday" := open_day "12:30" "14:20"]>
  (<["saturday" := open_day "12:30" "14:20"]>
  (<["sunday" := closed_day]> ∅)))))).

Definition generateId (h : Host) : string := "cls_" ++ idSuffix h.

(** [add(name, schedule = {})]: the default parameter is the empty
    object, then [schedule || this.defaultSchedule()]. *)
Definition add (h : Host) (name : string) (schedule : JS.arg Schedule)
    (a : App) : Class * App :=
  let schedule := JS.default_param (∅ : Schedule) schedule in
  let newClass :=
    {| cls_id := generateId h;
       cls_name := name;
       cls_schedule := JS.or_object schedule defaultSchedule;
       cls_createdAt := clockISO h |} in
  (newClass, save h (with_classes (classes a ++ [newClass]) a)).

(** [{...c, ...updates}] *)
Definition merge (c : Class) (u : ClassUpdates) : Class :=
  {| cls_id := get_or (upd_id u) (cls_id c);
     cls_name := get_or (upd_name u) (cls_name c);
     cls_schedule := get_or (upd_schedule u) (cls_schedule c);
     cls_createdAt := get_or (upd_createdAt u) (cls_createdAt c) |}.

Definition update (h : Host) (id : string) (updates : ClassUpdates)
    (a : App) : option Class * App :=
  match findIndex (fun c => String.eqb (cls_id c) id) (classes a) with
  | Some index =>
      match classes a !! index with
      | Some c =>
          let a' := save h (with_classes (<[index := merge c updates]> (classes a)) a) in
          (classes a' !! index, a')
      | None => (None, a)
      end
  | None => (None, a)
  end.

Definition delete (h : Host) (id : string) (a : App) : App :=
  save h (with_classes
            (List.filter (fun c => negb (String.eqb (cls_id c) id)) (classes a)) a).

Definition dayNames : list string :=
  ["sunday"; "monday"; "tuesday"; "wednesday"; "thursday"; "friday"; "saturday"].

(** [dayNames[dayOfWeek]]: [None] is [undefined]. *)
Definition dayName (dayOfWeek : JS.num) : option string :=
  match dayOfWeek with
  | JS.Int n => if 0 <=? n then dayNames !! Z.to_nat n else None
  | JS.NaN => None
  end.

(** [obj[k]] where [k] may be [undefined], which reads the property
    named "undefined". *)
Definition property_key (k : option string) : string :=
  match k with Some s => s | None => "undefined" end.

(** [getScheduleForDay(classId, dayOfWeek)]; [None] is null.  A day
    entry is an object, hence truthy, so [entry || null] is the entry
    when the schedule has one and null when it has none. *)
Definition getScheduleForDay (a : App) (classId : string) (dayOfWeek : JS.num)
    : option DaySchedule :=
  match getById a classId with
  | None => None
  | Some classObj => cls_schedule classObj !! property_key (dayName dayOfWeek)
  end.

End ClassManager.

(** ** StudentManager (module source): the part the reports read *)
Module StudentManager.

Definition load (a : App) : App :=
  with_students (get_or (stored_students (storage a)) []) a.

Definition save (h : Host) (a : App) : App :=
  with_storage (snd (set_students h (students a) (storage a))) a.

Definition getAll (a : App) : list Student := students a.

Definition getByClass (a : App) (classId : string) : list Student :=
  List.filter (fun s => String.eqb (stu_classId s) classId) (students a).

Definition getById (a : App) (id : string) : option Student :=
  List.find (fun s => String.eqb (stu_id s) id) (students a).

Definition getSortedByName (h : Host) (a : App) (classId : string) : list Student :=
  JS.sort (fun x y => localeCompare h (stu_name x) (stu_name y))
          (getByClass a classId).

(** *** StudentManager: the roster and its import *)

Definition generateId (h : Host) : string := "stu_" ++ idSuffix h.

(** [add(name, classId, photoUrl = null)]; [None] is null. *)
Definition add (h : Host) (name classId : string) (photoUrl : option string)
    (a : App) : Student * App :=
  let student :=
    {| stu_id := generateId h;
       stu_name := JS.trim name;
       stu_classId := classId;
       stu_photoUrl := photoUrl;
       stu_createdAt := clockISO h |} in
  (student, save h (with_students (students a ++ [student]) a)).

(** [{...s, ...updates}] *)
Definition merge (s : Student) (u : StudentUpdates) : Student :=
  {| stu_id := get_or (supd_id u) (stu_id s);
     stu_name := get_or (supd_name u) (stu_name s);
     stu_classId := get_or (supd_classId u) (stu_classId s);
     stu_photoUrl := get_or (supd_photoUrl u) (stu_photoUrl s);
     stu_createdAt := get_or (supd_createdAt u) (stu_createdAt s) |}.

Definition update (h : Host) (id : string) (updates : StudentUpdates)
    (a : App) : option Student * App :=
  match findIndex (fun s => String.eqb (stu_id s) id) (students a) with
  | Some index =>
      match students a !! index with
      | Some s =>
          let a' := save h (with_students (<[index := merge s updates]> (students a)) a) in
          (students a' !! index, a')
      | None => (None, a)
      end
  | None => (None, a)
  end.

Definition delete (h : Host) (id : string) (a : App) : App :=
  save h (with_students
            (List.filter (fun s => negb (String.eqb (stu_id s) id)) (students a)) a).

(** One turn of the loop of [importFromCSV], on [lines[i]]; [h] is the
    host as the call of [add] in this turn finds it. *)
Definition import_line (h : Host) (classId : string) (i : nat) (raw : string)
    (st : ImportReport * App) : ImportReport * App :=
  let line := JS.trim raw in
  if JS.truthy line then
    let parts := List.map JS.trim (JS.split "," line) in
    let name := match parts with n :: _ => n | [] => "" end in
    let photoUrl :=
      match parts !! 1%nat with
      | Some p => if JS.truthy p then Some p else None
      | None => None
      end in
    if JS.truthy name then
      ({| imp_success := imp_success (fst st);
          imported := imported (fst st) + 1;
          errors := errors (fst st) |},
       snd (add h name classId photoUrl (snd st)))
    else
      ({| imp_success := imp_success (fst st);
          imported := imported (fst st);
          errors :=
            List.app (errors (fst st))
                     ["Line " ++ JS.String_of (Z.of_nat i + 1) ++ ": Empty name"] |},
       snd st)
  else st.

(** The loop from index [i] on, over the lines from there. *)
Fixpoint import_from (hs : nat -> Host) (classId : string) (i : nat)
    (lines : list string) (st : ImportReport * App) : ImportReport * App :=
  match lines with
  | [] => st
  | raw :: r => import_from hs classId (S i) r (import_line (hs i) classId i raw st)
  end.

(** [lines[0].toLowerCase().includes('name') ? 1 : 0]; [split] returns
    at least one line. *)
Definition startIndex (lines : list string) : nat :=
  match lines with
  | l0 :: _ => if JS.includes "name" (JS.toLowerCase l0) then 1%nat else 0%nat
  | [] => 0%nat
  end.

(** [importFromCSV(csvContent, classId)]; [hs i] is the host at the turn
    of line [i]. *)
Definition importFromCSV (hs : nat -> Host) (csvContent classId : string)
    (a : App) : ImportReport * App :=
  let lines := JS.split "010" (JS.trim csvContent) in
  import_from hs classId (startIndex lines) (drop (startIndex lines) lines)
    ({| imp_success := true; imported := 0; errors := [] |}, a).

End StudentManager.

(** ** ArrivalTracker (module source) *)

(** What [markArrival] returns: [{success, message?, arrival}]. *)
Record MarkResult := {
  success : bool;
  message : option string;
  arrival : Arrival
}.

Module ArrivalTracker.

Definition load (a : App) : App :=
  with_arrivals (get_or (stored_arrivals (storage a)) []) a.

Definition save (h : Host) (a : App) : App :=
  with_storage (snd (set_arrivals h (arrivals a) (storage a))) a.

Definition getAll (a : App) : list Arrival := arrivals a.

Definition getByDate (a : App) (date : string) : list Arrival :=
  List.filter (fun x => String.eqb (arr_date x) date) (arrivals a).

Definition getByClassAndDate (a : App) (classId date : string) : list Arrival :=
  List.filter (fun x => String.eqb (arr_classId x) classId
                        && String.eqb (arr_date x) date) (arrivals a).

Definition generateId (h : Host) : string := "arr_" ++ idSuffix h.

(** The predicate [a => a.studentId === studentId && a.date === date]. *)
Definition same_key (studentId date : string) (x : Arrival) : bool :=
  String.eqb (arr_studentId x) studentId && String.eqb (arr_date x) date.

(** An element of [s.split(':').map(Number)] taken by destructuring;
    a missing one is [undefined], which is NaN in arithmetic. *)
Definition component (parts : list JS.num) (i : nat) : JS.num :=
  match parts !! i with Some n => n | None => JS.NaN end.

(** [new Date(date).getDay()] *)
Definition dayOfWeek (h : Host) (date : string) : JS.num :=
  JS.getDay (utcOffset h) (JS.Date_parse (legacyDate h) date).

Definition markArrival (h : Host) (studentId classId date : string)
    (time : option string) (a : App) : MarkResult * App :=
  match List.find (same_key studentId date) (arrivals a) with
  | Some existing =>
      ({| success := false; message := Some "Already marked";
          arrival := existing |}, a)
  | None =>
      let arrivalTime := JS.or_string time (clockTime h) in
      let schedule :=
        ClassManager.getScheduleForDay a classId (dayOfWeek h date) in
      let '(minutesLate, status) :=
        match schedule with
        | Some sch =>
            if enabled sch && JS.truthy (get_or (startTime sch) "") then
              let sparts := List.map JS.Number (JS.split ":" (get_or (startTime sch) "")) in
              let aparts := List.map JS.Number (JS.split ":" arrivalTime) in
              let scheduleMinutes :=
                JS.add (JS.mul (component sparts 0) (JS.Int 60)) (component sparts 1) in
              let arrivalMinutes :=
                JS.add (JS.mul (component aparts 0) (JS.Int 60)) (component aparts 1) in
              let minutesLate :=
                JS.Math_max (JS.Int 0) (JS.sub arrivalMinutes scheduleMinutes) in
              (minutesLate, if JS.gt minutesLate (JS.Int 0) then "late" else "on-time")
            else (JS.Int 0, "on-time")
        | None => (JS.Int 0, "on-time")
        end in
      let arrival :=
        {| arr_id := generateId h;
           arr_studentId := studentId;
           arr_classId := classId;
           arr_date := date;
           arr_time := arrivalTime;
           arr_minutesLate := minutesLate;
           arr_status := status;
           arr_createdAt := clockISO h |} in
      ({| success := true; message := None; arrival := arrival |},
       save h (with_arrivals (arrivals a ++ [arrival]) a))
  end.

(** [arr.splice(index, 1)] *)
Definition splice1 {A} (index : nat) (l : list A) : list A :=
  take index l ++ drop (S index) l.

Definition removeArrival (h : Host) (studentId date : string) (a : App)
    : bool * App :=
  match findIndex (same_key studentId date) (arrivals a) with
  | Some index => (true, save h (with_arrivals (splice1 index (arrivals a)) a))
  | None => (false, a)
  end.

Definition hasArrived (a : App) (studentId date : string) : option Arrival :=
  List.find (same_key studentId date) (arrivals a).

(** The two optional range filters shared by the statistics: a bound
    that is null, undefined or the empty string filters nothing. *)
Definition filter_range (startDate endDate : option string)
    (l : list Arrival) : list Arrival :=
  let l1 := if JS.truthy (get_or startDate "")
            then List.filter (fun x => JS.str_ge (arr_date x) (get_or startDate "")) l
            else l in
  if JS.truthy (get_or endDate "")
  then List.filter (fun x => JS.str_le (arr_date x) (get_or endDate "")) l1
  else l1.

Definition is_late (x : Arrival) : bool := String.eqb (arr_status x) "late".
Definition is_on_time (x : Arrival) : bool := String.eqb (arr_status x) "on-time".

(** [l.reduce((sum, a) => sum + a.minutesLate, 0)] *)
Definition sum_minutes (l : list Arrival) : JS.num :=
  fold_left (fun sum x => JS.add sum (arr_minutesLate x)) l (JS.Int 0).

(** [n > 0 ? Math.round(total / n) : 0] *)
Definition average (total : JS.num) (n : Z) : JS.num :=
  if 0 <? n then
    match total with
    | JS.Int t => JS.Int (JS.Math_round_div t n)
    | JS.NaN => JS.NaN
    end
  else JS.Int 0.

Definition count {A} (l : list A) : Z := Z.of_nat (List.length l).

(** The statistics objects, keyed by field name. *)
Definition getStudentStats (a : App) (studentId : string)
    (startDate endDate : option string) : gmap string JS.num :=
  let filtered :=
    filter_range startDate endDate
      (List.filter (fun x => String.eqb (arr_studentId x) studentId) (arrivals a)) in
  let total := count filtered in
  let tardies := count (List.filter is_late filtered) in
  let onTime := count (List.filter is_on_time filtered) in
  let totalMinutesLate := sum_minutes filtered in
  let avgMinutesLate := average totalMinutesLate tardies in
  <["totalArrivals" := JS.Int total]>
  (<["onTime" := JS.Int onTime]>
  (<["tardies" := JS.Int tardies]>
  (<["totalMinutesLate" := totalMinutesLate]>
  (<["avgMinutesLate" := avgMinutesLate]> ∅)))).

Definition getClassStats (a : App) (classId : string)
    (startDate endDate : option string) : gmap string JS.num :=
  let filtered :=
    filter_range startDate endDate
      (List.filter (fun x => String.eqb (arr_classId x) classId) (arrivals a)) in
  let tardies := count (List.filter is_late filtered) in
  let onTime := count (List.filter is_on_time filtered) in
  <["totalArrivals" := JS.Int (count filtered)]>
  (<["onTime" := JS.Int onTime]>
  (<["tardies" := JS.Int tardies]>
  (<["latenessRate" :=
       if 0 <? count filtered
       then JS.Math_round_percent tardies (count filtered)
       else JS.Int 0]> ∅))).

End ArrivalTracker.

(** ** JSON values and the codec of the host *)
Module Json.

#[local] Set Warnings "-register-all".

Inductive json :=
| JNull
| JBool (b : bool)
| JNum (z : Z)
| JStr (s : string)
| JArr (l : list json)
| JObj (l : list (string * json)).

(** [JSON.parse] ([None] when it throws a SyntaxError),
    [JSON.stringify(v)] and [JSON.stringify(v, null, 2)] of the host.
    An object is the list of its own properties, each key once. *)
Class Codec := {
  parse : string -> option json;
  stringify : json -> string;
  stringify_indent : json -> string
}.

(** [obj[k] = v] on a plain object: the key "__proto__" reaches the
    prototype setter and leaves the own properties as they are. *)
Fixpoint put (k : string) (v : json) (obj : list (string * json))
    : list (string * json) :=
  match obj with
  | [] => [(k, v)]
  | (k', v') :: r =>
      if String.eqb k' k then (k, v) :: r else (k', v') :: put k v r
  end.

Definition assign (k : string) (v : json) (obj : list (string * json))
    : list (string * json) :=
  if String.eqb k "__proto__" then obj else put k v obj.

Fixpoint indexed {A} (i : Z) (l : list A) : list (string * A) :=
  match l with
  | [] => []
  | x :: r => (JS.String_of i, x) :: indexed (i + 1) r
  end.

(** [Object.entries(v)]: [None] when it throws (on null); a number or
    a boolean has no entry, a string and an array have one per index.
    The order of an object's entries is the one of its list. *)
Definition Object_entries (v : json) : option (list (string * json)) :=
  match v with
  | JNull => None
  | JBool _ | JNum _ => Some []
  | JStr s =>
      Some (indexed 0 (List.map (fun c => JStr (String c EmptyString))
                                (list_ascii_of_string s)))
  | JArr l => Some (indexed 0 l)
  | JObj l => Some l
  end.

End Json.

(** ** Storage (js/utils/Storage.js) on the raw items of localStorage *)
Module Storage.
Section Storage.

Context `{Json.Codec}.

(** [this.namespace] *)
Variable namespace : string.

(** Whether [localStorage.setItem(key, value)] goes through on the
    current content (it throws when the quota is exceeded). *)
Variable setItem_ok : gmap string string -> string -> string -> bool.

(** [`${this.namespace}:${key}`] *)
Definition item_key (key : string) : string := namespace ++ ":" ++ key.

Definition set (key : string) (data : Json.json) (ls : gmap string string)
    : bool * gmap string string :=
  let serialized := Json.stringify data in
  if setItem_ok ls (item_key key) serialized
  then (true, <[item_key key := serialized]> ls)
  else (false, ls).

(** [item ? JSON.parse(item) : defaultValue], the default also when
    the parse throws. *)
Definition get (key : string) (defaultValue : Json.json)
    (ls : gmap string string) : Json.json :=
  match ls !! item_key key with
  | Some item =>
      if JS.truthy item then
        match Json.parse item with
        | Some v => v
        | None => defaultValue
        end
      else defaultValue
  | None => defaultValue
  end.

Definition remove (key : string) (ls : gmap string string)
    : gmap string string :=
  base.delete (item_key key) ls.

(** One turn of the loop of [exportAll], on the item at
    [localStorage.key(i)]. *)
Definition export_entry (ls : gmap string string)
    (data : list (string * Json.json)) (entry : string * string)
    : list (string * Json.json) :=
  let key := fst entry in
  if JS.startsWith (namespace ++ ":") key then
    let shortKey := JS.replace (namespace ++ ":") "" key in
    Json.assign shortKey (get shortKey Json.JNull ls) data
  else data.

(** The loop runs over the items in the order of the browser, here
    the one of the map. *)
Definition exportAll (ls : gmap string string) : Json.json :=
  Json.JObj (fold_left (export_entry ls) (map_to_list ls) []).

(** [None] when [Object.entries] throws; the booleans returned by
    [set] are dropped. *)
Definition importAll (data : Json.json) (ls : gmap string string)
    : option (gmap string string) :=
  match Json.Object_entries data with
  | Some entries =>
      Some (fold_left (fun ls (entry : string * Json.json) =>
                         snd (set (fst entry) (snd entry) ls))
                      entries ls)
  | None => None
  end.

Definition clearAll (ls : gmap string string) : gmap string string :=
  fold_left (fun ls key => base.delete key ls)
    (List.filter (JS.startsWith (namespace ++ ":"))
                 (List.map fst (map_to_list ls)))
    ls.

End Storage.
End Storage.

(** ** ReportGenerator (module source): the reports *)

(** One entry of a row's [arrivals] list: [{date, time, minutesLate}]. *)
Record ArrivalLine := {
  line_date : string;
  line_time : string;
  line_minutesLate : JS.num
}.

Record StudentRow := {
  row_id : string;
  row_name : string;
  row_photoUrl : option string;
  totalDays : Z;
  onTime : Z;
  tardies : Z;
  totalMinutesLate : JS.num;
  avgMinutesLate : JS.num;
  row_arrivals : list ArrivalLine
}.

Record Report := {
  rep_classId : string;
  className : string;
  rep_year : Z;
  rep_month : Z;
  monthName : string;
  generatedAt : string;
  rep_students : list StudentRow
}.

Record SheetRow := {
  sheet_id : string;
  sheet_name : string;
  sheet_photoUrl : option string;
  arrived : bool;
  sheet_time : option string;
  sheet_minutesLate : JS.num;
  sheet_status : string
}.

Record DailySheet := {
  sheet_classId : string;
  sheet_className : string;
  sheet_date : string;
  sheet_students : list SheetRow
}.

Module ReportGenerator.

(** [`${year}-${String(month).padStart(2, '0')}-01`] *)
Definition startDate (year month : Z) : string :=
  JS.String_of year ++ "-" ++ JS.padStart 2 "0" (JS.String_of month) ++ "-01".

(** [new Date(year, month, 0).toISOString().split('T')[0]]: the day
    before the first of the following month at local midnight, printed
    in UTC. *)
Definition endDate (h : Host) (year month : Z) : string :=
  match JS.split "T" (JS.toISOString (JS.Date_local (utcOffset h) year month 0)) with
  | d :: _ => d
  | [] => ""
  end.

Definition row (startDate endDate : string) (stored : list Arrival)
    (student : Student) : StudentRow :=
  let arrivals :=
    List.filter (fun x => String.eqb (arr_studentId x) (stu_id student)
                          && JS.str_ge (arr_date x) startDate
                          && JS.str_le (arr_date x) endDate) stored in
  let tardies := List.filter ArrivalTracker.is_late arrivals in
  let totalMinutesLate := ArrivalTracker.sum_minutes tardies in
  {| row_id := stu_id student;
     row_name := stu_name student;
     row_photoUrl := stu_photoUrl student;
     totalDays := ArrivalTracker.count arrivals;
     onTime := ArrivalTracker.count (List.filter ArrivalTracker.is_on_time arrivals);
     tardies := ArrivalTracker.count tardies;
     totalMinutesLate := totalMinutesLate;
     avgMinutesLate :=
       ArrivalTracker.average totalMinutesLate (ArrivalTracker.count tardies);
     row_arrivals :=
       List.map (fun x => {| line_date := arr_date x; line_time := arr_time x;
                             line_minutesLate := arr_minutesLate x |}) arrivals |}.

(** [None] is the null returned for an unknown class.  The arrivals are
    read from the store, not from the tracker's array. *)
Definition generateMonthlyReport (h : Host) (a : App) (classId : string)
    (year month : Z) : option Report :=
  match ClassManager.getById a classId with
  | None => None
  | Some classObj =>
      let students := StudentManager.getByClass a classId in
      let startDate := startDate year month in
      let endDate := endDate h year month in
      let rows :=
        List.map (row startDate endDate
                      (get_or (stored_arrivals (storage a)) [])) students in
      Some {| rep_classId := classId;
              className := cls_name classObj;
              rep_year := year;
              rep_month := month;
              monthName := monthLong h year (month - 1);
              generatedAt := clockISO h;
              rep_students :=
                JS.sort (fun x y => localeCompare h (row_name x) (row_name y)) rows |}
  end.

(** A number inside a template literal. *)
Definition show (n : JS.num) : string :=
  match n with JS.Int z => JS.String_of z | JS.NaN => "NaN" end.

Definition sum_Z (l : list Z) : Z := fold_left Z.add l 0.

(** [lines.join('\n')] *)
Fixpoint join_lines (l : list string) : string :=
  match l with
  | [] => ""
  | [x] => x
  | x :: r => x ++ String "010" (join_lines r)
  end.

Definition generateCSV (report : Report) : string :=
  let rows :=
    List.map (fun s => row_name s ++ "," ++ JS.String_of (totalDays s) ++ ","
                       ++ JS.String_of (tardies s) ++ "," ++ show (totalMinutesLate s)
                       ++ "," ++ show (avgMinutesLate s)) (rep_students report) in
  let totalDays := sum_Z (List.map totalDays (rep_students report)) in
  let totalTardies := sum_Z (List.map tardies (rep_students report)) in
  let totalMinutes :=
    fold_left (fun sum s => JS.add sum (totalMinutesLate s))
              (rep_students report) (JS.Int 0) in
  join_lines
    (["Rapport de retards - " ++ className report ++ " - " ++ monthName report
        ++ " " ++ JS.String_of (rep_year report);
      "";
      "Nom,Délais,Retards,Minutes de retard, Moyenne"]
     ++ rows
     ++ ["";
         "Total," ++ JS.String_of totalDays ++ "," ++ JS.String_of totalTardies
           ++ "," ++ show totalMinutes ++ ","
           ++ show (ArrivalTracker.average totalMinutes totalTardies)]).

Definition generateDailySheet (h : Host) (a : App) (classId date : string)
    : option DailySheet :=
  match ClassManager.getById a classId with
  | None => None
  | Some classObj =>
      let students := StudentManager.getSortedByName h a classId in
      let arrivals :=
        List.filter (fun x => String.eqb (arr_classId x) classId
                              && String.eqb (arr_date x) date)
                    (get_or (stored_arrivals (storage a)) []) in
      Some {| sheet_classId := classId;
              sheet_className := cls_name classObj;
              sheet_date := date;
              sheet_students :=
                List.map (fun s =>
                  let arrival :=
                    List.find (fun x => String.eqb (arr_studentId x) (stu_id s)) arrivals in
                  {| sheet_id := stu_id s;
                     sheet_name := stu_name s;
                     sheet_photoUrl := stu_photoUrl s;
                     arrived := match arrival with Some _ => true | None => false end;
                     sheet_time := option_map arr_time arrival;
                     sheet_minutesLate :=
                       match arrival with Some x => arr_minutesLate x | None => JS.Int 0 end;
                     sheet_status :=
                       match arrival with Some x => arr_status x | None => "absent" end |})
                  students |}
  end.

(** [{success: true}] or [{success: false, error}] *)
Inductive ImportResult :=
| Imported
| Failed (error : string).

Section Transfer.

Context `{Json.Codec}.
Variable namespace : string.
Variable setItem_ok : gmap string string -> string -> string -> bool.

(** The messages of the SyntaxError of [JSON.parse] and of the
    TypeError of [Object.entries(null)]. *)
Variable syntax_error : string -> string.
Variable type_error : string.

Definition exportJSON (ls : gmap string string) : string :=
  Json.stringify_indent (Storage.exportAll namespace ls).

Definition importJSON (jsonData : string) (ls : gmap string string)
    : ImportResult * gmap string string :=
  match Json.parse jsonData with
  | Some data =>
      match Storage.importAll namespace setItem_ok data ls with
      | Some ls' => (Imported, ls')
      | None => (Failed type_error, ls)
      end
  | None => (Failed (syntax_error jsonData), ls)
  end.

End Transfer.

End ReportGenerator.

(** ** The pre-bundled copy

    The classes as the bundle has them.  Its text differs from the
    module sources in the two [load] methods, which fall back on data
    shipped with the bundle, and in the methods [getDefaultClasses] and
    [getDefaultStudents] that build this data.  The bundled Storage
    class is, token for token, the one of js/utils/Storage.js, so
    [Storage] stands for both; expressions that the two texts share are
    written with the same auxiliary definitions. *)
Module Bundle.

Module ClassManager.

Definition open_day (s e : string) : DaySchedule :=
  {| enabled := true; startTime := Some s; endTime := Some e |}.

Definition closed_day : DaySchedule :=
  {| enabled := false; startTime := None; endTime := None |}.

(** The class the bundle ships: 2AEP, Monday to Saturday 14:30 to 16:20. *)
Definition getDefaultClasses (h : Host) : list Class :=
  [ {| cls_id := "cls_default";
       cls_name := "2AEP";
       cls_schedule :=
         <["monday" := open_day "14:30" "16:20"]>
         (<["tuesday" := open_day "14:30" "16:20"]>
         (<["wednesday" := open_day "14:30" "16:20"]>
         (<["thursday" := open_day "14:30" "16:20"]>
         (<["friday" := open_day "14:30" "16:20"]>
         (<["saturday" := open_day "14:30" "16:20"]>
         (<["sunday" := closed_day]> ∅))))));
       cls_createdAt := clockISO h |} ].

(** [this.storage.get("classes") || this.getDefaultClasses()]: the
    default of [get] is null, which is falsy; a stored array is truthy,
    even when empty. *)
Definition load (h : Host) (a : App) : App :=
  with_classes
    (match stored_classes (storage a) with
     | Some l => l
     | None => getDefaultClasses h
     end) a.

Definition save (h : Host) (a : App) : App :=
  with_storage (snd (set_classes h (classes a) (storage a))) a.

Definition getAll (a : App) : list Class := classes a.

Definition getById (a : App) (id : string) : option Class :=
  List.find (fun c => String.eqb (cls_id c) id) (classes a).

Definition defaultSchedule : Schedule :=
  <["monday" := open_day "12:30" "14:20"]>
  (<["tuesday" := open_day "12:30" "14:20"]>
  (<["wednesday" := open_day "12:30" "14:20"]>
  (<["thursday" := open_day "12:30" "14:20"]>
  (<["friday" := open_day "12:30" "14:20"]>
  (<["saturday" := open_day "12:30" "14:20"]>
  (<["sunday" := closed_day]> ∅)))))).

Definition generateId (h : Host) : string := "cls_" ++ idSuffix h.

Definition add (h : Host) (name : string) (schedule : JS.arg Schedule)
    (a : App) : Class * App :=
  let schedule := JS.default_param (∅ : Schedule) schedule in
  let newClass :=
    {| cls_id := generateId h;
       cls_name := name;
       cls_schedule := JS.or_object schedule defaultSchedule;
       cls_createdAt := clockISO h |} in
  (newClass, save h (with_classes (classes a ++ [newClass]) a)).

Definition merge (c : Class) (u : ClassUpdates) : Class :=
  {| cls_id := get_or (upd_id u) (cls_id c);
     cls_name := get_or (upd_name u) (cls_name c);
     cls_schedule := get_or (upd_schedule u) (cls_schedule c);
     cls_createdAt := get_or (upd_createdAt u) (cls_createdAt c) |}.

Definition update (h : Host) (id : string) (updates : ClassUpdates)
    (a : App) : option Class * App :=
  match findIndex (fun c => String.eqb (cls_id c) id) (classes a) with
  | Some index =>
      match classes a !! index with
      | Some c =>
          let a' := save h (with_classes (<[index := merge c updates]> (classes a)) a) in
          (classes a' !! index, a')
      | None => (None, a)
      end
  | None => (None, a)
  end.

Definition delete (h : Host) (id : string) (a : App) : App :=
  save h (with_classes
            (List.filter (fun c => negb (String.eqb (cls_id c) id)) (classes a)) a).

Definition dayNames : list string :=
  ["sunday"; "monday"; "tuesday"; "wednesday"; "thursday"; "friday"; "saturday"].

Definition dayName (dayOfWeek : JS.num) : option string :=
  match dayOfWeek with
  | JS.Int n => if 0 <=? n then dayNames !! Z.to_nat n else None
  | JS.NaN => None
  end.

Definition getScheduleForDay (a : App) (classId : string) (dayOfWeek : JS.num)
    : option DaySchedule :=
  match getById a classId with
  | None => None
  | Some classObj =>
      cls_schedule classObj
        !! match dayName dayOfWeek with Some s => s | None => "undefined" end
  end.

End ClassManager.

Module StudentManager.

(** [this.storage.get("students") || this.getDefaultStudents()]; the
    roster the bundle ships (eighteen students of class cls_default) is
    left as a parameter. *)
Definition load (getDefaultStudents : Host -> list Student) (h : Host)
    (a : App) : App :=
  with_students
    (match stored_students (storage a) with
     | Some l => l
     | None => getDefaultStudents h
     end) a.

Definition getByClass (a : App) (classId : string) : list Student :=
  List.filter (fun s => String.eqb (stu_classId s) classId) (students a).

Definition getSortedByName (h : Host) (a : App) (classId : string) : list Student :=
  JS.sort (fun x y => localeCompare h (stu_name x) (stu_name y))
          (getByClass a classId).

End StudentManager.

Module ArrivalTracker.

Definition load (a : App) : App :=
  with_arrivals (get_or (stored_arrivals (storage a)) []) a.

Definition save (h : Host) (a : App) : App :=
  with_storage (snd (set_arrivals h (arrivals a) (storage a))) a.

Definition getAll (a : App) : list Arrival := arrivals a.

Definition getByDate (a : App) (date : string) : list Arrival :=
  List.filter (fun x => String.eqb (arr_date x) date) (arrivals a).

Definition getByClassAndDate (a : App) (classId date : string) : list Arrival :=
  List.filter (fun x => String.eqb (arr_classId x) classId
                        && String.eqb (arr_date x) date) (arrivals a).

Definition generateId (h : Host) : string := "arr_" ++ idSuffix h.

Definition markArrival (h : Host) (studentId classId date : string)
    (time : option string) (a : App) : MarkResult * App :=
  match List.find (fun x => String.eqb (arr_studentId x) studentId
                            && String.eqb (arr_date x) date) (arrivals a) with
  | Some existing =>
      ({| success := false; message := Some "Already marked";
          arrival := existing |}, a)
  | None =>
      let arrivalTime := JS.or_string time (clockTime h) in
      let dayOfWeek :=
        JS.getDay (utcOffset h) (JS.Date_parse (legacyDate h) date) in
      let schedule := ClassManager.getScheduleForDay a classId dayOfWeek in
      let '(minutesLate, status) :=
        match schedule with
        | Some sch =>
            if enabled sch && JS.truthy (get_or (startTime sch) "") then
              let sparts := List.map JS.Number (JS.split ":" (get_or (startTime sch) "")) in
              let aparts := List.map JS.Number (JS.split ":" arrivalTime) in
              let scheduleMinutes :=
                JS.add (JS.mul (ArrivalTracker.component sparts 0) (JS.Int 60))
                       (ArrivalTracker.component sparts 1) in
              let arrivalMinutes :=
                JS.add (JS.mul (ArrivalTracker.component aparts 0) (JS.Int 60))
                       (ArrivalTracker.component aparts 1) in
              let minutesLate :=
                JS.Math_max (JS.Int 0) (JS.sub arrivalMinutes scheduleMinutes) in
              (minutesLate, if JS.gt minutesLate (JS.Int 0) then "late" else "on-time")
            else (JS.Int 0, "on-time")
        | None => (JS.Int 0, "on-time")
        end in
      let arrival :=
        {| arr_id := generateId h;
           arr_studentId := studentId;
           arr_classId := classId;
           arr_date := date;
           arr_time := arrivalTime;
           arr_minutesLate := minutesLate;
           arr_status := status;
           arr_createdAt := clockISO h |} in
      ({| success := true; message := None; arrival := arrival |},
       save h (with_arrivals (arrivals a ++ [arrival]) a))
  end.

Definition removeArrival (h : Host) (studentId date : string) (a : App)
    : bool * App :=
  match findIndex (fun x => String.eqb (arr_studentId x) studentId
                            && String.eqb (arr_date x) date) (arrivals a) with
  | Some index =>
      (true, save h (with_arrivals (take index (arrivals a)
                                    ++ drop (S index) (arrivals a)) a))
  | None => (false, a)
  end.

Definition hasArrived (a : App) (studentId date : string) : option Arrival :=
  List.find (fun x => String.eqb (arr_studentId x) studentId
                      && String.eqb (arr_date x) date) (arrivals a).

Definition getStudentStats (a : App) (studentId : string)
    (startDate endDate : option string) : gmap string JS.num :=
  let filtered :=
    ArrivalTracker.filter_range startDate endDate
      (List.filter (fun x => String.eqb (arr_studentId x) studentId) (arrivals a)) in
  let total := ArrivalTracker.count filtered in
  let tardies :=
    ArrivalTracker.count
      (List.filter (fun x => String.eqb (arr_status x) "late") filtered) in
  let onTime :=
    ArrivalTracker.count
      (List.filter (fun x => String.eqb (arr_status x) "on-time") filtered) in
  let totalMinutesLate :=
    fold_left (fun sum x => JS.add sum (arr_minutesLate x)) filtered (JS.Int 0) in
  let avgMinutesLate := ArrivalTracker.average totalMinutesLate tardies in
  <["totalArrivals" := JS.Int total]>
  (<["onTime" := JS.Int onTime]>
  (<["tardies" := JS.Int tardies]>
  (<["totalMinutesLate" := totalMinutesLate]>
  (<["avgMinutesLate" := avgMinutesLate]> ∅)))).

Definition getClassStats (a : App) (classId : string)
    (startDate endDate : option string) : gmap string JS.num :=
  let filtered :=
    ArrivalTracker.filter_range startDate endDate
      (List.filter (fun x => String.eqb (arr_classId x) classId) (arrivals a)) in
  let tardies :=
    ArrivalTracker.count
      (List.filter (fun x => String.eqb (arr_status x) "late") filtered) in
  let onTime :=
    ArrivalTracker.count
      (List.filter (fun x => String.eqb (arr_status x) "on-time") filtered) in
  <["totalArrivals" := JS.Int (ArrivalTracker.count filtered)]>
  (<["onTime" := JS.Int onTime]>
  (<["tardies" := JS.Int tardies]>
  (<["latenessRate" :=
       if 0 <? ArrivalTracker.count filtered
       then JS.Math_round_percent tardies (ArrivalTracker.count filtered)
       else JS.Int 0]> ∅))).

End ArrivalTracker.

Module ReportGenerator.

Definition generateMonthlyReport (h : Host) (a : App) (classId : string)
    (year month : Z) : option Report :=
  match ClassManager.getById a classId with
  | None => None
  | Some classObj =>
      let students := StudentManager.getByClass a classId in
      let startDate := ReportGenerator.startDate year month in
      let endDate := ReportGenerator.endDate h year month in
      let rows :=
        List.map (ReportGenerator.row startDate endDate
                      (get_or (stored_arrivals (storage a)) [])) students in
      Some {| rep_classId := classId;
              className := cls_name classObj;
              rep_year := year;
              rep_month := month;
              monthName := monthLong h year (month - 1);
              generatedAt := clockISO h;
              rep_students :=
                JS.sort (fun x y => localeCompare h (row_name x) (row_name y)) rows |}
  end.

Definition generateCSV (report : Report) : string :=
  let rows :=
    List.map (fun s => row_name s ++ "," ++ JS.String_of (totalDays s) ++ ","
                       ++ JS.String_of (tardies s) ++ ","
                       ++ ReportGenerator.show (totalMinutesLate s)
                       ++ "," ++ ReportGenerator.show (avgMinutesLate s))
             (rep_students report) in
  let totalDays := ReportGenerator.sum_Z (List.map totalDays (rep_students report)) in
  let totalTardies := ReportGenerator.sum_Z (List.map tardies (rep_students report)) in
  let totalMinutes :=
    fold_left (fun sum s => JS.add sum (totalMinutesLate s))
              (rep_students report) (JS.Int 0) in
  ReportGenerator.join_lines
    (["Rapport de retards - " ++ className report ++ " - " ++ monthName report
        ++ " " ++ JS.String_of (rep_year report);
      "";
      "Nom,Délais,Retards,Minutes de retard, Moyenne"]
     ++ rows
     ++ ["";
         "Total," ++ JS.String_of totalDays ++ "," ++ JS.String_of totalTardies
           ++ "," ++ ReportGenerator.show totalMinutes ++ ","
           ++ ReportGenerator.show (ArrivalTracker.average totalMinutes totalTardies)]).

Definition generateDailySheet (h : Host) (a : App) (classId date : string)
    : option DailySheet :=
  match ClassManager.getById a classId with
  | None => None
  | Some classObj =>
      let students := StudentManager.getSortedByName h a classId in
      let arrivals :=
        List.filter (fun x => String.eqb (arr_classId x) classId
                              && String.eqb (arr_date x) date)
                    (get_or (stored_arrivals (storage a)) []) in
      Some {| sheet_classId := classId;
              sheet_className := cls_name classObj;
              sheet_date := date;
              sheet_students :=
                List.map (fun s =>
                  let arrival :=
                    List.find (fun x => String.eqb (arr_studentId x) (stu_id s)) arrivals in
                  {| sheet_id := stu_id s;
                     sheet_name := stu_name s;
                     sheet_photoUrl := stu_photoUrl s;
                     arrived := match arrival with Some _ => true | None => false end;
                     sheet_time := option_map arr_time arrival;
                     sheet_minutesLate :=
                       match arrival with Some x => arr_minutesLate x | None => JS.Int 0 end;
                     sheet_status :=
                       match arrival with Some x => arr_status x | None => "absent" end |})
                  students |}
  end.

Section Transfer.

Context `{Json.Codec}.
Variable namespace : string.
Variable setItem_ok : gmap string string -> string -> string -> bool.
Variable syntax_error : string -> string.
Variable type_error : string.

Definition exportJSON (ls : gmap string string) : string :=
  Json.stringify_indent (Storage.exportAll namespace ls).

Definition importJSON (jsonData : string) (ls : gmap string string)
    : ReportGenerator.ImportResult * gmap string string :=
  match Json.parse jsonData with
  | Some data =>
      match Storage.importAll namespace setItem_ok data ls with
      | Some ls' => (ReportGenerator.Imported, ls')
      | None => (ReportGenerator.Failed type_error, ls)
      end
  | None => (ReportGenerator.Failed (syntax_error jsonData), ls)
  end.

End Transfer.

End ReportGenerator.

End Bundle.

(** ** The controller (js/views/UI.js) and the application (app.js)

    The handlers of the controller, as the changes they make through
    the managers.  The redraw that ends a handler reads the managers and
    writes the page; it changes no manager and is left out. *)
Module UI.

(** [toggleArrival(studentId)].  It runs on a click on a student card,
    which the tracker view draws once a class is selected; [markArrival]
    is called without a time. *)
Definition toggleArrival (h : Host) (currentClassId currentDate : string)
    (studentId : string) (a : App) : App :=
  match ArrivalTracker.hasArrived a studentId currentDate with
  | Some existing => snd (ArrivalTracker.removeArrival h studentId currentDate a)
  | None =>
      snd (ArrivalTracker.markArrival h studentId currentClassId currentDate None a)
  end.

(** [this.app.classManager.getById(this.currentClassId)]; the field is
    null until a class is selected, and no class has the id null. *)
Definition currentClass (currentClassId : option string) (a : App) : option Class :=
  match currentClassId with
  | Some id => ClassManager.getById a id
  | None => None
  end.

(** The [updates] object [{schedule}]. *)
Definition schedule_update (s : Schedule) : ClassUpdates :=
  {| upd_id := None; upd_name := None; upd_schedule := Some s;
     upd_createdAt := None |}.

(** [classObj.schedule[day]?.enabled || false] *)
Definition day_enabled (s : Schedule) (day : string) : bool :=
  match s !! day with Some e => enabled e | None => false end.

(** [toggleDay(day)]; [None] when it throws: [classObj] is null when no
    class has the current id. *)
Definition toggleDay (h : Host) (currentClassId : option string) (day : string)
    (a : App) : option App :=
  match currentClassId, currentClass currentClassId a with
  | Some id, Some classObj =>
      let current := day_enabled (cls_schedule classObj) day in
      let entry :=
        if current
        then {| enabled := false; startTime := None; endTime := None |}
        else {| enabled := true; startTime := Some "08:00"; endTime := Some "12:00" |} in
      Some (snd (ClassManager.update h id
                   (schedule_update (<[day := entry]> (cls_schedule classObj))) a))
  | _, _ => None
  end.

(** The two fields the schedule view edits. *)
Inductive TimeField := StartTime | EndTime.

(** [{...classObj.schedule[day], [field]: value}]; an entry made from
    no entry has no [enabled], which reads as false. *)
Definition with_time (old : option DaySchedule) (field : TimeField)
    (value : string) : DaySchedule :=
  let e := match old with
           | Some e => e
           | None => {| enabled := false; startTime := None; endTime := None |}
           end in
  match field with
  | StartTime => {| enabled := enabled e; startTime := Some value; endTime := endTime e |}
  | EndTime => {| enabled := enabled e; startTime := startTime e; endTime := Some value |}
  end.

(** [updateSchedule(day, field, value)]; [None] when it throws. *)
Definition updateSchedule (h : Host) (currentClassId : option string)
    (day : string) (field : TimeField) (value : string) (a : App) : option App :=
  match currentClassId, currentClass currentClassId a with
  | Some id, Some classObj =>
      let entry := with_time (cls_schedule classObj !! day) field value in
      Some (snd (ClassManager.update h id
                   (schedule_update (<[day := entry]> (cls_schedule classObj))) a))
  | _, _ => None
  end.

End UI.

Module Main.

(** [init()]: the three loads.  The controller's own [init] that
    follows draws the page. *)
Definition init (a : App) : App :=
  ArrivalTracker.load (StudentManager.load (ClassManager.load a)).

End Main.

(** ** A codec for the JSON texts of the examples

    Integers, strings with the two-character escapes, arrays and
    objects, compact or indented by two blanks.  It reads no text that
    [JSON.parse] rejects; fractions, exponents and [\u] escapes it does
    not read at all. *)
Module MiniJSON.
Import Json.

(** The double quote. *)
Definition dq : ascii := "034".

Definition escape_char (c : ascii) : string :=
  if Ascii.eqb c dq then String "\" (String dq EmptyString)
  else if Ascii.eqb c "\" then "\\"
  else if Ascii.eqb c "010" then "\n"
  else if Ascii.eqb c "009" then "\t"
  else if Ascii.eqb c "013" then "\r"
  else String c EmptyString.

Fixpoint escape (s : string) : string :=
  match s with
  | EmptyString => EmptyString
  | String c r => escape_char c ++ escape r
  end.

Definition quote (s : string) : string :=
  String dq (escape s ++ String dq EmptyString).

Fixpoint join (sep : string) (l : list string) : string :=
  match l with
  | [] => ""
  | [x] => x
  | x :: r => x ++ sep ++ join sep r
  end.

Fixpoint print (v : json) : string :=
  match v with
  | JNull => "null"
  | JBool b => if b then "true" else "false"
  | JNum z => JS.String_of z
  | JStr s => quote s
  | JArr l => "[" ++ join "," (List.map print l) ++ "]"
  | JObj l =>
      "{" ++ join "," (List.map (fun kv => quote (fst kv) ++ ":" ++ print (snd kv)) l)
          ++ "}"
  end.

Definition newline : string := String "010" EmptyString.

Fixpoint print_indent (pad : string) (v : json) : string :=
  match v with
  | JArr [] => "[]"
  | JObj [] => "{}"
  | JArr l =>
      "[" ++ newline ++ pad ++ "  "
        ++ join ("," ++ newline ++ pad ++ "  ")
                (List.map (print_indent (pad ++ "  ")) l)
        ++ newline ++ pad ++ "]"
  | JObj l =>
      "{" ++ newline ++ pad ++ "  "
        ++ join ("," ++ newline ++ pad ++ "  ")
                (List.map (fun kv => quote (fst kv) ++ ": "
                                     ++ print_indent (pad ++ "  ") (snd kv)) l)
        ++ newline ++ pad ++ "}"
  | _ => print v
  end.

Definition is_ws (c : ascii) : bool :=
  Ascii.eqb c " " || Ascii.eqb c "010" || Ascii.eqb c "009" || Ascii.eqb c "013".

Fixpoint skip_ws (s : string) : string :=
  match s with
  | String c r => if is_ws c then skip_ws r else s
  | EmptyString => s
  end.

(** The characters after an opening quote, up to the closing one. *)
Fixpoint read_string (acc : string) (s : string) : option (string * string) :=
  match s with
  | EmptyString => None
  | String c r =>
      if Ascii.eqb c dq then Some (String.rev acc, r)
      else if Ascii.eqb c "\" then
        match r with
        | String e r' =>
            if Ascii.eqb e dq then read_string (String dq acc) r'
            else if Ascii.eqb e "\" then read_string (String "\" acc) r'
            else if Ascii.eqb e "/" then read_string (String "/" acc) r'
            else if Ascii.eqb e "n" then read_string (String "010" acc) r'
            else if Ascii.eqb e "t" then read_string (String "009" acc) r'
            else if Ascii.eqb e "r" then read_string (String "013" acc) r'
            else None
        | EmptyString => None
        end
      else if (N_of_ascii c <? 32)%N then None
      else read_string (String c acc) r
  end.

Fixpoint read_digits (acc : Z) (s : string) : Z * string :=
  match s with
  | String c r => if JS.is_digit c then read_digits (10 * acc + JS.digit_val c) r
                  else (acc, s)
  | EmptyString => (acc, s)
  end.

Definition stops_number (s : string) : bool :=
  match s with
  | String c _ => negb (Ascii.eqb c "." || Ascii.eqb c "e" || Ascii.eqb c "E")
  | EmptyString => true
  end.

(** An integer: no leading zero, no fraction, no exponent. *)
Definition read_int (s : string) : option (Z * string) :=
  let '(neg, s1) :=
    match s with
    | String "-" r => (true, r)
    | _ => (false, s)
    end in
  match s1 with
  | String c r =>
      if Ascii.eqb c "0" then
        match r with
        | String d _ => if JS.is_digit d || negb (stops_number r) then None
                        else Some (0, r)
        | EmptyString => Some (0, r)
        end
      else if JS.is_digit c then
        let '(z, r') := read_digits 0 s1 in
        if stops_number r' then Some (if neg then - z else z, r') else None
      else None
  | EmptyString => None
  end.

Fixpoint read_value (fuel : nat) (s : string) : option (json * string) :=
  match fuel with
  | O => None
  | S f =>
      match skip_ws s with
      | String "n" (String "u" (String "l" (String "l" r))) => Some (JNull, r)
      | String "t" (String "r" (String "u" (String "e" r))) => Some (JBool true, r)
      | String "f" (String "a" (String "l" (String "s" (String "e" r)))) =>
          Some (JBool false, r)
      | String "034" r =>
          match read_string EmptyString r with
          | Some (x, r') => Some (JStr x, r')
          | None => None
          end
      | String "[" r =>
          match skip_ws r with
          | String "]" r' => Some (JArr [], r')
          | r1 => read_elements f r1 []
          end
      | String "{" r =>
          match skip_ws r with
          | String "}" r' => Some (JObj [], r')
          | r1 => read_members f r1 []
          end
      | s1 =>
          match read_int s1 with
          | Some (z, r) => Some (JNum z, r)
          | None => None
          end
      end
  end
with read_elements (fuel : nat) (s : string) (acc : list json)
    : option (json * string) :=
  match fuel with
  | O => None
  | S f =>
      match read_value f s with
      | Some (v, r) =>
          match skip_ws r with
          | String "," r' => read_elements f r' (v :: acc)
          | String "]" r' => Some (JArr (List.rev (v :: acc)), r')
          | _ => None
          end
      | None => None
      end
  end
with read_members (fuel : nat) (s : string) (acc : list (string * json))
    : option (json * string) :=
  match fuel with
  | O => None
  | S f =>
      match skip_ws s with
      | String "034" r =>
          match read_string EmptyString r with
          | Some (k, r1) =>
              match skip_ws r1 with
              | String ":" r2 =>
                  match read_value f r2 with
                  | Some (v, r3) =>
                      match skip_ws r3 with
                      | String "," r' => read_members f r' (put k v acc)
                      | String "}" r' => Some (JObj (put k v acc), r')
                      | _ => None
                      end
                  | None => None
                  end
              | _ => None
              end
          | None => None
          end
      | _ => None
      end
  end.

Definition read (s : string) : option json :=
  match read_value (2 * String.length s + 2) s with
  | Some (v, r) => match skip_ws r with EmptyString => Some v | _ => None end
  | None => None
  end.

Definition codec : Codec :=
  {| parse := read; stringify := print; stringify_indent := print_indent "" |}.

End MiniJSON.

(** ** Vocabulary of the statements *)

(** *** Times of day *)

(** The shape "HH:MM": two digits, a colon, two digits. *)
Definition isHHMM (s : string) : bool :=
  match s with
  | String a (String b (String c (String d (String e EmptyString)))) =>
      JS.is_digit a && JS.is_digit b && Ascii.eqb c ":"
      && JS.is_digit d && JS.is_digit e
  | _ => false
  end.

(** Minutes since midnight of an "HH:MM" time. *)
Definition minutes_of (s : string) : Z :=
  match s with
  | String a (String b (String _ (String d (String e _)))) =>
      (10 * JS.digit_val a + JS.digit_val b) * 60
      + (10 * JS.digit_val d + JS.digit_val e)
  | _ => 0
  end.

(** *** Weekdays *)

(** The weekday of the calendar day that an ISO date "YYYY-MM-DD"
    names, 0 for Sunday as in [dayNames] (1970-01-01, day 0, was a
    Thursday); [None] when the text names no calendar day. *)
Definition weekday (date : string) : option Z :=
  option_map (fun t => (t / JS.msPerDay + 4) mod 7) (JS.parse_iso_date date).

(** The weekday before. *)
Definition day_before (n : Z) : Z := (n + 6) mod 7.

(** The weekday whose entry [markArrival] reads for a date that falls
    on weekday [n]: that weekday on a host on UTC or east of it, the
    weekday before on a host west of UTC. *)
Definition judged_weekday (h : Host) (n : Z) : Z :=
  if 0 <=? utcOffset h then n else day_before n.

(** The local time of the host is less than a day from UTC. *)
Definition within_a_day (h : Host) : Prop := -1440 < utcOffset h < 1440.

(** *** The ledger and its operations *)

Inductive LedgerOp :=
| Mark (h : Host) (studentId classId date : string) (time : option string)
| Remove (h : Host) (studentId date : string)
| Load.

Definition ledger_step (a : App) (op : LedgerOp) : App :=
  match op with
  | Mark h studentId classId date time =>
      snd (ArrivalTracker.markArrival h studentId classId date time a)
  | Remove h studentId date => snd (ArrivalTracker.removeArrival h studentId date a)
  | Load => ArrivalTracker.load a
  end.

Definition ledger_run (ops : list LedgerOp) (a : App) : App :=
  fold_left ledger_step ops a.

Definition key (x : Arrival) : string * string := (arr_studentId x, arr_date x).

(** At most one arrival per student and date. *)
Definition one_per_key (l : list Arrival) : Prop := List.NoDup (List.map key l).

(** The invariant, on the tracker's array and on its stored copy. *)
Definition ledger_inv (a : App) : Prop :=
  one_per_key (arrivals a)
  ∧ one_per_key (get_or (stored_arrivals (storage a)) []).

(** *** The mutating operations of the registry and of the ledger *)

Inductive AppOp :=
| ClassAdd (h : Host) (name : string) (schedule : JS.arg Schedule)
| ClassUpdate (h : Host) (id : string) (updates : ClassUpdates)
| ClassDelete (h : Host) (id : string)
| ArrivalMark (h : Host) (studentId classId date : string) (time : option string)
| ArrivalRemove (h : Host) (studentId date : string).

Definition app_step (a : App) (op : AppOp) : App :=
  match op with
  | ClassAdd h name schedule => snd (ClassManager.add h name schedule a)
  | ClassUpdate h id updates => snd (ClassManager.update h id updates a)
  | ClassDelete h id => ClassManager.delete h id a
  | ArrivalMark h studentId classId date time =>
      snd (ArrivalTracker.markArrival h studentId classId date time a)
  | ArrivalRemove h studentId date =>
      snd (ArrivalTracker.removeArrival h studentId date a)
  end.

Definition app_run (ops : list AppOp) (a : App) : App := fold_left app_step ops a.

(** The record an accepted [markArrival] builds. *)
Definition built (a : App) (op : AppOp) : list Arrival :=
  match op with
  | ArrivalMark h studentId classId date time =>
      let r := fst (ArrivalTracker.markArrival h studentId classId date time a) in
      if success r then [arrival r] else []
  | _ => []
  end.

(** The records the accepted [markArrival] calls of a run build, each
    in the state its call finds. *)
Fixpoint built_by (ops : list AppOp) (a : App) : list Arrival :=
  match ops with
  | [] => []
  | op :: r => (built a op ++ built_by r (app_step a op))%list
  end.

Definition is_removal (op : AppOp) : bool :=
  match op with ArrivalRemove _ _ _ => true | _ => false end.

(** *** Statistics *)

(** A record as [markArrival] classifies it: a number of minutes that is
    not negative, and "late" exactly when it is positive. *)
Definition classified (x : Arrival) : Prop :=
  ∃ m, arr_minutesLate x = JS.Int m ∧ 0 ≤ m ∧ (arr_status x = "late" ↔ 0 < m).

Definition minutes (x : Arrival) : Z :=
  match arr_minutesLate x with JS.Int m => m | JS.NaN => 0 end.

(** The inclusive date range; a bound that is not given leaves its side
    open. *)
Definition in_range (startDate endDate : option string) (x : Arrival) : bool :=
  match startDate with Some s => String.leb s (arr_date x) | None => true end
  && match endDate with Some e => String.leb (arr_date x) e | None => true end.

(** The late entries of an entity within the range. *)
Definition late_entries (p : Arrival -> bool) (startDate endDate : option string)
    (l : list Arrival) : list Arrival :=
  List.filter (fun x => p x && in_range startDate endDate x
                        && String.eqb (arr_status x) "late") l.

Definition total_minutes (l : list Arrival) : Z :=
  fold_right Z.add 0 (List.map minutes l).

(** [r] is the quotient [a / b] rounded to the nearest integer, a tie
    going away from zero (for [a >= 0] and [b > 0]). *)
Definition rounded_quotient (a b r : Z) : Prop :=
  2 * r * b - b ≤ 2 * a < 2 * r * b + b.

(** *** The raw store *)

Section StoreVocabulary.

Context `{Json.Codec}.
Variable namespace : string.

(** An item as [Storage.set] writes it: the serialization of the value
    it parses to. *)
Definition written (item : string) : Prop :=
  JS.truthy item = true
  ∧ ∃ v, Json.parse item = Some v ∧ Json.stringify v = item.

(** Every item under the namespace was written by [Storage.set]. *)
Definition well_formed (ls : gmap string string) : Prop :=
  ∀ key item, ls !! key = Some item →
    JS.startsWith (namespace ++ ":") key = true → written item.

(** A value whose serialization is such an item. *)
Definition writable (v : Json.json) : Prop := written (Json.stringify v).

(** The calls that change the items of the namespace. *)
Inductive StorageOp :=
| StorageSet (quota : gmap string string -> string -> string -> bool)
    (key : string) (data : Json.json)
| StorageRemove (key : string)
| StorageClear.

Definition storage_step (ls : gmap string string) (op : StorageOp)
    : gmap string string :=
  match op with
  | StorageSet quota key data => snd (Storage.set namespace quota key data ls)
  | StorageRemove key => Storage.remove namespace key ls
  | StorageClear => Storage.clearAll namespace ls
  end.

Definition storage_run (ops : list StorageOp) (ls : gmap string string)
    : gmap string string :=
  fold_left storage_step ops ls.

Definition writes_writable (op : StorageOp) : Prop :=
  match op with
  | StorageSet _ _ data => writable data
  | _ => True
  end.

(** No item under the namespace. *)
Definition fresh (ls : gmap string string) : Prop :=
  ∀ key, JS.startsWith (namespace ++ ":") key = true → ls !! key = None.

(** What [exportAll] puts under a short key. *)
Definition exported (ls : gmap string string) (entry : string * Json.json)
    : Prop :=
  fst entry ≠ "__proto__"
  ∧ is_Some (ls !! Storage.item_key namespace (fst entry))
  ∧ snd entry = Storage.get namespace (fst entry) Json.JNull ls.

End StoreVocabulary.

(** A browser that takes every write, and one that takes none. *)
Definition accept_all : gmap string string -> string -> string -> bool :=
  fun _ _ _ => true.

Definition reject_all : gmap string string -> string -> string -> bool :=
  fun _ _ _ => false.

(** *** Sample hosts and data *)

Definition empty_store : Store :=
  {| stored_classes := None; stored_students := None; stored_arrivals := None |}.

Definition empty_app : App :=
  {| storage := empty_store; classes := []; students := []; arrivals := [] |}.

Definition byte_order (x y : string) : Z :=
  match String.compare x y with Lt => -1 | Eq => 0 | Gt => 1 end.

Definition host_at (offset : Z) : Host :=
  {| utcOffset := offset;
     legacyDate := fun _ => None;
     clockTime := "12:00";
     clockISO := "2024-03-04T12:00:00.000Z";
     idSuffix := "lt9x0k3ab12";
     setItemOk := fun _ => true;
     localeCompare := byte_order;
     monthLong := fun _ _ => "" |}.

(** A host on UTC, one an hour east of it, one five hours west. *)
Definition utc_host : Host := host_at 0.
Definition east_host : Host := host_at 60.
Definition west_host : Host := host_at (-300).

Definition demo_class : Class :=
  {| cls_id := "cls_1"; cls_name := "1AEP";
     cls_schedule := ClassManager.defaultSchedule;
     cls_createdAt := "2024-01-08T08:00:00.000Z" |}.

Definition demo_student : Student :=
  {| stu_id := "stu_1"; stu_name := "Amal"; stu_classId := "cls_1";
     stu_photoUrl := None; stu_createdAt := "2024-01-08T08:05:00.000Z" |}.

Definition sample_arrival (id studentId date time : string) (m : Z) : Arrival :=
  {| arr_id := id; arr_studentId := studentId; arr_classId := "cls_1";
     arr_date := date; arr_time := time; arr_minutesLate := JS.Int m;
     arr_status := if 0 <? m then "late" else "on-time";
     arr_createdAt := "2024-03-04T12:00:00.000Z" |}.

Definition app_with (l : list Arrival) : App :=
  {| storage := {| stored_classes := Some [demo_class];
                   stored_students := Some [demo_student];
                   stored_arrivals := Some l |};
     classes := [demo_class]; students := [demo_student]; arrivals := l |}.

(** One arrival on the leap day, one on the first of March. *)
Definition february_app : App :=
  app_with [sample_arrival "arr_1" "stu_1" "2024-02-29" "12:45" 15;
            sample_arrival "arr_2" "stu_1" "2024-03-01" "12:30" 0].

Definition days_reported (r : option Report) : option (list Z) :=
  option_map (fun r => List.map totalDays (rep_students r)) r.

(** The last calendar day of a month and the day before it, as ISO dates. *)
Definition last_day (year month : Z) : string :=
  JS.iso_year year ++ "-" ++ JS.pad2 month ++ "-"
    ++ JS.pad2 (JS.days_in_month year month).

Definition before_last_day (year month : Z) : string :=
  JS.iso_year year ++ "-" ++ JS.pad2 month ++ "-"
    ++ JS.pad2 (JS.days_in_month year month - 1).

Definition months_of (years : list Z) : list (Z * Z) :=
  y ← years; m ← [1; 2; 3; 4; 5; 6; 7; 8; 9; 10; 11; 12]; [(y, m)].

Definition years_1970_2100 : list Z :=
  List.map (fun i => 1970 + Z.of_nat i) (seq 0 131).

(** Does the double quotient [a / b] round as the exact one does? *)
Definition double_quotient_rounds_alike (a b : Z) : bool :=
  match JS.Math_round (PrimFloat.div (JS.float_of_Z a) (JS.float_of_Z b)) with
  | JS.Int r => r =? JS.Math_round_div a b
  | JS.NaN => false
  end.

Definition upto (n : nat) : list Z := List.map Z.of_nat (seq 0 n).

(** Forty arrivals of one day, the first [late] of them late by ten
    minutes. *)
Definition day_of_forty (late : nat) : list Arrival :=
  List.map (fun i => sample_arrival ("arr_" ++ JS.String_of (Z.of_nat i))
                                    ("stu_" ++ JS.String_of (Z.of_nat i))
                                    "2024-03-04" "12:40"
                                    (if (i <? late)%nat then 10 else 0))
           (seq 0 40).

(** A store holding an empty class list, one arrival list and a key of
    another application. *)
Definition sample_items : gmap string string :=
  <["lateness-tracker:classes" := MiniJSON.print (Json.JArr [])]>
  (<["lateness-tracker:arrivals" :=
       MiniJSON.print
         (Json.JArr [Json.JObj [("id", Json.JStr "arr_1");
                                ("studentId", Json.JStr "stu_1");
                                ("date", Json.JStr "2024-03-04");
                                ("minutesLate", Json.JNum 15);
                                ("status", Json.JStr "late")]])]>
  (<["theme" := "dark"]> ∅)).

(** The values the application saves for one class, one student and
    one arrival. *)
Definition sample_classes_json : Json.json :=
  Json.JArr
    [Json.JObj
       [("id", Json.JStr "cls_1"); ("name", Json.JStr "1AEP");
        ("schedule",
         Json.JObj
           [("monday", Json.JObj [("enabled", Json.JBool true);
                                  ("startTime", Json.JStr "12:30");
                                  ("endTime", Json.JStr "14:20")]);
            ("sunday", Json.JObj [("enabled", Json.JBool false)])]);
        ("createdAt", Json.JStr "2024-01-08T08:00:00.000Z")]].

Definition sample_students_json : Json.json :=
  Json.JArr
    [Json.JObj
       [("id", Json.JStr "stu_1"); ("name", Json.JStr "Amal");
        ("classId", Json.JStr "cls_1"); ("photoUrl", Json.JNull);
        ("createdAt", Json.JStr "2024-01-08T08:05:00.000Z")]].

Definition sample_arrivals_json : Json.json :=
  Json.JArr
    [Json.JObj
       [("id", Json.JStr "arr_1"); ("studentId", Json.JStr "stu_1");
        ("classId", Json.JStr "cls_1"); ("date", Json.JStr "2024-03-04");
        ("time", Json.JStr "12:45"); ("minutesLate", Json.JNum 15);
        ("status", Json.JStr "late");
        ("createdAt", Json.JStr "2024-03-04T12:45:10.000Z")]].

(** The store after the three are saved, in a browser that takes every
    write and holds an item of another application. *)
Definition saved_items : gmap string string :=
  storage_run (H := MiniJSON.codec) "lateness-tracker"
    [StorageSet accept_all "classes" sample_classes_json;
     StorageSet accept_all "students" sample_students_json;
     StorageSet accept_all "arrivals" sample_arrivals_json]
    (<["theme" := "dark"]> ∅).

(** A store of another browser, with an older class list. *)
Definition other_items : gmap string string :=
  <["lateness-tracker:classes" := "[]"]> (<["theme" := "light"]> ∅).

(** A store whose class list is not a JSON text. *)
Definition corrupt_items : gmap string string :=
  <["lateness-tracker:classes" := "{oops"]> ∅.

Definition sample_bundle : string :=
  MiniJSON.print (Json.JObj [("classes", Json.JArr []); ("arrivals", Json.JArr [])]).


(** *** Every call that changes the state *)

Inductive Action :=
| Edit (op : AppOp)
| StudentAdd (h : Host) (name classId : string) (photoUrl : option string)
| StudentUpdate (h : Host) (id : string) (updates : StudentUpdates)
| StudentDelete (h : Host) (id : string)
| StudentImport (hs : nat -> Host) (csvContent classId : string)
| ToggleArrival (h : Host) (currentClassId currentDate studentId : string)
| ToggleDay (h : Host) (currentClassId : option string) (day : string)
| UpdateSchedule (h : Host) (currentClassId : option string) (day : string)
    (field : UI.TimeField) (value : string).

(** A handler that throws leaves the state as it was. *)
Definition perform (a : App) (act : Action) : App :=
  match act with
  | Edit op => app_step a op
  | StudentAdd h name classId photoUrl =>
      snd (StudentManager.add h name classId photoUrl a)
  | StudentUpdate h id updates => snd (StudentManager.update h id updates a)
  | StudentDelete h id => StudentManager.delete h id a
  | StudentImport hs csvContent classId =>
      snd (StudentManager.importFromCSV hs csvContent classId a)
  | ToggleArrival h currentClassId currentDate studentId =>
      UI.toggleArrival h currentClassId currentDate studentId a
  | ToggleDay h currentClassId day =>
      default a (UI.toggleDay h currentClassId day a)
  | UpdateSchedule h currentClassId day field value =>
      default a (UI.updateSchedule h currentClassId day field value a)
  end.

Definition run (acts : list Action) (a : App) : App := fold_left perform acts a.

(** The browser takes every write of the call. *)
Definition takes_writes (h : Host) : Prop := ∀ key, setItemOk h key = true.

Definition accepted (act : Action) : Prop :=
  match act with
  | Edit (ClassAdd h _ _) | Edit (ClassUpdate h _ _) | Edit (ClassDelete h _)
  | Edit (ArrivalMark h _ _ _ _) | Edit (ArrivalRemove h _ _)
  | StudentAdd h _ _ _ | StudentUpdate h _ _ | StudentDelete h _
  | ToggleArrival h _ _ _ | ToggleDay h _ _ | UpdateSchedule h _ _ _ _ =>
      takes_writes h
  | StudentImport hs _ _ => ∀ i, takes_writes (hs i)
  end.

(** A record whose minutes are a number.  (The store keeps a record as
    JSON text, in which NaN is written as null.) *)
Definition numbered (x : Arrival) : Prop := arr_minutesLate x ≠ JS.NaN.

(** The arrays of the managers are the ones the store holds. *)
Definition in_sync (a : App) : Prop :=
  classes a = get_or (stored_classes (storage a)) []
  ∧ students a = get_or (stored_students (storage a)) []
  ∧ arrivals a = get_or (stored_arrivals (storage a)) [].

(** A host whose browser takes no write: the quota is used up. *)
Definition full_host : Host :=
  {| utcOffset := 0; legacyDate := fun _ => None; clockTime := "12:00";
     clockISO := "2024-03-04T12:00:00.000Z"; idSuffix := "lt9x0k3ab12";
     setItemOk := fun _ => false; localeCompare := byte_order;
     monthLong := fun _ _ => "" |}.

(** *** The text of a roster

    The lines [importFromCSV] goes through, each with its index: the
    lines of the trimmed text, the first one left out when it has the
    word "name" in it, in any case of the letters. *)
Fixpoint numbered_from {A} (i : nat) (l : list A) : list (nat * A) :=
  match l with
  | [] => []
  | x :: r => (i, x) :: numbered_from (S i) r
  end.

Definition csv_lines (csvContent : string) : list (nat * string) :=
  match numbered_from 0 (JS.split "010" (JS.trim csvContent)) with
  | [] => []
  | (i, l0) :: rest =>
      if JS.includes "name" (JS.toLowerCase l0) then rest else (i, l0) :: rest
  end.

(** The fields of a line: what is left of it once trimmed is cut at
    the commas, and each part trimmed. *)
Definition csv_fields (raw : string) : list string :=
  List.map JS.trim (JS.split "," (JS.trim raw)).

Definition csv_name (raw : string) : string :=
  match csv_fields raw with n :: _ => n | [] => "" end.

Definition csv_photo (raw : string) : option string :=
  match csv_fields raw with
  | _ :: p :: _ => if JS.truthy p then Some p else None
  | _ => None
  end.

Definition is_blank (raw : string) : bool := negb (JS.truthy (JS.trim raw)).

(** A line with a name, and a line with text but no name. *)
Definition has_name (line : nat * string) : bool :=
  negb (is_blank (snd line)) && JS.truthy (csv_name (snd line)).

Definition lacks_name (line : nat * string) : bool :=
  negb (is_blank (snd line)) && negb (JS.truthy (csv_name (snd line))).

(** The student [add] makes of a line, on the host of its turn. *)
Definition student_of_line (hs : nat -> Host) (classId : string)
    (line : nat * string) : Student :=
  {| stu_id := "stu_" ++ idSuffix (hs (fst line));
     stu_name := csv_name (snd line);
     stu_classId := classId;
     stu_photoUrl := csv_photo (snd line);
     stu_createdAt := clockISO (hs (fst line)) |}.

Definition error_of_line (line : nat * string) : string :=
  "Line " ++ JS.String_of (Z.of_nat (fst line) + 1) ++ ": Empty name".

(** A roster of three lines under a header, one of them without a
    name, and a roster without a header whose first pupil is called
    Nameer. *)
Definition newline : string := String "010" EmptyString.

Definition sample_csv : string :=
  "Name,Photo" ++ newline ++ "Ahmed" ++ newline ++ " ,x.jpg" ++ newline
  ++ "Sara , https://example.org/sara.jpg ".

Definition headless_csv : string := "Nameer" ++ newline ++ "Ahmed".

(** *** The ledger *)

(** A record with one of the two statuses [markArrival] gives. *)
Definition statused (x : Arrival) : Prop :=
  arr_status x = "late" ∨ arr_status x = "on-time".

Definition ledger_statused (a : App) : Prop :=
  Forall statused (arrivals a)
  ∧ Forall statused (get_or (stored_arrivals (storage a)) []).

(** No lesson to be late for: the class is unknown or has no entry for
    the day, or the entry is not enabled or has no start time. *)
Definition no_lesson (entry : option DaySchedule) : Prop :=
  match entry with
  | None => True
  | Some sch =>
      enabled sch = false ∨ startTime sch = None ∨ startTime sch = Some ""
  end.

(** The call is accepted and records the student on time, with 0
    minutes, at the time given or else at the time of the clock. *)
Definition recorded_on_time (h : Host) (s c d : string) (t : option string)
    (a : App) : Prop :=
  success (fst (ArrivalTracker.markArrival h s c d t a)) = true
  ∧ arrival (fst (ArrivalTracker.markArrival h s c d t a))
    = {| arr_id := "arr_" ++ idSuffix h; arr_studentId := s; arr_classId := c;
         arr_date := d; arr_time := JS.or_string t (clockTime h);
         arr_minutesLate := JS.Int 0; arr_status := "on-time";
         arr_createdAt := clockISO h |}
  ∧ ArrivalTracker.hasArrived (snd (ArrivalTracker.markArrival h s c d t a)) s d
    = Some (arrival (fst (ArrivalTracker.markArrival h s c d t a))).

(** A host five hours west of UTC whose clock shows a quarter to one. *)
Definition west_host_at_1245 : Host :=
  {| utcOffset := -300; legacyDate := fun _ => None; clockTime := "12:45";
     clockISO := "2024-03-10T17:45:00.000Z"; idSuffix := "lt9x0k3ab13";
     setItemOk := fun _ => true; localeCompare := byte_order;
     monthLong := fun _ _ => "" |}.

(** *** Order *)

(** A comparison that orders, as [sort] asks of its argument: the two
    ways of comparing two elements have opposite signs, and the
    comparison is transitive. *)
Definition consistent {A} (cmp : A -> A -> Z) : Prop :=
  (∀ x y, cmp x y ≤ 0 ↔ 0 ≤ cmp y x)
  ∧ (∀ x y z, cmp x y ≤ 0 → cmp y z ≤ 0 → cmp x z ≤ 0).

(** No element compares greater than a later one. *)
Fixpoint ascending {A} (cmp : A -> A -> Z) (l : list A) : Prop :=
  match l with
  | [] => True
  | x :: r => Forall (fun y => cmp x y ≤ 0) r ∧ ascending cmp r
  end.

(** *** The daily sheet *)

(** The stored arrival of a student for a class and a date, the first
    when there are several. *)
Definition stored_arrival (a : App) (studentId classId date : string)
    : option Arrival :=
  List.find (fun x => String.eqb (arr_studentId x) studentId
                      && String.eqb (arr_classId x) classId
                      && String.eqb (arr_date x) date)
            (get_or (stored_arrivals (storage a)) []).

(** The text has no line feed. *)
Definition one_line (s : string) : Prop :=
  ∀ c, In c (list_ascii_of_string s) → c ≠ "010"%char.

(** A report of two rows. *)
Definition sample_report : Report :=
  {| rep_classId := "cls_1"; className := "1AEP"; rep_year := 2024; rep_month := 3;
     monthName := "mars"; generatedAt := "2024-04-01T08:00:00.000Z";
     rep_students :=
       [ {| row_id := "stu_1"; row_name := "Amal"; row_photoUrl := None;
            totalDays := 3; onTime := 1; tardies := 2;
            totalMinutesLate := JS.Int 40; avgMinutesLate := JS.Int 20;
            row_arrivals := [] |};
         {| row_id := "stu_2"; row_name := "Bilal"; row_photoUrl := None;
            totalDays := 2; onTime := 2; tardies := 0;
            totalMinutesLate := JS.Int 0; avgMinutesLate := JS.Int 0;
            row_arrivals := [] |} ] |}.
(** * Theorems *)

(** ** The runtime fragment on sample inputs *)

Example split_time : JS.split ":" "12:30" = ["12"; "30"].
Proof. reflexivity. Qed.

Example number_of_components :
  List.map JS.Number (JS.split ":" "09:05") = [JS.Int 9; JS.Int 5].
Proof. reflexivity. Qed.

Example iso_leap_day :
  JS.toISOString (JS.Date_local 0 2024 2 0) = "2024-02-29T00:00:00.000Z".
Proof. vm_compute. reflexivity. Qed.

Example iso_leap_day_east :
  JS.toISOString (JS.Date_local 60 2024 2 0) = "2024-02-28T23:00:00.000Z".
Proof. vm_compute. reflexivity. Qed.

Example monday_2024_03_04 :
  ArrivalTracker.dayOfWeek utc_host "2024-03-04" = JS.Int 1.
Proof. vm_compute. reflexivity. Qed.

Example sunday_west_of_utc :
  ArrivalTracker.dayOfWeek west_host "2024-03-04" = JS.Int 0.
Proof. vm_compute. reflexivity. Qed.

Example round_ties_up :
  JS.Math_round_div 5 2 = 3 ∧ JS.Math_round_div 40 2 = 20
  ∧ JS.Math_round_div 7 3 = 2.
Proof. repeat split. Qed.

(** [Math.round(a / b)] in double arithmetic is the exact rounding, here
    for every total up to 1500 minutes and every count from 1 to 31. *)
Example round_div_is_the_double :
  forallb (fun b => forallb (fun a => double_quotient_rounds_alike a (b + 1))
                            (upto 1501))
          (upto 31) = true.
Proof. vm_compute. reflexivity. Qed.

Example percent_23_of_40 : JS.Math_round_percent 23 40 = JS.Int 57.
Proof. vm_compute. reflexivity. Qed.

Example percent_1_of_8 : JS.Math_round_percent 1 8 = JS.Int 13.
Proof. vm_compute. reflexivity. Qed.

Example read_printed :
  MiniJSON.read sample_bundle
  = Some (Json.JObj [("classes", Json.JArr []); ("arrivals", Json.JArr [])]).
Proof. vm_compute. reflexivity. Qed.

Example read_rejects : MiniJSON.read "{oops" = None.
Proof. vm_compute. reflexivity. Qed.

(** ** Schedule Registry *)

Lemma default_schedule_not_empty : ClassManager.defaultSchedule ≠ ∅.
Proof.
  intros E.
  assert (H : ClassManager.defaultSchedule !! "monday"
              = (∅ : Schedule) !! "monday") by (rewrite E; reflexivity).
  vm_compute in H. discriminate.
Qed.

Lemma default_schedule_days :
  ClassManager.defaultSchedule !! "monday"
    = Some (ClassManager.open_day "12:30" "14:20")
  ∧ ClassManager.defaultSchedule !! "saturday"
    = Some (ClassManager.open_day "12:30" "14:20")
  ∧ ClassManager.defaultSchedule !! "sunday" = Some ClassManager.closed_day.
Proof. repeat split. Qed.

(** The sibling path: an explicit null does get the default schedule. *)
Lemma add_null_schedule h name a :
  cls_schedule (fst (ClassManager.add h name JS.Null a))
  = ClassManager.defaultSchedule.
Proof. reflexivity. Qed.

Lemma add_given_schedule h name s a :
  cls_schedule (fst (ClassManager.add h name (JS.Val s) a)) = s.
Proof. reflexivity. Qed.

(** C1 (the code departs from the claim).  Calling [add] with a name
    and no schedule does not create a class with the default weekly
    schedule: the default parameter [schedule = {}] is truthy, so
    [schedule || this.defaultSchedule()] keeps the empty object.  For
    every host, name and state the new class has the empty schedule,
    which differs from the default one and has no Monday entry. *)
Theorem add_without_schedule_keeps_empty_object
    (h : Host) (name : string) (a : App) :
  let c := fst (ClassManager.add h name JS.Undefined a) in
  cls_schedule c = ∅
  ∧ cls_schedule c ≠ ClassManager.defaultSchedule
  ∧ cls_schedule c !! "monday" = None
  ∧ ClassManager.getById (snd (ClassManager.add h name JS.Undefined empty_app))
                         (cls_id c) = Some c.
Proof.
  cbn zeta. split; [reflexivity|]. split; [|split].
  - intros E. symmetry in E. exact (default_schedule_not_empty E).
  - reflexivity.
  - unfold ClassManager.getById, ClassManager.add. cbn.
    rewrite String.eqb_refl. reflexivity.
Qed.

Lemma dayName_in_week d :
  0 ≤ d ≤ 6 → ∃ dn, ClassManager.dayNames !! Z.to_nat d = Some dn
                   ∧ ClassManager.dayName (JS.Int d) = Some dn.
Proof.
  intros Hd. unfold ClassManager.dayName.
  destruct (Z.leb_spec 0 d); [|lia].
  assert (d = 0 ∨ d = 1 ∨ d = 2 ∨ d = 3 ∨ d = 4 ∨ d = 5 ∨ d = 6) as Hc by lia.
  repeat (destruct Hc as [-> | Hc]); try subst d; eexists; split; reflexivity.
Qed.

(** C6, as amended.  For every class id and weekday index 0 to 6,
    [getScheduleForDay] returns null exactly when no class has that id
    or the class's schedule has no entry for that day; when the class
    exists and its schedule has an entry for the day, that entry is what
    is returned (never null). *)
Theorem getScheduleForDay_null_iff (a : App) (classId : string) (d : Z) :
  0 ≤ d ≤ 6 →
  ∃ dn, ClassManager.dayNames !! Z.to_nat d = Some dn
  ∧ (ClassManager.getScheduleForDay a classId (JS.Int d) = None
     ↔ ClassManager.getById a classId = None
       ∨ ∃ c, ClassManager.getById a classId = Some c
              ∧ cls_schedule c !! dn = None)
  ∧ (∀ c entry, ClassManager.getById a classId = Some c →
       cls_schedule c !! dn = Some entry →
       ClassManager.getScheduleForDay a classId (JS.Int d) = Some entry).
Proof.
  intros Hd. destruct (dayName_in_week d Hd) as (dn & Hdn & E).
  exists dn. split; [assumption|].
  unfold ClassManager.getScheduleForDay. rewrite E.
  cbn [ClassManager.property_key].
  destruct (ClassManager.getById a classId) as [c|].
  - split.
    + split; [intros H; right; exists c; auto|].
      intros [H | (c' & Hc & H)]; [discriminate | congruence].
    + intros c' entry Hc H. congruence.
  - split; [split; auto | discriminate].
Qed.

Lemma getScheduleForDay_null_iff_witness :
  ∃ dn, ClassManager.dayNames !! Z.to_nat 0 = Some dn
  ∧ (ClassManager.getScheduleForDay (app_with []) "cls_1" (JS.Int 0) = None
     ↔ ClassManager.getById (app_with []) "cls_1" = None
       ∨ ∃ c, ClassManager.getById (app_with []) "cls_1" = Some c
              ∧ cls_schedule c !! dn = None)
  ∧ (∀ c entry, ClassManager.getById (app_with []) "cls_1" = Some c →
       cls_schedule c !! dn = Some entry →
       ClassManager.getScheduleForDay (app_with []) "cls_1" (JS.Int 0)
       = Some entry).
Proof.
  apply (getScheduleForDay_null_iff (app_with []) "cls_1" 0). lia.
Defined.

Example closed_day_is_not_null :
  ClassManager.getScheduleForDay (app_with []) "cls_1" (JS.Int 0)
  = Some ClassManager.closed_day
  ∧ ClassManager.getScheduleForDay (app_with []) "cls_9" (JS.Int 0) = None.
Proof. vm_compute. split; reflexivity. Qed.

(** C6, the claim as stated fails: the class that [add] creates from a
    name alone exists, and [getScheduleForDay] returns null for it on
    Monday. *)
Lemma existing_class_null_schedule :
  let a := snd (ClassManager.add utc_host "1AEP" JS.Undefined empty_app) in
  ClassManager.getById a "cls_lt9x0k3ab12" ≠ None
  ∧ ClassManager.getScheduleForDay a "cls_lt9x0k3ab12" (JS.Int 1) = None.
Proof. vm_compute. split; [discriminate | reflexivity]. Qed.

(** ** Arrival Ledger: classification *)

Lemma digit_not_colon c : JS.is_digit c = true → Ascii.eqb c ":" = false.
Proof.
  destruct c as [[] [] [] [] [] [] [] []]; vm_compute; congruence.
Qed.

(** [hour * 60 + minute] of the two components of an "HH:MM" string. *)
Lemma hhmm_minutes s :
  isHHMM s = true →
  let parts := List.map JS.Number (JS.split ":" s) in
  JS.add (JS.mul (ArrivalTracker.component parts 0) (JS.Int 60))
         (ArrivalTracker.component parts 1) = JS.Int (minutes_of s).
Proof.
  destruct s as [|a [|b [|c [|d [|e [|? ?]]]]]]; try discriminate.
  cbn [isHHMM]. intros H.
  rewrite !andb_true_iff in H. destruct H as [[[[Ha Hb] Hc] Hd] He].
  apply Ascii.eqb_eq in Hc. subst c.
  cbn zeta. unfold JS.split. cbn [JS.split_aux].
  rewrite (digit_not_colon a), (digit_not_colon b) by assumption.
  cbn [Ascii.eqb Bool.eqb]. cbn [JS.split_aux].
  rewrite (digit_not_colon d), (digit_not_colon e) by assumption.
  cbn [List.map].
  unfold JS.Number, String.rev. cbn [String.rev_app JS.digits_val].
  rewrite Ha, Hb, Hd, He.
  cbn. f_equal; lia.
Qed.

Lemma hhmm_truthy s : isHHMM s = true → JS.truthy s = true.
Proof. destruct s; [discriminate | reflexivity]. Qed.

(** The date-only form denotes a UTC midnight. *)
Lemma parse_iso_date_midnight s t :
  JS.parse_iso_date s = Some t → ∃ day, t = day * JS.msPerDay.
Proof.
  unfold JS.parse_iso_date.
  destruct (JS.split "-" s) as [|ys [|ms [|ds [|? ?]]]]; try discriminate.
  destruct (_ && _ && _); [|discriminate].
  destruct (JS.digits_val 0 ys) as [y|]; [|discriminate].
  destruct (JS.digits_val 0 ms) as [m|]; [|discriminate].
  destruct (JS.digits_val 0 ds) as [d|]; [|discriminate].
  destruct (_ && _ && _ && _); [|discriminate].
  intros [= <-]. eexists. reflexivity.
Qed.

(** At UTC and east of it (less than a day) the weekday [markArrival]
    derives from an ISO date is the weekday of that calendar day; west
    of UTC it is the weekday of the day before. *)
Lemma dayOfWeek_of_iso_date h date day :
  JS.parse_iso_date date = Some (day * JS.msPerDay) →
  (0 ≤ utcOffset h < 1440 →
   ArrivalTracker.dayOfWeek h date = JS.Int ((day + 4) mod 7))
  ∧ (-1440 ≤ utcOffset h < 0 →
     ArrivalTracker.dayOfWeek h date = JS.Int ((day - 1 + 4) mod 7)).
Proof.
  intros Hp. unfold ArrivalTracker.dayOfWeek, JS.Date_parse. rewrite Hp.
  unfold JS.getDay, JS.msPerDay, JS.msPerMinute.
  split; intros Ho; f_equal; f_equal; f_equal.
  - rewrite Z.div_add_l by lia. rewrite Z.div_small by lia. lia.
  - replace (day * 86400000 + utcOffset h * 60000)
      with ((day - 1) * 86400000 + (86400000 + utcOffset h * 60000)) by lia.
    rewrite Z.div_add_l by lia. rewrite Z.div_small by lia. lia.
Qed.

Lemma weekday_range date n : weekday date = Some n → 0 ≤ n < 7.
Proof.
  unfold weekday. destruct (JS.parse_iso_date date); [|discriminate].
  intros [= <-]. apply Z.mod_pos_bound. lia.
Qed.

(** The weekday [markArrival] derives from an ISO date, against the
    weekday of the calendar: the same on a host on UTC or east of it,
    the one before on a host west of UTC. *)
Lemma dayOfWeek_by_weekday h date n :
  within_a_day h → weekday date = Some n →
  ArrivalTracker.dayOfWeek h date = JS.Int (judged_weekday h n).
Proof.
  unfold within_a_day, weekday, judged_weekday, day_before. intros Ho.
  destruct (JS.parse_iso_date date) as [t|] eqn:Hp; [|discriminate].
  destruct (parse_iso_date_midnight _ _ Hp) as [day ->].
  destruct (dayOfWeek_of_iso_date h date day Hp) as [He Hw].
  cbn [option_map]. intros [= <-].
  assert (Hd : day * JS.msPerDay / JS.msPerDay = day).
  { apply Z.div_mul. unfold JS.msPerDay. lia. }
  rewrite Hd.
  destruct (Z.leb_spec 0 (utcOffset h)).
  - apply He. lia.
  - rewrite Hw by lia. f_equal.
    rewrite Z.add_mod_idemp_l by lia.
    replace (day + 4 + 6) with (day - 1 + 4 + 1 * 7) by lia.
    rewrite Z.mod_add by lia. reflexivity.
Qed.

(** The classification of [markArrival]: for a class whose entry for
    the weekday the call reads is enabled with start time S, and an
    explicit arrival time T, both "HH:MM", a call for a student not yet
    recorded on that date appends a record with
    minutesLate = max(0, T - S) in minutes since midnight and status
    "late" exactly when minutesLate is positive.  The entry read is the
    one of the arrival's weekday on a host on UTC or east of it, and
    the one of the weekday before on a host west of UTC. *)
Lemma markArrival_lateness (h : Host) (a : App)
    (studentId classId date T S : string) (n : Z) (sch : DaySchedule) :
  within_a_day h → weekday date = Some n →
  ArrivalTracker.hasArrived a studentId date = None →
  ClassManager.getScheduleForDay a classId (JS.Int (judged_weekday h n)) = Some sch →
  enabled sch = true → startTime sch = Some S →
  isHHMM S = true → isHHMM T = true →
  let r := fst (ArrivalTracker.markArrival h studentId classId date (Some T) a) in
  let a' := snd (ArrivalTracker.markArrival h studentId classId date (Some T) a) in
  let late := Z.max 0 (minutes_of T - minutes_of S) in
  success r = true
  ∧ arrivals a' = (arrivals a ++ [arrival r])%list
  ∧ arr_studentId (arrival r) = studentId
  ∧ arr_date (arrival r) = date
  ∧ arr_time (arrival r) = T
  ∧ arr_minutesLate (arrival r) = JS.Int late
  ∧ (arr_status (arrival r) = "late" ↔ 0 < late)
  ∧ (minutes_of T ≤ minutes_of S →
     arr_status (arrival r) = "on-time" ∧ arr_minutesLate (arrival r) = JS.Int 0)
  ∧ (minutes_of S < minutes_of T →
     arr_status (arrival r) = "late"
     ∧ arr_minutesLate (arrival r) = JS.Int (minutes_of T - minutes_of S)).
Proof.
  intros Ho Hw Hnone Hsch Hen Hst HS HT.
  rewrite <- (dayOfWeek_by_weekday h date n Ho Hw) in Hsch.
  unfold ArrivalTracker.markArrival.
  unfold ArrivalTracker.hasArrived in Hnone. rewrite Hnone, Hsch, Hen, Hst.
  cbn [get_or JS.or_string andb].
  rewrite (hhmm_truthy S HS), (hhmm_truthy T HT).
  pose proof (hhmm_minutes S HS) as ES. pose proof (hhmm_minutes T HT) as ET.
  cbn zeta in ES, ET. rewrite ES, ET.
  cbn [JS.sub JS.Math_max JS.gt fst snd arrival arr_status arr_minutesLate
       arr_time arr_studentId arr_date success arrivals with_arrivals
       ArrivalTracker.save with_storage].
  destruct (Z.ltb_spec 0 (Z.max 0 (minutes_of T - minutes_of S))) as [Hlt | Hge].
  - repeat split; try reflexivity; try lia; intros; try lia.
    f_equal; lia.
  - repeat split; try reflexivity; try lia; intros; try discriminate; try lia.
    f_equal; lia.
Qed.

Lemma utc_within_a_day : within_a_day utc_host.
Proof. unfold within_a_day. cbn. lia. Qed.

Lemma west_within_a_day : within_a_day west_host.
Proof. unfold within_a_day. cbn. lia. Qed.

(** On UTC a Monday arrival a quarter of an hour after the start is
    late by 15 minutes. *)
Example monday_arrival_on_utc :
  success (fst (ArrivalTracker.markArrival utc_host "stu_1" "cls_1" "2024-03-04"
                  (Some "12:45") (app_with []))) = true
  ∧ arr_minutesLate
      (arrival (fst (ArrivalTracker.markArrival utc_host "stu_1" "cls_1"
                       "2024-03-04" (Some "12:45") (app_with []))))
    = JS.Int 15
  ∧ arr_status
      (arrival (fst (ArrivalTracker.markArrival utc_host "stu_1" "cls_1"
                       "2024-03-04" (Some "12:45") (app_with []))))
    = "late".
Proof.
  pose proof (markArrival_lateness utc_host (app_with []) "stu_1" "cls_1"
                "2024-03-04" "12:45" "12:30" 1
                (ClassManager.open_day "12:30" "14:20")
                utc_within_a_day eq_refl eq_refl eq_refl eq_refl eq_refl eq_refl
                eq_refl) as H.
  cbn zeta in H. destruct H as (H1 & _ & _ & _ & _ & H2 & _ & _ & H3).
  split; [exact H1|]. split; [exact H2|].
  apply H3. vm_compute. reflexivity.
Qed.

Example on_time_before_start :
  let r := fst (ArrivalTracker.markArrival utc_host "stu_1" "cls_1" "2024-03-04"
                                           (Some "12:10") (app_with [])) in
  arr_minutesLate (arrival r) = JS.Int 0 ∧ arr_status (arrival r) = "on-time".
Proof. vm_compute. split; reflexivity. Qed.

(** On a closed day any arrival time is on time. *)
Example sunday_is_on_time :
  let r := fst (ArrivalTracker.markArrival utc_host "stu_1" "cls_1" "2024-03-03"
                                           (Some "18:00") (app_with [])) in
  arr_minutesLate (arrival r) = JS.Int 0 ∧ arr_status (arrival r) = "on-time".
Proof. vm_compute. split; reflexivity. Qed.

Example weekdays_of_march_2024 :
  weekday "1970-01-01" = Some 4
  ∧ weekday "2024-03-03" = Some 0
  ∧ weekday "2024-03-04" = Some 1
  ∧ weekday "2024-03-09" = Some 6
  ∧ weekday "2024-03-10" = Some 0
  ∧ weekday "2024-02-30" = None.
Proof. vm_compute. repeat split; reflexivity. Qed.

(** C2 (the code departs from the claim).  2024-03-04 is a Monday, and
    the entry of the class "cls_1" for Monday is enabled with start
    time "12:30"; for the explicit arrival time "12:45" the claim gives
    minutesLate = 15 and status "late".  On a host five hours west of
    UTC [markArrival] records 0 minutes and "on-time": [new Date(date)]
    is the UTC midnight of the date and [getDay] reads it in local
    time, the evening of the Sunday before, so the arrival is judged by
    Sunday's entry, which is not enabled. *)
Theorem monday_arrival_west_of_utc :
  weekday "2024-03-04" = Some 1
  ∧ ClassManager.getScheduleForDay (app_with []) "cls_1" (JS.Int 1)
    = Some {| enabled := true; startTime := Some "12:30";
              endTime := Some "14:20" |}
  ∧ isHHMM "12:30" = true ∧ isHHMM "12:45" = true
  ∧ Z.max 0 (minutes_of "12:45" - minutes_of "12:30") = 15
  ∧ ArrivalTracker.hasArrived (app_with []) "stu_1" "2024-03-04" = None
  ∧ ArrivalTracker.dayOfWeek west_host "2024-03-04" = JS.Int 0
  ∧ ClassManager.getScheduleForDay (app_with []) "cls_1" (JS.Int 0)
    = Some {| enabled := false; startTime := None; endTime := None |}
  ∧ success (fst (ArrivalTracker.markArrival west_host "stu_1" "cls_1"
                    "2024-03-04" (Some "12:45") (app_with []))) = true
  ∧ arr_minutesLate
      (arrival (fst (ArrivalTracker.markArrival west_host "stu_1" "cls_1"
                       "2024-03-04" (Some "12:45") (app_with []))))
    = JS.Int 0
  ∧ arr_status
      (arrival (fst (ArrivalTracker.markArrival west_host "stu_1" "cls_1"
                       "2024-03-04" (Some "12:45") (app_with []))))
    = "on-time".
Proof. vm_compute. repeat split; reflexivity. Qed.

(** The same holds of every host west of UTC and of every class that
    is open on Monday and closed on Sunday: a Monday arrival after the
    start is recorded on time. *)
Lemma west_of_utc_monday_is_on_time (h : Host) (a : App)
    (studentId classId date T S : string) (monday sunday : DaySchedule) :
  -1440 < utcOffset h < 0 → weekday date = Some 1 →
  ArrivalTracker.hasArrived a studentId date = None →
  ClassManager.getScheduleForDay a classId (JS.Int 1) = Some monday →
  enabled monday = true → startTime monday = Some S →
  isHHMM S = true → isHHMM T = true → minutes_of S < minutes_of T →
  ClassManager.getScheduleForDay a classId (JS.Int 0) = Some sunday →
  enabled sunday = false →
  arr_minutesLate
    (arrival (fst (ArrivalTracker.markArrival h studentId classId date (Some T) a)))
  = JS.Int 0
  ∧ arr_status
      (arrival (fst (ArrivalTracker.markArrival h studentId classId date (Some T) a)))
    = "on-time".
Proof.
  intros Ho Hw Hnone _ _ _ _ _ _ Hsun Hoff.
  assert (Hd : ArrivalTracker.dayOfWeek h date = JS.Int 0).
  { rewrite (dayOfWeek_by_weekday h date 1); [|unfold within_a_day; lia | exact Hw].
    unfold judged_weekday. destruct (Z.leb_spec 0 (utcOffset h)); [lia | reflexivity]. }
  unfold ArrivalTracker.markArrival.
  unfold ArrivalTracker.hasArrived in Hnone. rewrite Hnone, Hd, Hsun, Hoff.
  split; reflexivity.
Qed.

(** ** Arrival Ledger: one arrival per student and date *)

Lemma same_key_spec s d x :
  ArrivalTracker.same_key s d x = true ↔ key x = (s, d).
Proof.
  unfold ArrivalTracker.same_key, key. rewrite andb_true_iff, !String.eqb_eq.
  split; [intros [-> ->]; reflexivity | intros E; injection E; auto].
Qed.

Lemma find_none_key s d l :
  List.find (ArrivalTracker.same_key s d) l = None → ¬ In (s, d) (List.map key l).
Proof.
  intros Hf Hin. apply in_map_iff in Hin as (x & Hk & Hx).
  pose proof (find_none _ _ Hf x Hx) as Hn.
  apply same_key_spec in Hk. congruence.
Qed.

Lemma one_per_key_snoc s d l x :
  one_per_key l → List.find (ArrivalTracker.same_key s d) l = None →
  key x = (s, d) → one_per_key (l ++ [x]).
Proof.
  unfold one_per_key. intros Hl Hf Hk. rewrite List.map_app. cbn [List.map].
  induction l as [|y l IH]; cbn.
  - constructor; [intros [] | constructor].
  - cbn in Hf. destruct (ArrivalTracker.same_key s d y) eqn:E; [discriminate|].
    inversion Hl as [|? ? Hy Hl']; subst. constructor.
    + rewrite in_app_iff. intros [H | [H | []]]; [contradiction|].
      rewrite Hk in H. symmetry in H. apply same_key_spec in H. congruence.
    + apply IH; assumption.
Qed.

Lemma splice1_in {A} (i : nat) (l : list A) x :
  In x (ArrivalTracker.splice1 i l) → In x l.
Proof.
  unfold ArrivalTracker.splice1. revert i.
  induction l as [|y l IH]; intros [|i]; cbn; try tauto.
  intros [H | H]; [auto | right; exact (IH i H)].
Qed.

Lemma one_per_key_splice i l :
  one_per_key l → one_per_key (ArrivalTracker.splice1 i l).
Proof.
  unfold one_per_key. revert i.
  induction l as [|y l IH]; intros [|i] Hl.
  - constructor.
  - constructor.
  - unfold ArrivalTracker.splice1. cbn. inversion Hl; assumption.
  - inversion Hl as [|? ? Hy Hl']; subst.
    change (ArrivalTracker.splice1 (S i) (y :: l))
      with (y :: ArrivalTracker.splice1 i l).
    cbn. constructor; [|apply IH; assumption].
    intros Hin. apply Hy. apply in_map_iff in Hin as (z & Hz & Hzin).
    apply in_map_iff. exists z. split; [assumption|].
    eapply splice1_in; eassumption.
Qed.

Lemma unique_filter s d l x :
  one_per_key l → List.find (ArrivalTracker.same_key s d) l = Some x →
  List.filter (ArrivalTracker.same_key s d) l = [x].
Proof.
  unfold one_per_key. induction l as [|y l IH]; cbn; [discriminate|].
  intros Hl Hf. inversion Hl as [|? ? Hy Hl']; subst.
  destruct (ArrivalTracker.same_key s d y) eqn:E.
  - injection Hf as ->. f_equal.
    apply same_key_spec in E.
    destruct (List.filter (ArrivalTracker.same_key s d) l) as [|z r] eqn:F;
      [reflexivity|].
    exfalso. apply Hy.
    assert (Hz : In z (List.filter (ArrivalTracker.same_key s d) l))
      by (rewrite F; left; reflexivity).
    apply filter_In in Hz as [Hz1 Hz2]. apply same_key_spec in Hz2.
    apply in_map_iff. exists z. split; [congruence | assumption].
  - apply IH; assumption.
Qed.

Lemma find_snoc_new s d l x :
  List.find (ArrivalTracker.same_key s d) l = None → key x = (s, d) →
  List.find (ArrivalTracker.same_key s d) (l ++ [x]) = Some x.
Proof.
  intros Hf Hk. induction l as [|y l IH]; cbn.
  - apply same_key_spec in Hk. rewrite Hk. reflexivity.
  - cbn in Hf. destruct (ArrivalTracker.same_key s d y); [discriminate | auto].
Qed.

Lemma markArrival_rejects h s c d t a existing :
  ArrivalTracker.hasArrived a s d = Some existing →
  ArrivalTracker.markArrival h s c d t a
  = ({| success := false; message := Some "Already marked";
        arrival := existing |}, a).
Proof.
  unfold ArrivalTracker.hasArrived, ArrivalTracker.markArrival.
  intros ->. reflexivity.
Qed.

(** The record a successful call builds and the ledger it leaves. *)
Lemma markArrival_accepts h s c d t a :
  ArrivalTracker.hasArrived a s d = None →
  let r := fst (ArrivalTracker.markArrival h s c d t a) in
  let a' := snd (ArrivalTracker.markArrival h s c d t a) in
  success r = true ∧ key (arrival r) = (s, d)
  ∧ arrivals a' = (arrivals a ++ [arrival r])%list
  ∧ classes a' = classes a ∧ students a' = students a
  ∧ (stored_arrivals (storage a') = stored_arrivals (storage a)
     ∨ stored_arrivals (storage a') = Some (arrivals a'))
  ∧ stored_classes (storage a') = stored_classes (storage a)
  ∧ stored_students (storage a') = stored_students (storage a).
Proof.
  unfold ArrivalTracker.hasArrived, ArrivalTracker.markArrival.
  intros ->.
  match goal with |- context [let '(m, st) := ?X in _] => destruct X as [m st] end.
  unfold ArrivalTracker.save, set_arrivals. cbn.
  destruct (setItemOk h "arrivals"); cbn.
  all: repeat split; solve [reflexivity | left; reflexivity | right; reflexivity].
Qed.

Lemma ledger_step_inv a op : ledger_inv a → ledger_inv (ledger_step a op).
Proof.
  intros [Hm Hs]. destruct op as [h s c d t | h s d |]; cbn [ledger_step].
  - destruct (ArrivalTracker.hasArrived a s d) as [e|] eqn:E.
    + rewrite (markArrival_rejects _ _ _ _ _ _ _ E). split; assumption.
    + pose proof (markArrival_accepts h s c d t a E) as H.
      cbn zeta in H.
      destruct (ArrivalTracker.markArrival h s c d t a) as [r a'].
      cbn [fst snd] in *.
      destruct H as (_ & Hk & Ha & _ & _ & Hst & _).
      assert (Hn : one_per_key (arrivals a')).
      { rewrite Ha. eapply one_per_key_snoc; eassumption. }
      split; [assumption|]. destruct Hst as [-> | ->]; assumption.
  - unfold ArrivalTracker.removeArrival.
    destruct (findIndex _ _) as [i|]; cbn [snd]; [|split; assumption].
    unfold ArrivalTracker.save, set_arrivals. cbn.
    pose proof (one_per_key_splice i _ Hm).
    destruct (setItemOk h "arrivals"); cbn; split; assumption.
  - unfold ArrivalTracker.load. cbn. split; assumption.
Qed.

Lemma ledger_run_inv ops a : ledger_inv a → ledger_inv (ledger_run ops a).
Proof.
  unfold ledger_run. revert a.
  induction ops as [|op ops IH]; intros a Ha; cbn; [assumption|].
  apply IH, ledger_step_inv, Ha.
Qed.

(** C3.  Every run of ledger operations (mark, remove, reload) keeps
    at most one arrival per student and date, in the tracker's array and
    in its stored copy.  A [markArrival] call for a pair that is already
    recorded returns [success: false] with the existing record, leaves
    the whole application state as it was, and exactly one arrival for
    that pair remains; so does a second call right after a first. *)
Theorem one_arrival_per_student_and_date (a : App) :
  ledger_inv a →
  (∀ ops, ledger_inv (ledger_run ops a))
  ∧ (∀ h studentId classId date time existing,
       ArrivalTracker.hasArrived a studentId date = Some existing →
       ArrivalTracker.markArrival h studentId classId date time a
       = ({| success := false; message := Some "Already marked";
             arrival := existing |}, a)
       ∧ List.filter (ArrivalTracker.same_key studentId date) (arrivals a)
         = [existing])
  ∧ (∀ h1 h2 studentId c1 c2 date t1 t2,
       let '(r1, a1) := ArrivalTracker.markArrival h1 studentId c1 date t1 a in
       let '(r2, a2) := ArrivalTracker.markArrival h2 studentId c2 date t2 a1 in
       success r2 = false ∧ arrival r2 = arrival r1 ∧ a2 = a1
       ∧ List.filter (ArrivalTracker.same_key studentId date) (arrivals a2)
         = [arrival r1]).
Proof.
  intros Hinv. split; [intros ops; apply ledger_run_inv, Hinv|]. split.
  - intros h s c d t e E. split; [apply markArrival_rejects, E|].
    apply unique_filter; [apply Hinv | exact E].
  - intros h1 h2 s c1 c2 d t1 t2.
    pose proof (ledger_step_inv a (Mark h1 s c1 d t1) Hinv) as Hinv1.
    cbn [ledger_step] in Hinv1.
    destruct (ArrivalTracker.hasArrived a s d) as [e|] eqn:E.
    + rewrite (markArrival_rejects h1 _ c1 _ t1 _ _ E).
      rewrite (markArrival_rejects h2 _ c2 _ t2 _ _ E). cbn.
      repeat split. apply unique_filter; [apply Hinv | exact E].
    + pose proof (markArrival_accepts h1 s c1 d t1 a E) as H.
      cbn zeta in H.
      destruct (ArrivalTracker.markArrival h1 s c1 d t1 a) as [r1 a1].
      cbn [fst snd] in *.
      destruct H as (_ & Hk & Ha & _).
      assert (E1 : ArrivalTracker.hasArrived a1 s d = Some (arrival r1)).
      { unfold ArrivalTracker.hasArrived. rewrite Ha.
        apply find_snoc_new; assumption. }
      rewrite (markArrival_rejects h2 _ c2 _ t2 _ _ E1). cbn.
      repeat split. apply unique_filter; [apply Hinv1 | exact E1].
Qed.

Lemma one_arrival_per_student_and_date_witness :
  let ops := [Mark utc_host "stu_1" "cls_1" "2024-03-04" (Some "12:45");
              Mark east_host "stu_1" "cls_1" "2024-03-04" (Some "13:00");
              Remove utc_host "stu_2" "2024-03-04"; Load] in
  ledger_inv (ledger_run ops (app_with [])).
Proof.
  assert (H : ledger_inv (app_with [])) by (split; constructor).
  exact (proj1 (one_arrival_per_student_and_date (app_with []) H) _).
Defined.

Example second_mark_is_rejected :
  let '(r1, a1) := ArrivalTracker.markArrival utc_host "stu_1" "cls_1" "2024-03-04"
                                              (Some "12:45") (app_with []) in
  let '(r2, a2) := ArrivalTracker.markArrival east_host "stu_1" "cls_1" "2024-03-04"
                                              (Some "13:30") a1 in
  success r1 = true ∧ success r2 = false ∧ arrival r2 = arrival r1
  ∧ arr_time (arrival r2) = "12:45" ∧ a2 = a1
  ∧ List.length (arrivals a2) = 1%nat.
Proof. vm_compute. repeat split; reflexivity. Qed.

(** Undo is reversible: after [removeArrival] the same pair is accepted
    again. *)
Example remove_then_mark :
  let a1 := snd (ArrivalTracker.markArrival utc_host "stu_1" "cls_1" "2024-03-04"
                                            (Some "12:45") (app_with [])) in
  let '(removed, a2) := ArrivalTracker.removeArrival utc_host "stu_1" "2024-03-04" a1 in
  let '(r3, a3) := ArrivalTracker.markArrival utc_host "stu_1" "cls_1" "2024-03-04"
                                              (Some "12:20") a2 in
  removed = true ∧ arrivals a2 = [] ∧ success r3 = true
  ∧ arr_status (arrival r3) = "on-time".
Proof. vm_compute. repeat split; reflexivity. Qed.

(** ** Registry edits and the ledger *)

Lemma update_frame h id updates a :
  let a' := snd (ClassManager.update h id updates a) in
  arrivals a' = arrivals a
  ∧ stored_arrivals (storage a') = stored_arrivals (storage a).
Proof.
  unfold ClassManager.update.
  destruct (findIndex _ _) as [i|]; [|split; reflexivity].
  destruct (classes a !! i) as [c|]; [|split; reflexivity].
  unfold ClassManager.save, set_classes. cbn.
  destruct (setItemOk h "classes"); split; reflexivity.
Qed.

Lemma markArrival_step h s c d t a :
  arrivals (snd (ArrivalTracker.markArrival h s c d t a))
  = (arrivals a ++ built a (ArrivalMark h s c d t))%list.
Proof.
  unfold built, ArrivalTracker.markArrival.
  destruct (List.find _ _) as [e|]; cbn; [rewrite app_nil_r; reflexivity|].
  match goal with |- context [let '(m, st) := ?X in _] => destruct X as [m st] end.
  reflexivity.
Qed.

Lemma app_step_ledger a op :
  if is_removal op
  then arrivals (app_step a op) `sublist_of` arrivals a
  else arrivals (app_step a op) = (arrivals a ++ built a op)%list.
Proof.
  destruct op as [h n s | h id u | h id | h s c d t | h s d]; cbn [is_removal app_step].
  - cbn. rewrite app_nil_r. reflexivity.
  - rewrite (proj1 (update_frame h id u a)). cbn. rewrite app_nil_r. reflexivity.
  - cbn. rewrite app_nil_r. reflexivity.
  - apply markArrival_step.
  - unfold ArrivalTracker.removeArrival.
    destruct (findIndex _ _) as [i|]; cbn; [|reflexivity].
    unfold ArrivalTracker.splice1. rewrite <- delete_take_drop.
    apply sublist_delete.
Qed.

Lemma app_run_prefix ops a :
  forallb (fun op => negb (is_removal op)) ops = true →
  arrivals (app_run ops a) = (arrivals a ++ built_by ops a)%list.
Proof.
  unfold app_run. revert a.
  induction ops as [|op ops IH]; intros a Hops; cbn.
  - rewrite app_nil_r. reflexivity.
  - cbn in Hops. apply andb_prop in Hops as [Hop Hops].
    rewrite IH by assumption.
    pose proof (app_step_ledger a op) as H.
    destruct (is_removal op); [discriminate|].
    rewrite H, app_assoc. reflexivity.
Qed.

Lemma app_run_sublist ops a :
  arrivals (app_run ops a) `sublist_of` (arrivals a ++ built_by ops a)%list.
Proof.
  unfold app_run. revert a.
  induction ops as [|op ops IH]; intros a; cbn.
  - rewrite app_nil_r. reflexivity.
  - etransitivity; [apply IH|].
    rewrite app_assoc. apply sublist_app; [|reflexivity].
    pose proof (app_step_ledger a op) as H.
    destruct (is_removal op).
    + apply sublist_inserts_r, H.
    + rewrite H. reflexivity.
Qed.

(** C9.  Updating a class, its schedule included, leaves every recorded
    arrival as it is: the tracker's array and the stored arrivals are
    the same after [update] as before.  No later operation recomputes a
    record either: along any run of registry and ledger operations
    without a removal the earlier arrivals stay, in place, in front of
    the records the accepted [markArrival] calls build, and along any
    run at all the ledger holds only earlier records and records so
    built, in their order. *)
Theorem schedule_edits_keep_arrivals (h : Host) (id : string)
    (updates : ClassUpdates) (a : App) :
  let a' := snd (ClassManager.update h id updates a) in
  arrivals a' = arrivals a
  ∧ stored_arrivals (storage a') = stored_arrivals (storage a)
  ∧ (∀ ops, forallb (fun op => negb (is_removal op)) ops = true →
       arrivals (app_run ops a') = (arrivals a ++ built_by ops a')%list)
  ∧ (∀ ops, arrivals (app_run ops a')
              `sublist_of` (arrivals a ++ built_by ops a')%list).
Proof.
  cbn zeta. destruct (update_frame h id updates a) as [E1 E2].
  split; [exact E1|]. split; [exact E2|]. split.
  - intros ops Hops. rewrite app_run_prefix by assumption. rewrite E1. reflexivity.
  - intros ops. rewrite <- E1. apply app_run_sublist.
Qed.

(** A late arrival stays late when the class later starts later. *)
Example later_start_keeps_verdict :
  let a1 := snd (ArrivalTracker.markArrival utc_host "stu_1" "cls_1" "2024-03-04"
                                            (Some "12:45") (app_with [])) in
  let later :=
    {| upd_id := None; upd_name := None;
       upd_schedule :=
         Some (<["monday" := ClassManager.open_day "13:00" "14:20"]>
                 ClassManager.defaultSchedule);
       upd_createdAt := None |} in
  let a2 := snd (ClassManager.update utc_host "cls_1" later a1) in
  option_map arr_status (ArrivalTracker.hasArrived a2 "stu_1" "2024-03-04")
    = Some "late"
  ∧ option_map arr_minutesLate (ArrivalTracker.hasArrived a2 "stu_1" "2024-03-04")
    = Some (JS.Int 15)
  ∧ option_map startTime (ClassManager.getScheduleForDay a2 "cls_1" (JS.Int 1))
    = Some (Some "13:00").
Proof. vm_compute. repeat split; reflexivity. Qed.

(** ** Arrival Ledger: statistics *)

(** Every record that [markArrival] builds with a number of minutes is
    classified. *)
Lemma markArrival_classifies h s c d t a :
  let r := fst (ArrivalTracker.markArrival h s c d t a) in
  success r = true → arr_minutesLate (arrival r) ≠ JS.NaN →
  classified (arrival r).
Proof.
  unfold ArrivalTracker.markArrival.
  destruct (List.find _ _) as [e|]; cbn zeta; [discriminate|].
  destruct (ClassManager.getScheduleForDay _ _ _) as [sch|].
  - destruct (enabled sch && JS.truthy _).
    + match goal with
      | |- context [JS.Math_max (JS.Int 0) ?X] => destruct X as [|z]
      end; cbn; intros _ Hn; [congruence|].
      exists (Z.max 0 z). split; [reflexivity|]. split; [lia|].
      destruct (Z.ltb_spec 0 (Z.max 0 z)); split; intros; try reflexivity;
        try discriminate; lia.
    + cbn. intros _ _. exists 0. split; [reflexivity|]. split; [lia|].
      split; [discriminate | lia].
  - cbn. intros _ _. exists 0. split; [reflexivity|]. split; [lia|].
    split; [discriminate | lia].
Qed.

Lemma Math_round_div_rounded a b :
  0 < b → rounded_quotient a b (JS.Math_round_div a b).
Proof.
  intros Hb. unfold rounded_quotient, JS.Math_round_div.
  pose proof (Z.div_mod (2 * a + b) (2 * b) ltac:(lia)) as E.
  pose proof (Z.mod_pos_bound (2 * a + b) (2 * b) ltac:(lia)) as B.
  nia.
Qed.

Lemma leb_empty_l s : String.leb "" s = true.
Proof. destruct s; reflexivity. Qed.

Lemma filter_filter {A} (p q : A → bool) l :
  List.filter q (List.filter p l) = List.filter (fun x => p x && q x) l.
Proof.
  induction l as [|x l IH]; cbn; [reflexivity|].
  destruct (p x); cbn; [destruct (q x)|]; rewrite IH; reflexivity.
Qed.

Lemma filter_ext_bool {A} (p q : A → bool) l :
  (∀ x, p x = q x) → List.filter p l = List.filter q l.
Proof. intros H. induction l as [|x l IH]; cbn; rewrite ?H, ?IH; reflexivity. Qed.

Lemma filter_range_spec startDate endDate p l :
  endDate ≠ Some "" →
  ArrivalTracker.filter_range startDate endDate (List.filter p l)
  = List.filter (fun x => p x && in_range startDate endDate x) l.
Proof.
  intros He. unfold ArrivalTracker.filter_range, in_range, JS.str_ge, JS.str_le.
  destruct startDate as [[|c s]|], endDate as [[|c' e]|]; try congruence;
    cbn [get_or JS.truthy]; rewrite ?filter_filter;
    apply filter_ext_bool; intros x; rewrite ?leb_empty_l;
    destruct (p x); cbn [andb]; rewrite ?andb_true_r; reflexivity.
Qed.

Lemma sum_minutes_from acc l :
  Forall classified l →
  fold_left (fun sum x => JS.add sum (arr_minutesLate x)) l (JS.Int acc)
  = JS.Int (acc + total_minutes l).
Proof.
  unfold total_minutes. revert acc.
  induction l as [|x l IH]; intros acc Hl; cbn.
  - f_equal; lia.
  - inversion Hl as [|? ? (m & Hm & _) Hl']; subst.
    cbn [List.map fold_right]. unfold minutes at 1. rewrite Hm.
    cbn [JS.add]. rewrite IH by assumption. f_equal. lia.
Qed.

Lemma sum_minutes_classified l :
  Forall classified l → ArrivalTracker.sum_minutes l = JS.Int (total_minutes l).
Proof. intros H. unfold ArrivalTracker.sum_minutes. rewrite sum_minutes_from; auto. Qed.

(** Entries that are not late carry no minutes. *)
Lemma total_minutes_late_only l :
  Forall classified l →
  total_minutes l = total_minutes (List.filter ArrivalTracker.is_late l).
Proof.
  unfold total_minutes. induction 1 as [|x l (m & Hm & Hpos & Hlate) _ IH]; cbn;
    [reflexivity|].
  unfold ArrivalTracker.is_late at 1.
  destruct (String.eqb_spec (arr_status x) "late") as [E | E]; cbn; rewrite IH;
    [reflexivity|].
  unfold minutes. rewrite Hm.
  assert (m = 0) by (destruct (Z.eq_dec m 0); [assumption | exfalso; apply E, Hlate; lia]).
  lia.
Qed.

Lemma Forall_filter {A} (P : A → Prop) (p : A → bool) l :
  Forall P l → Forall P (List.filter p l).
Proof.
  induction 1; cbn; [constructor|]. destruct (p x); [constructor|]; assumption.
Qed.

(** C7, as amended.  On a ledger whose records are as [markArrival]
    classifies them, and for every student, class and inclusive date
    range, [getStudentStats] reports avgMinutesLate as the average of
    minutesLate over the late entries only, rounded to the nearest
    integer with a tie going away from zero, and 0 when no entry is
    late.  [getClassStats] reports no avgMinutesLate: its fields are
    totalArrivals, onTime, tardies and latenessRate, and latenessRate is
    0 when the class has no entry in the range and otherwise
    [Math.round] of the double-precision product (late / total) * 100. *)
Theorem stats_averages (a : App) (studentId classId : string)
    (startDate endDate : option string) :
  Forall classified (arrivals a) → endDate ≠ Some "" →
  let late :=
    late_entries (fun x => String.eqb (arr_studentId x) studentId)
                 startDate endDate (arrivals a) in
  let n := Z.of_nat (List.length late) in
  let of_class :=
    List.filter (fun x => String.eqb (arr_classId x) classId
                          && in_range startDate endDate x) (arrivals a) in
  let late_of_class :=
    late_entries (fun x => String.eqb (arr_classId x) classId)
                 startDate endDate (arrivals a) in
  (∃ r, ArrivalTracker.getStudentStats a studentId startDate endDate
          !! "avgMinutesLate" = Some (JS.Int r)
        ∧ (n = 0 → r = 0)
        ∧ (0 < n → rounded_quotient (total_minutes late) n r))
  ∧ ArrivalTracker.getClassStats a classId startDate endDate
      !! "avgMinutesLate" = None
  ∧ dom (ArrivalTracker.getClassStats a classId startDate endDate)
    = ({["totalArrivals"; "onTime"; "tardies"; "latenessRate"]} : gset string)
  ∧ ArrivalTracker.getClassStats a classId startDate endDate !! "latenessRate"
    = Some (if 0 <? Z.of_nat (List.length of_class)
            then JS.Math_round_percent (Z.of_nat (List.length late_of_class))
                                       (Z.of_nat (List.length of_class))
            else JS.Int 0).
Proof.
  intros Hc He late n of_class late_of_class. split; [|split; [|split]].
  - unfold ArrivalTracker.getStudentStats.
    rewrite filter_range_spec by assumption.
    set (filtered := List.filter _ (arrivals a)).
    assert (Hf : Forall classified filtered) by (apply Forall_filter, Hc).
    assert (Hl : List.filter ArrivalTracker.is_late filtered = late).
    { unfold filtered, late, late_entries. rewrite filter_filter. reflexivity. }
    rewrite Hl. fold n.
    rewrite sum_minutes_classified, total_minutes_late_only, Hl by assumption.
    unfold ArrivalTracker.average, ArrivalTracker.count. fold n.
    rewrite !lookup_insert_ne by discriminate. rewrite lookup_insert_eq.
    destruct (Z.ltb_spec 0 n) as [Hn | Hn]; eexists; (split; [reflexivity|]).
    + split; [lia|]. intros _. apply Math_round_div_rounded, Hn.
    + split; [reflexivity | lia].
  - unfold ArrivalTracker.getClassStats.
    rewrite !lookup_insert_ne by discriminate. apply lookup_empty.
  - unfold ArrivalTracker.getClassStats.
    rewrite !dom_insert_L, dom_empty_L. set_solver.
  - unfold ArrivalTracker.getClassStats.
    rewrite filter_range_spec by assumption. fold of_class.
    assert (Hl : List.filter ArrivalTracker.is_late of_class = late_of_class).
    { unfold of_class, late_of_class, late_entries. rewrite filter_filter.
      reflexivity. }
    rewrite Hl. unfold ArrivalTracker.count.
    rewrite !lookup_insert_ne by discriminate. apply lookup_insert_eq.
Qed.

Lemma sample_arrival_classified id studentId date time m :
  0 ≤ m → classified (sample_arrival id studentId date time m).
Proof.
  intros Hm. exists m. split; [reflexivity|]. split; [assumption|].
  cbn. destruct (Z.ltb_spec 0 m); split; intros; try assumption;
    try reflexivity; try discriminate; lia.
Qed.

Lemma stats_averages_witness :
  let a := app_with [sample_arrival "arr_1" "stu_1" "2024-03-04" "12:45" 15;
                     sample_arrival "arr_2" "stu_1" "2024-03-05" "12:55" 25;
                     sample_arrival "arr_3" "stu_1" "2024-03-06" "12:30" 0] in
  (∃ r, ArrivalTracker.getStudentStats a "stu_1" (Some "2024-03-01") (Some "2024-03-31")
          !! "avgMinutesLate" = Some (JS.Int r)
        ∧ rounded_quotient 40 2 r)
  ∧ ArrivalTracker.getClassStats a "cls_1" (Some "2024-03-01") (Some "2024-03-31")
      !! "avgMinutesLate" = None.
Proof.
  cbn zeta.
  destruct (stats_averages
              (app_with [sample_arrival "arr_1" "stu_1" "2024-03-04" "12:45" 15;
                         sample_arrival "arr_2" "stu_1" "2024-03-05" "12:55" 25;
                         sample_arrival "arr_3" "stu_1" "2024-03-06" "12:30" 0])
              "stu_1" "cls_1" (Some "2024-03-01") (Some "2024-03-31"))
    as ((r & Hr & _ & Hq) & Hnone & _).
  - repeat constructor; apply sample_arrival_classified; lia.
  - discriminate.
  - split; [|exact Hnone]. exists r. split; [exact Hr|]. apply Hq. reflexivity.
Defined.

Example two_late_arrivals :
  let a := app_with [sample_arrival "arr_1" "stu_1" "2024-03-04" "12:45" 15;
                     sample_arrival "arr_2" "stu_1" "2024-03-05" "12:55" 25;
                     sample_arrival "arr_3" "stu_1" "2024-03-06" "12:30" 0] in
  let stats := ArrivalTracker.getStudentStats a "stu_1" None None in
  stats !! "totalArrivals" = Some (JS.Int 3)
  ∧ stats !! "tardies" = Some (JS.Int 2)
  ∧ stats !! "totalMinutesLate" = Some (JS.Int 40)
  ∧ stats !! "avgMinutesLate" = Some (JS.Int 20).
Proof. vm_compute. repeat split; reflexivity. Qed.

(** C7, the claim as stated fails: on a day of forty arrivals of which
    twenty-three are late, [getClassStats] has no avgMinutesLate field
    at all, and its latenessRate is 57 where the percentage 57.5 rounds
    to 58. *)
Lemma class_stats_no_average :
  let stats :=
    ArrivalTracker.getClassStats (app_with (day_of_forty 23)) "cls_1" None None in
  stats !! "avgMinutesLate" = None
  ∧ stats !! "totalArrivals" = Some (JS.Int 40)
  ∧ stats !! "tardies" = Some (JS.Int 23)
  ∧ stats !! "latenessRate" = Some (JS.Int 57)
  ∧ rounded_quotient (100 * 23) 40 58.
Proof. vm_compute. repeat split; reflexivity || discriminate. Qed.

(** ** Strings *)

Lemma append_cons c (s t : string) : String c s ++ t = String c (s ++ t).
Proof. reflexivity. Qed.

Lemma append_assoc (s t u : string) : (s ++ t) ++ u = s ++ (t ++ u).
Proof.
  induction s as [|c s IH]; [reflexivity|].
  rewrite !append_cons, IH. reflexivity.
Qed.

Lemma prefix_append p k : String.prefix p (p ++ k) = true.
Proof.
  induction p as [|c p IH]; [destruct k; reflexivity|].
  rewrite append_cons. cbn. destruct (ascii_dec c c); [assumption | congruence].
Qed.

Lemma drop_chars_append p k : JS.drop_chars (String.length p) (p ++ k) = k.
Proof. induction p as [|c p IH]; [destruct k; reflexivity | exact IH]. Qed.

Lemma replace_unfold pat rep s :
  JS.replace pat rep s
  = if String.prefix pat s then rep ++ JS.drop_chars (String.length pat) s
    else match s with
         | EmptyString => EmptyString
         | String c r => String c (JS.replace pat rep r)
         end.
Proof. destruct s; reflexivity. Qed.

Lemma replace_prefix p k : JS.replace p "" (p ++ k) = k.
Proof.
  rewrite replace_unfold, prefix_append, drop_chars_append. reflexivity.
Qed.

Lemma prefix_split p s : String.prefix p s = true → ∃ k, s = p ++ k.
Proof.
  revert s. induction p as [|c p IH]; intros s Hp.
  - exists s. reflexivity.
  - destruct s as [|d s]; [discriminate|]. cbn in Hp.
    destruct (ascii_dec c d) as [-> |]; [|discriminate].
    destruct (IH s Hp) as [k ->]. exists k. reflexivity.
Qed.

(** ** Storage: export then import *)

Section StorageFacts.

Context `{Json.Codec}.
Variable namespace : string.

Lemma startsWith_item_key k :
  JS.startsWith (namespace ++ ":") (Storage.item_key namespace k) = true.
Proof.
  unfold Storage.item_key, JS.startsWith.
  rewrite <- append_assoc. apply prefix_append.
Qed.

Lemma replace_item_key k :
  JS.replace (namespace ++ ":") "" (Storage.item_key namespace k) = k.
Proof.
  unfold Storage.item_key. rewrite <- append_assoc. apply replace_prefix.
Qed.

Lemma item_key_short key :
  JS.startsWith (namespace ++ ":") key = true →
  Storage.item_key namespace (JS.replace (namespace ++ ":") "" key) = key.
Proof.
  intros Hp. destruct (prefix_split _ _ Hp) as [k ->].
  rewrite replace_prefix. unfold Storage.item_key.
  rewrite append_assoc. reflexivity.
Qed.

Lemma put_Forall (P : string * Json.json → Prop) k v obj :
  P (k, v) → Forall P obj → Forall P (Json.put k v obj).
Proof.
  intros Hkv. induction 1 as [|[k' v'] obj Hx Hobj IH]; cbn.
  - repeat constructor. assumption.
  - destruct (String.eqb k' k); constructor; assumption.
Qed.

Lemma put_keys k v obj k0 :
  In k0 (List.map fst (Json.put k v obj)) ↔ k0 = k ∨ In k0 (List.map fst obj).
Proof.
  induction obj as [|[k' v'] obj IH]; cbn.
  - intuition.
  - destruct (String.eqb_spec k' k) as [-> | Hne]; cbn; [intuition|].
    rewrite IH. intuition.
Qed.

Lemma export_entry_exported ls data entry :
  ls !! fst entry = Some (snd entry) →
  Forall (exported namespace ls) data →
  Forall (exported namespace ls) (Storage.export_entry namespace ls data entry).
Proof.
  intros Hin Hd. unfold Storage.export_entry.
  destruct (JS.startsWith _ _) eqn:Hp; [|assumption].
  unfold Json.assign.
  destruct (String.eqb_spec (JS.replace (namespace ++ ":") "" (fst entry)) "__proto__")
    as [E | E]; [assumption|].
  apply put_Forall; [|assumption].
  split; [exact E|]. cbn [fst snd]. rewrite item_key_short by assumption.
  split; [eauto | reflexivity].
Qed.

Lemma exportAll_unfold ls :
  Storage.exportAll namespace ls
  = Json.JObj (fold_left (Storage.export_entry namespace ls) (map_to_list ls) []).
Proof. reflexivity. Qed.

(** Every entry of the export is the parsed value of a stored item. *)
Lemma exportAll_exported ls :
  Forall (exported namespace ls)
         (fold_left (Storage.export_entry namespace ls) (map_to_list ls) []).
Proof.
  assert (Hall : Forall (fun e => ls !! fst e = Some (snd e)) (map_to_list ls)).
  { apply List.Forall_forall. intros [k v] Hin.
    apply list_elem_of_In, elem_of_map_to_list in Hin. exact Hin. }
  revert Hall. generalize (map_to_list ls).
  assert (Hnil : Forall (exported namespace ls) []) by constructor.
  revert Hnil. generalize (@nil (string * Json.json)).
  intros data Hd l. revert data Hd.
  induction l as [|e l IH]; intros data Hd Hall; cbn; [assumption|].
  inversion Hall; subst. apply IH; [|assumption].
  apply export_entry_exported; assumption.
Qed.

Lemma export_entry_keys ls data entry k :
  In k (List.map fst data) →
  In k (List.map fst (Storage.export_entry namespace ls data entry)).
Proof.
  intros Hk. unfold Storage.export_entry, Json.assign.
  destruct (JS.startsWith _ _); [|assumption].
  destruct (String.eqb _ "__proto__"); [assumption|].
  apply put_keys. right. assumption.
Qed.

Lemma export_fold_keys ls l data k :
  In k (List.map fst data) →
  In k (List.map fst (fold_left (Storage.export_entry namespace ls) l data)).
Proof.
  revert data. induction l as [|e l IH]; intros data Hk; cbn; [assumption|].
  apply IH, export_entry_keys, Hk.
Qed.

(** Every item under the namespace is exported (the key "__proto__"
    apart). *)
Lemma export_fold_complete ls l data k item :
  In (Storage.item_key namespace k, item) l → k ≠ "__proto__" →
  In k (List.map fst (fold_left (Storage.export_entry namespace ls) l data)).
Proof.
  intros Hin Hne. revert data.
  induction l as [|e l IH]; intros data; [destruct Hin|].
  destruct Hin as [-> | Hin]; [|apply IH, Hin].
  cbn [fold_left]. apply export_fold_keys.
  unfold Storage.export_entry, Json.assign. cbn [fst].
  rewrite startsWith_item_key, replace_item_key.
  destruct (String.eqb_spec k "__proto__"); [contradiction|].
  apply put_keys. left. reflexivity.
Qed.

(** A value that the codec reads back from its serialization is
    writable. *)
Lemma read_back_writable v :
  JS.truthy (Json.stringify v) = true →
  Json.parse (Json.stringify v) = Some v →
  writable v.
Proof. intros Ht Hr. split; [exact Ht|]. exists v. split; [exact Hr | reflexivity]. Qed.

(** The stores that [Storage.set] builds are well formed. *)
Lemma set_keeps_well_formed quota key v ls :
  writable v → well_formed namespace ls →
  well_formed namespace (snd (Storage.set namespace quota key v ls)).
Proof.
  intros Hv Hwf. unfold Storage.set.
  destruct (quota _ _ _); [|exact Hwf]. cbn [snd].
  intros k item Hl Hp.
  apply lookup_insert_Some in Hl as [[_ <-] | [_ Hl]]; [|eapply Hwf; eassumption].
  exact Hv.
Qed.

Lemma remove_keeps_well_formed key ls :
  well_formed namespace ls → well_formed namespace (Storage.remove namespace key ls).
Proof.
  intros Hwf k item Hl Hp. unfold Storage.remove in Hl.
  apply lookup_delete_Some in Hl as [_ Hl]. eapply Hwf; eassumption.
Qed.

Lemma foreign_items_well_formed ls :
  (∀ key, JS.startsWith (namespace ++ ":") key = true → ls !! key = None) →
  well_formed namespace ls.
Proof. intros Hn key item Hl Hp. rewrite (Hn key Hp) in Hl. discriminate. Qed.

Lemma delete_all_Some (keys : list string) (ls : gmap string string) k item :
  fold_left (fun ls key => base.delete key ls) keys ls !! k = Some item →
  ls !! k = Some item.
Proof.
  revert ls. induction keys as [|key keys IH]; intros ls; cbn [fold_left];
    [intros Hl; exact Hl|].
  intros Hl. apply IH in Hl. apply lookup_delete_Some in Hl as [_ Hl]. exact Hl.
Qed.

Lemma clearAll_keeps_well_formed ls :
  well_formed namespace ls → well_formed namespace (Storage.clearAll namespace ls).
Proof.
  intros Hwf k item Hl Hp. unfold Storage.clearAll in Hl.
  apply delete_all_Some in Hl. eapply Hwf; eassumption.
Qed.

Lemma importAll_keeps_well_formed quota data ls ls' :
  (∀ entries, Json.Object_entries data = Some entries →
              Forall (fun entry => writable (snd entry)) entries) →
  well_formed namespace ls →
  Storage.importAll namespace quota data ls = Some ls' →
  well_formed namespace ls'.
Proof.
  intros Hd Hwf. unfold Storage.importAll.
  destruct (Json.Object_entries data) as [entries|]; [|discriminate].
  intros [= <-]. specialize (Hd entries eq_refl). revert ls Hwf.
  induction Hd as [|e l He _ IH]; intros ls Hwf; cbn [fold_left]; [exact Hwf|].
  apply IH. apply set_keeps_well_formed; assumption.
Qed.

(** Every store that [set], [remove] and [clearAll] build from a
    well-formed one, in particular from one without an item of the
    namespace, is well formed, whatever writes the browser takes. *)
Lemma storage_run_well_formed ops ls :
  Forall writes_writable ops → well_formed namespace ls →
  well_formed namespace (storage_run namespace ops ls).
Proof.
  intros Hops. revert ls. unfold storage_run.
  induction Hops as [|op ops Hop _ IH]; intros ls Hwf; cbn [fold_left];
    [exact Hwf|].
  apply IH. destruct op as [quota key data | key |]; cbn [storage_step].
  - apply set_keeps_well_formed; assumption.
  - apply remove_keeps_well_formed; assumption.
  - apply clearAll_keeps_well_formed; assumption.
Qed.

Lemma storage_run_fresh_well_formed ops ls :
  Forall writes_writable ops → fresh namespace ls →
  well_formed namespace (storage_run namespace ops ls).
Proof.
  intros Hops Hf. apply storage_run_well_formed; [exact Hops|].
  apply foreign_items_well_formed. exact Hf.
Qed.

(** Writing back what was read changes nothing, accepted or not. *)
Lemma set_exported quota ls entry :
  well_formed namespace ls → exported namespace ls entry →
  snd (Storage.set namespace quota (fst entry) (snd entry) ls) = ls.
Proof.
  intros Hwf (Hne & [item Hitem] & Hv). unfold Storage.set.
  destruct (quota _ _ _); [|reflexivity]. cbn [snd].
  apply insert_id. rewrite Hitem. f_equal.
  destruct (Hwf (Storage.item_key namespace (fst entry)) item Hitem
                (startsWith_item_key _)) as (Ht & v & Hp & Hs).
  rewrite Hv. unfold Storage.get. rewrite Hitem, Ht, Hp. symmetry. exact Hs.
Qed.

Lemma import_exported quota ls data :
  well_formed namespace ls → Forall (exported namespace ls) data →
  fold_left (fun ls (entry : string * Json.json) =>
               snd (Storage.set namespace quota (fst entry) (snd entry) ls))
            data ls = ls.
Proof.
  intros Hwf. induction 1 as [|e data He _ IH]; cbn; [reflexivity|].
  rewrite set_exported by assumption. exact IH.
Qed.

Lemma import_lookup ls data :
  well_formed namespace ls → Forall (exported namespace ls) data →
  ∀ (t : gmap string string) K,
    fold_left (fun t (entry : string * Json.json) =>
                 snd (Storage.set namespace accept_all (fst entry) (snd entry) t))
              data t !! K
    = if existsb (fun e => String.eqb (Storage.item_key namespace (fst e)) K) data
      then ls !! K else t !! K.
Proof.
  intros Hwf. induction 1 as [|e data He _ IH]; intros t K; cbn [fold_left existsb];
    [reflexivity|].
  rewrite IH. destruct (existsb _ data); [rewrite orb_true_r; reflexivity|].
  rewrite orb_false_r. unfold Storage.set, accept_all. cbn [snd].
  destruct (String.eqb_spec (Storage.item_key namespace (fst e)) K) as [<- | Hne].
  - rewrite lookup_insert_eq.
    pose proof (set_exported accept_all ls e Hwf He) as Hs.
    unfold Storage.set, accept_all in Hs. cbn [snd] in Hs.
    apply (f_equal (fun m : gmap string string =>
                      m !! Storage.item_key namespace (fst e))) in Hs.
    rewrite lookup_insert_eq in Hs. exact Hs.
  - apply lookup_insert_ne. assumption.
Qed.

Lemma import_same_store quota ls :
  well_formed namespace ls →
  Storage.importAll namespace quota (Storage.exportAll namespace ls) ls = Some ls.
Proof.
  intros Hwf. rewrite exportAll_unfold. unfold Storage.importAll.
  cbn [Json.Object_entries]. f_equal.
  apply import_exported; [assumption | apply exportAll_exported].
Qed.

Lemma import_other_store (ls t : gmap string string) :
  well_formed namespace ls →
  ∃ t', Storage.importAll namespace accept_all (Storage.exportAll namespace ls) t
        = Some t'
        ∧ (∀ k, k ≠ "__proto__" → is_Some (ls !! Storage.item_key namespace k) →
             t' !! Storage.item_key namespace k = ls !! Storage.item_key namespace k
             ∧ ∀ d, Storage.get namespace k d t' = Storage.get namespace k d ls)
        ∧ (∀ K, t' !! K = ls !! K ∨ t' !! K = t !! K).
Proof.
  intros Hwf. rewrite exportAll_unfold. unfold Storage.importAll.
  cbn [Json.Object_entries]. eexists. split; [reflexivity|].
  pose proof (exportAll_exported ls) as Hd.
  set (data := fold_left (Storage.export_entry namespace ls) (map_to_list ls) []) in *.
  split.
  - intros k Hne [item Hitem].
    assert (Hl : fold_left
                   (fun t (entry : string * Json.json) =>
                      snd (Storage.set namespace accept_all (fst entry) (snd entry) t))
                   data t !! Storage.item_key namespace k
                 = ls !! Storage.item_key namespace k).
    { rewrite (import_lookup ls data Hwf Hd).
      assert (Hk : In k (List.map fst data)).
      { apply (export_fold_complete ls _ [] k item); [|assumption].
        apply list_elem_of_In, elem_of_map_to_list. assumption. }
      apply in_map_iff in Hk as (e & <- & Hin).
      assert (Hex : existsb (fun e0 => String.eqb (Storage.item_key namespace (fst e0))
                                                  (Storage.item_key namespace (fst e)))
                            data = true).
      { apply existsb_exists. exists e. split; [assumption | apply String.eqb_refl]. }
      rewrite Hex. reflexivity. }
    split; [exact Hl|]. intros d. unfold Storage.get. rewrite Hl. reflexivity.
  - intros K. rewrite (import_lookup ls data Hwf Hd).
    destruct (existsb _ data); [left | right]; reflexivity.
Qed.

(** C8, as amended.  For every store in which each item under the
    namespace is as [Storage.set] writes it (a text that is not
    empty and is the serialization of the value it parses to),
    [importAll] applied to the result of [exportAll] leaves the store
    exactly as it was, whatever writes the browser accepts, so
    "classes", "students" and "arrivals" read as before.  Imported
    into any other store that accepts the writes, every key the
    original holds reads as in the original. *)
Theorem export_import_roundtrip quota (ls : gmap string string) :
  well_formed namespace ls →
  Storage.importAll namespace quota (Storage.exportAll namespace ls) ls = Some ls
  ∧ (∀ key defaultValue,
       In key ["classes"; "students"; "arrivals"] →
       option_map (Storage.get namespace key defaultValue)
         (Storage.importAll namespace quota (Storage.exportAll namespace ls) ls)
       = Some (Storage.get namespace key defaultValue ls))
  ∧ (∀ t, ∃ t',
       Storage.importAll namespace accept_all (Storage.exportAll namespace ls) t
       = Some t'
       ∧ ∀ key defaultValue,
           In key ["classes"; "students"; "arrivals"] →
           is_Some (ls !! Storage.item_key namespace key) →
           t' !! Storage.item_key namespace key = ls !! Storage.item_key namespace key
           ∧ Storage.get namespace key defaultValue t'
             = Storage.get namespace key defaultValue ls).
Proof.
  intros Hwf. pose proof (import_same_store quota ls Hwf) as E.
  split; [exact E|]. split.
  - intros key d _. rewrite E. reflexivity.
  - intros t. destruct (import_other_store ls t Hwf) as (t' & Ht & Hk & _).
    exists t'. split; [exact Ht|]. intros key d Hin Hsome.
    destruct (Hk key) as [H1 H2]; [|assumption|split; [exact H1 | apply H2]].
    cbn in Hin. intros ->. intuition discriminate.
Qed.

(** ** importJSON *)

Variable syntax_error : string -> string.
Variable type_error : string.

Lemma import_rejected (entries : list (string * Json.json)) ls :
  fold_left (fun ls (entry : string * Json.json) =>
               snd (Storage.set namespace reject_all (fst entry) (snd entry) ls))
            entries ls = ls.
Proof. induction entries as [|e l IH]; [reflexivity | exact IH]. Qed.

Lemma entries_of_non_null v :
  v ≠ Json.JNull → ∃ entries, Json.Object_entries v = Some entries.
Proof. destruct v; intros Hv; try congruence; eexists; reflexivity. Qed.

Lemma importJSON_null quota jsonData ls :
  Json.parse jsonData = Some Json.JNull →
  ReportGenerator.importJSON namespace quota syntax_error type_error jsonData ls
  = (ReportGenerator.Failed type_error, ls).
Proof. intros Hp. unfold ReportGenerator.importJSON. rewrite Hp. reflexivity. Qed.

Lemma importJSON_malformed quota jsonData ls :
  Json.parse jsonData = None →
  ReportGenerator.importJSON namespace quota syntax_error type_error jsonData ls
  = (ReportGenerator.Failed (syntax_error jsonData), ls).
Proof. intros Hp. unfold ReportGenerator.importJSON. rewrite Hp. reflexivity. Qed.

(** C10, as amended.  [importJSON] reports success whenever its
    argument parses as JSON to a value other than null, whether or
    not any write went through: with a store that rejects every write
    it still reports success, and the store is left as it was. *)
Theorem importJSON_reports_success quota jsonData v ls :
  Json.parse jsonData = Some v → v ≠ Json.JNull →
  fst (ReportGenerator.importJSON namespace quota syntax_error type_error
                                  jsonData ls)
  = ReportGenerator.Imported
  ∧ ReportGenerator.importJSON namespace reject_all syntax_error type_error
                               jsonData ls
    = (ReportGenerator.Imported, ls).
Proof.
  intros Hp Hv. destruct (entries_of_non_null v Hv) as [entries He].
  unfold ReportGenerator.importJSON, Storage.importAll. rewrite Hp, He.
  split; [reflexivity|]. cbn [fst]. rewrite import_rejected. reflexivity.
Qed.

End StorageFacts.

Lemma written_printed (v : Json.json) :
  JS.truthy (MiniJSON.print v) = true →
  MiniJSON.read (MiniJSON.print v) = Some v →
  written (H := MiniJSON.codec) (MiniJSON.print v).
Proof. intros Ht Hr. split; [exact Ht|]. exists v. split; [exact Hr | reflexivity]. Qed.

Lemma sample_items_well_formed :
  well_formed (H := MiniJSON.codec) "lateness-tracker" sample_items.
Proof.
  intros key item Hl Hp. unfold sample_items in Hl.
  apply lookup_insert_Some in Hl as [[<- <-] | [_ Hl]];
    [apply written_printed; vm_compute; reflexivity|].
  apply lookup_insert_Some in Hl as [[<- <-] | [_ Hl]];
    [apply written_printed; vm_compute; reflexivity|].
  apply lookup_insert_Some in Hl as [[<- <-] | [_ Hl]];
    [vm_compute in Hp; discriminate|].
  rewrite lookup_empty in Hl. discriminate.
Qed.

(** The store the application builds by saving its three lists is well
    formed: each list is read back from its text. *)
Lemma saved_items_well_formed :
  well_formed (H := MiniJSON.codec) "lateness-tracker" saved_items.
Proof.
  unfold saved_items. apply storage_run_fresh_well_formed.
  - repeat constructor; apply (read_back_writable (H := MiniJSON.codec));
      vm_compute; reflexivity.
  - intros key Hp.
    apply lookup_insert_None. split; [apply lookup_empty|].
    intros <-. vm_compute in Hp. discriminate.
Qed.

Example saved_items_texts :
  saved_items !! "lateness-tracker:students"
  = Some (MiniJSON.print sample_students_json)
  ∧ saved_items !! "theme" = Some "dark"
  ∧ List.length (map_to_list saved_items) = 4%nat.
Proof. vm_compute. repeat split; reflexivity. Qed.

Lemma export_import_roundtrip_witness :
  Storage.importAll (H := MiniJSON.codec) "lateness-tracker" accept_all
    (Storage.exportAll (H := MiniJSON.codec) "lateness-tracker" saved_items)
    saved_items
  = Some saved_items
  ∧ ∃ t',
      Storage.importAll (H := MiniJSON.codec) "lateness-tracker" accept_all
        (Storage.exportAll (H := MiniJSON.codec) "lateness-tracker" saved_items)
        other_items
      = Some t'
      ∧ Storage.get (H := MiniJSON.codec) "lateness-tracker" "classes" Json.JNull t'
        = sample_classes_json
      ∧ Storage.get (H := MiniJSON.codec) "lateness-tracker" "students" Json.JNull t'
        = sample_students_json
      ∧ Storage.get (H := MiniJSON.codec) "lateness-tracker" "arrivals" Json.JNull t'
        = sample_arrivals_json.
Proof.
  destruct (export_import_roundtrip (H := MiniJSON.codec) "lateness-tracker"
              accept_all saved_items saved_items_well_formed) as (Hsame & _ & Hother).
  split; [exact Hsame|].
  destruct (Hother other_items) as (t' & Ht' & Hkeys).
  exists t'. split; [exact Ht'|].
  split; [|split].
  - rewrite (proj2 (Hkeys "classes" Json.JNull (or_introl eq_refl)
                      (ex_intro _ _ eq_refl))).
    vm_compute. reflexivity.
  - rewrite (proj2 (Hkeys "students" Json.JNull (or_intror (or_introl eq_refl))
                      (ex_intro _ _ eq_refl))).
    vm_compute. reflexivity.
  - rewrite (proj2 (Hkeys "arrivals" Json.JNull
                      (or_intror (or_intror (or_introl eq_refl)))
                      (ex_intro _ _ eq_refl))).
    vm_compute. reflexivity.
Defined.

(** The export holds the keys of the namespace, without the prefix, and
    not the key of the other application. *)
Example export_of_sample :
  option_map (List.map fst)
    (Json.Object_entries
       (Storage.exportAll (H := MiniJSON.codec) "lateness-tracker" sample_items))
  = Some ["classes"; "arrivals"].
Proof. vm_compute. reflexivity. Qed.

(** C8, the claim as stated fails: in a store whose class list is no
    JSON text, [get] reads the list as its default, here the empty
    list; the item is exported as null, the default of the [get] of
    [exportAll], and [importAll] writes the text of null in its place.
    The store is not the one it was, and the class list now reads as
    null. *)
Lemma corrupt_item_comes_back_null :
  Storage.importAll (H := MiniJSON.codec) "lateness-tracker" accept_all
    (Storage.exportAll (H := MiniJSON.codec) "lateness-tracker" corrupt_items)
    corrupt_items
  = Some (<["lateness-tracker:classes" := "null"]> ∅)
  ∧ Storage.importAll (H := MiniJSON.codec) "lateness-tracker" accept_all
      (Storage.exportAll (H := MiniJSON.codec) "lateness-tracker" corrupt_items)
      corrupt_items
    ≠ Some corrupt_items
  ∧ Storage.get (H := MiniJSON.codec) "lateness-tracker" "classes" (Json.JArr [])
      corrupt_items
    = Json.JArr []
  ∧ Storage.get (H := MiniJSON.codec) "lateness-tracker" "classes" (Json.JArr [])
      (<["lateness-tracker:classes" := "null"]> ∅)
    = Json.JNull.
Proof.
  assert (E : Storage.importAll (H := MiniJSON.codec) "lateness-tracker" accept_all
                (Storage.exportAll (H := MiniJSON.codec) "lateness-tracker"
                   corrupt_items) corrupt_items
              = Some (<["lateness-tracker:classes" := "null"]> ∅))
    by (vm_compute; reflexivity).
  split; [exact E|]. split; [|split; vm_compute; reflexivity].
  rewrite E. intros Hm.
  apply (f_equal (fun o : option (gmap string string) =>
                    o ≫= fun m => m !! "lateness-tracker:classes")) in Hm.
  vm_compute in Hm. discriminate.
Qed.

Lemma importJSON_reports_success_witness :
  ReportGenerator.importJSON (H := MiniJSON.codec) "lateness-tracker" reject_all
    (fun _ => "Unexpected token") "Cannot convert undefined or null to object"
    sample_bundle ∅
  = (ReportGenerator.Imported, ∅).
Proof.
  refine (proj2 (importJSON_reports_success (H := MiniJSON.codec)
                   "lateness-tracker" (fun _ => "Unexpected token")
                   "Cannot convert undefined or null to object" reject_all
                   sample_bundle
                   (Json.JObj [("classes", Json.JArr []); ("arrivals", Json.JArr [])])
                   ∅ _ _)).
  - vm_compute. reflexivity.
  - discriminate.
Defined.

(** C10, the claim as stated fails: the text [null] parses as JSON, and
    [importJSON] reports a failure for it, because [Object.entries]
    throws on null. *)
Lemma importJSON_null_fails :
  Json.parse (Codec := MiniJSON.codec) "null" = Some Json.JNull
  ∧ ReportGenerator.importJSON (H := MiniJSON.codec) "lateness-tracker" accept_all
      (fun _ => "Unexpected token") "Cannot convert undefined or null to object"
      "null" sample_items
    = (ReportGenerator.Failed "Cannot convert undefined or null to object",
       sample_items).
Proof. split; [vm_compute; reflexivity | reflexivity]. Qed.

Example importJSON_malformed_text :
  fst (ReportGenerator.importJSON (H := MiniJSON.codec) "lateness-tracker" accept_all
         (fun _ => "Unexpected token") "Cannot convert undefined or null to object"
         "{oops" sample_items)
  = ReportGenerator.Failed "Unexpected token".
Proof. vm_compute. reflexivity. Qed.

(** ** Report Aggregator: the window of the monthly report *)

(** C4 (the code departs from the claim).  On a host one hour east of
    UTC the window of the report for February 2024 starts on
    "2024-02-01" but ends on "2024-02-28", not on the last calendar day
    "2024-02-29": [new Date(year, month, 0)] is local midnight of the
    last day, and [toISOString] prints it in UTC, the evening before.
    An arrival dated 2024-02-29 is then in no row of the February
    report. *)
Theorem february_window_east_of_utc :
  ReportGenerator.startDate 2024 2 = "2024-02-01"
  ∧ ReportGenerator.endDate east_host 2024 2 = "2024-02-28"
  ∧ last_day 2024 2 = "2024-02-29"
  ∧ days_reported
      (ReportGenerator.generateMonthlyReport east_host february_app "cls_1" 2024 2)
    = Some [0].
Proof. vm_compute. repeat split; reflexivity. Qed.

(** On UTC and west of it the window is the claimed one. *)
Example february_window_on_utc :
  ReportGenerator.endDate utc_host 2024 2 = "2024-02-29"
  ∧ ReportGenerator.endDate west_host 2024 2 = "2024-02-29"
  ∧ days_reported
      (ReportGenerator.generateMonthlyReport utc_host february_app "cls_1" 2024 2)
    = Some [1].
Proof. vm_compute. repeat split; reflexivity. Qed.

(** From 1970 to 2100 the window ends on the last calendar day of the
    month on UTC, and one day short of it an hour east of UTC. *)
Example window_end_1970_2100 :
  forallb (fun ym => String.eqb (ReportGenerator.endDate utc_host (fst ym) (snd ym))
                                (last_day (fst ym) (snd ym))
                     && String.eqb (ReportGenerator.endDate east_host (fst ym) (snd ym))
                                   (before_last_day (fst ym) (snd ym)))
          (months_of years_1970_2100) = true.
Proof. vm_compute. reflexivity. Qed.

Example two_tardies_in_march :
  option_map (fun r => List.map (fun s => (tardies s, totalMinutesLate s, avgMinutesLate s))
                                (rep_students r))
    (ReportGenerator.generateMonthlyReport utc_host
       (app_with [sample_arrival "arr_1" "stu_1" "2024-03-04" "12:45" 15;
                  sample_arrival "arr_2" "stu_1" "2024-03-05" "12:55" 25])
       "cls_1" 2024 3)
  = Some [(2, JS.Int 40, JS.Int 20)].
Proof. vm_compute. reflexivity. Qed.

(** ** The bundled copy against the module sources *)

(** C5, the claim as stated fails: loading classes from an empty store
    gives the empty list in the module source and the shipped class
    2AEP in the bundle. *)
Lemma bundled_load_differs :
  classes (ClassManager.load empty_app) = []
  ∧ List.map cls_name (classes (Bundle.ClassManager.load utc_host empty_app))
    = ["2AEP"]
  ∧ classes (ClassManager.load empty_app)
    ≠ classes (Bundle.ClassManager.load utc_host empty_app).
Proof. repeat split. discriminate. Qed.

(** C5, as amended.  The bundled copy and the module sources give the
    same result and the same resulting state for every operation of the
    Schedule Registry, the Arrival Ledger and the Report Aggregator and
    every input and state, except for loading the class list: the two
    [load] agree when the store holds a class list, and when it holds
    none the bundle starts from the class it ships where the module
    source starts from the empty list. *)
Theorem bundle_agrees_except_load :
  (∀ h a, stored_classes (storage a) ≠ None →
     Bundle.ClassManager.load h a = ClassManager.load a)
  ∧ (∀ h a, stored_classes (storage a) = None →
       classes (Bundle.ClassManager.load h a) = Bundle.ClassManager.getDefaultClasses h
       ∧ classes (ClassManager.load a) = [])
  ∧ Bundle.ClassManager.save = ClassManager.save
  ∧ Bundle.ClassManager.getAll = ClassManager.getAll
  ∧ Bundle.ClassManager.getById = ClassManager.getById
  ∧ Bundle.ClassManager.add = ClassManager.add
  ∧ Bundle.ClassManager.update = ClassManager.update
  ∧ Bundle.ClassManager.delete = ClassManager.delete
  ∧ Bundle.ClassManager.getScheduleForDay = ClassManager.getScheduleForDay
  ∧ Bundle.ClassManager.defaultSchedule = ClassManager.defaultSchedule
  ∧ Bundle.ArrivalTracker.load = ArrivalTracker.load
  ∧ Bundle.ArrivalTracker.save = ArrivalTracker.save
  ∧ Bundle.ArrivalTracker.getAll = ArrivalTracker.getAll
  ∧ Bundle.ArrivalTracker.getByDate = ArrivalTracker.getByDate
  ∧ Bundle.ArrivalTracker.getByClassAndDate = ArrivalTracker.getByClassAndDate
  ∧ Bundle.ArrivalTracker.markArrival = ArrivalTracker.markArrival
  ∧ Bundle.ArrivalTracker.removeArrival = ArrivalTracker.removeArrival
  ∧ Bundle.ArrivalTracker.hasArrived = ArrivalTracker.hasArrived
  ∧ Bundle.ArrivalTracker.getStudentStats = ArrivalTracker.getStudentStats
  ∧ Bundle.ArrivalTracker.getClassStats = ArrivalTracker.getClassStats
  ∧ Bundle.ReportGenerator.generateMonthlyReport
    = ReportGenerator.generateMonthlyReport
  ∧ Bundle.ReportGenerator.generateCSV = ReportGenerator.generateCSV
  ∧ Bundle.ReportGenerator.generateDailySheet = ReportGenerator.generateDailySheet
  ∧ @Bundle.ReportGenerator.exportJSON = @ReportGenerator.exportJSON
  ∧ @Bundle.ReportGenerator.importJSON = @ReportGenerator.importJSON.
Proof.
  split.
  { intros h a Hs. unfold Bundle.ClassManager.load, ClassManager.load.
    destruct (stored_classes (storage a)); [reflexivity | contradiction]. }
  split.
  { intros h a Hs. unfold Bundle.ClassManager.load, ClassManager.load.
    rewrite Hs. split; reflexivity. }
  repeat split.
Qed.

(** * Further properties of the sources *)

(** ** Text: trimming *)

Lemma trimEnd_unfold (s : string) :
  JS.trimEnd s
  = if JS.blank s then ""
    else match s with
         | EmptyString => ""
         | String a r => String a (JS.trimEnd r)
         end.
Proof. destruct s; reflexivity. Qed.

Lemma trimEnd_empty (s : string) : JS.trimEnd s = "" → JS.blank s = true.
Proof.
  rewrite trimEnd_unfold. destruct (JS.blank s) eqn:E; [reflexivity|].
  destruct s; [discriminate E | discriminate].
Qed.

Lemma trimEnd_cons (s : string) b x :
  JS.trimEnd s = String b x → ∃ r, s = String b r ∧ x = JS.trimEnd r.
Proof.
  rewrite trimEnd_unfold. destruct (JS.blank s); [discriminate|].
  destruct s as [|a r]; [discriminate|]. intros [= -> <-]. eauto.
Qed.

Lemma blank_cons a (r : string) :
  JS.blank (String a r)
  = if JS.is_space1 a then JS.blank r
    else match r with
         | EmptyString => false
         | String b r2 =>
             if JS.is_space2 a b then JS.blank r2
             else match r2 with
                  | EmptyString => false
                  | String c r3 => if JS.is_space3 a b c then JS.blank r3 else false
                  end
         end.
Proof.
  unfold JS.blank. cbn [JS.trimStart].
  destruct (JS.is_space1 a); [reflexivity|].
  destruct r as [|b r2]; [reflexivity|].
  destruct (JS.is_space2 a b); [reflexivity|].
  destruct r2 as [|c r3]; [reflexivity|].
  destruct (JS.is_space3 a b c); reflexivity.
Qed.

(** What [trimEnd] leaves does not end in white space: it is empty or
    not blank. *)
Lemma trimEnd_not_blank (n : nat) :
  ∀ s, (String.length s ≤ n)%nat → JS.blank (JS.trimEnd s) = true → JS.trimEnd s = "".
Proof.
  induction n as [|n IH]; intros s Hlen.
  - destruct s; [reflexivity | cbn in Hlen; lia].
  - rewrite (trimEnd_unfold s). destruct (JS.blank s) eqn:Hb; [reflexivity|].
    destruct s as [|a r]; [reflexivity|]. cbn [String.length] in Hlen.
    intros Hx. exfalso. rewrite blank_cons in Hb, Hx.
    destruct (JS.is_space1 a).
    { rewrite (trimEnd_empty r) in Hb; [discriminate|]. apply IH; [lia | exact Hx]. }
    destruct (JS.trimEnd r) as [|b x] eqn:Er; [discriminate Hx|].
    destruct (trimEnd_cons r b x Er) as (r2 & -> & ->).
    cbn [String.length] in Hlen.
    destruct (JS.is_space2 a b).
    { rewrite (trimEnd_empty r2) in Hb; [discriminate|]. apply IH; [lia | exact Hx]. }
    destruct (JS.trimEnd r2) as [|c y] eqn:Er2; [discriminate Hx|].
    destruct (trimEnd_cons r2 c y Er2) as (r3 & -> & ->).
    cbn [String.length] in Hlen.
    destruct (JS.is_space3 a b c); [|discriminate Hx].
    rewrite (trimEnd_empty r3) in Hb; [discriminate|]. apply IH; [lia | exact Hx].
Qed.

Lemma trimEnd_trimEnd (s : string) : JS.trimEnd (JS.trimEnd s) = JS.trimEnd s.
Proof.
  induction s as [|a r IH]; [reflexivity|].
  rewrite (trimEnd_unfold (String a r)).
  destruct (JS.blank (String a r)) eqn:Hb; [reflexivity|].
  rewrite trimEnd_unfold.
  destruct (JS.blank (String a (JS.trimEnd r))) eqn:Hb'.
  - pose proof (trimEnd_not_blank _ (String a r) (le_n _)) as H.
    rewrite (trimEnd_unfold (String a r)), Hb in H. specialize (H Hb').
    discriminate.
  - rewrite IH. reflexivity.
Qed.

Lemma trimStart_trimEnd_trimStart (n : nat) :
  ∀ s, (String.length s ≤ n)%nat →
       JS.trimStart (JS.trimEnd (JS.trimStart s)) = JS.trimEnd (JS.trimStart s).
Proof.
  induction n as [|n IH]; intros s Hlen.
  - destruct s; [reflexivity | cbn in Hlen; lia].
  - destruct s as [|a r1]; [reflexivity|]. cbn [String.length] in Hlen.
    cbn [JS.trimStart].
    destruct (JS.is_space1 a) eqn:H1; [apply IH; lia|].
    destruct r1 as [|b r2].
    { rewrite trimEnd_unfold, blank_cons, H1.
      change (JS.trimEnd "") with "". cbn [JS.trimStart]. rewrite H1. reflexivity. }
    cbn [String.length] in Hlen.
    destruct (JS.is_space2 a b) eqn:H2; [apply IH; lia|].
    destruct r2 as [|c r3].
    { rewrite trimEnd_unfold, blank_cons, H1, H2.
      destruct (JS.trimEnd (String b "")) as [|b' x] eqn:Eb.
      - cbn [JS.trimStart]. rewrite H1. reflexivity.
      - destruct (trimEnd_cons _ _ _ Eb) as (r & [= <- <-] & ->).
        change (JS.trimEnd "") with "". cbn [JS.trimStart]. rewrite H1, H2.
        reflexivity. }
    cbn [String.length] in Hlen.
    destruct (JS.is_space3 a b c) eqn:H3; [apply IH; lia|].
    rewrite trimEnd_unfold, blank_cons, H1, H2, H3.
    destruct (JS.trimEnd (String b (String c r3))) as [|b' x] eqn:Eb.
    + cbn [JS.trimStart]. rewrite H1. reflexivity.
    + destruct (trimEnd_cons _ _ _ Eb) as (r & [= <- <-] & ->).
      destruct (JS.trimEnd (String c r3)) as [|c' y] eqn:Ec.
      * cbn [JS.trimStart]. rewrite H1, H2. reflexivity.
      * destruct (trimEnd_cons _ _ _ Ec) as (r' & [= <- <-] & ->).
        cbn [JS.trimStart]. rewrite H1, H2, H3. reflexivity.
Qed.

(** Trimming what is trimmed changes nothing. *)
Lemma trim_trim (s : string) : JS.trim (JS.trim s) = JS.trim s.
Proof.
  unfold JS.trim.
  rewrite (trimStart_trimEnd_trimStart _ s (le_n _)).
  apply trimEnd_trimEnd.
Qed.

(** ** Storage: one key at a time *)

Lemma append_inj_l (p s t : string) : p ++ s = p ++ t → s = t.
Proof.
  induction p as [|c p IH]; [intros E; exact E|].
  rewrite !append_cons. intros E. injection E as E. exact (IH E).
Qed.

Lemma put_NoDup k v obj :
  List.NoDup (List.map fst obj) → List.NoDup (List.map fst (Json.put k v obj)).
Proof.
  induction obj as [|[k' v'] obj IH]; cbn; intros Hnd.
  - constructor; [intros [] | constructor].
  - apply List.NoDup_cons_iff in Hnd as [Hk' Hnd].
    destruct (String.eqb_spec k' k) as [-> | Hne]; cbn;
      apply List.NoDup_cons_iff; (split; [|auto]).
    + exact Hk'.
    + rewrite put_keys. intros [E | Hin]; [congruence | contradiction].
Qed.

Section StorageLaws.

Context `{Json.Codec}.
Variable namespace : string.

Lemma item_key_inj k k' :
  Storage.item_key namespace k = Storage.item_key namespace k' → k = k'.
Proof.
  unfold Storage.item_key. intros E.
  apply append_inj_l in E. apply (append_inj_l ":") in E. exact E.
Qed.

Lemma set_refused quota key v ls :
  quota ls (Storage.item_key namespace key) (Json.stringify v) = false →
  Storage.set namespace quota key v ls = (false, ls).
Proof. intros Hq. unfold Storage.set. rewrite Hq. reflexivity. Qed.

Lemma get_frame key d (ls ls' : gmap string string) :
  ls' !! Storage.item_key namespace key = ls !! Storage.item_key namespace key →
  Storage.get namespace key d ls' = Storage.get namespace key d ls.
Proof. intros E. unfold Storage.get. rewrite E. reflexivity. Qed.

(** X1. A value written with [set] and accepted by the browser is the
    value every later [get] of that key returns, whatever the default;
    every other key, and every item outside the namespace, reads as
    before. *)
Theorem set_then_get quota key v (ls : gmap string string) :
  quota ls (Storage.item_key namespace key) (Json.stringify v) = true →
  JS.truthy (Json.stringify v) = true →
  Json.parse (Json.stringify v) = Some v →
  fst (Storage.set namespace quota key v ls) = true
  ∧ (∀ d, Storage.get namespace key d
            (snd (Storage.set namespace quota key v ls)) = v)
  ∧ (∀ key' d, key' ≠ key →
       Storage.get namespace key' d (snd (Storage.set namespace quota key v ls))
       = Storage.get namespace key' d ls)
  ∧ (∀ k, k ≠ Storage.item_key namespace key →
       snd (Storage.set namespace quota key v ls) !! k = ls !! k).
Proof.
  intros Hq Ht Hp. unfold Storage.set. rewrite Hq. cbn [fst snd].
  split; [reflexivity|]. split; [|split].
  - intros d. unfold Storage.get. rewrite lookup_insert_eq, Ht, Hp. reflexivity.
  - intros key' d Hne. apply get_frame. apply lookup_insert_ne.
    intros E. apply Hne. symmetry. exact (item_key_inj _ _ E).
  - intros k Hne. apply lookup_insert_ne. congruence.
Qed.

(** X2. After [remove] a key reads as its default; the other keys and
    the items outside the namespace read as before, and removing a key
    that holds nothing changes nothing. *)
Theorem remove_then_get key (ls : gmap string string) :
  (∀ d, Storage.get namespace key d (Storage.remove namespace key ls) = d)
  ∧ (∀ key' d, key' ≠ key →
       Storage.get namespace key' d (Storage.remove namespace key ls)
       = Storage.get namespace key' d ls)
  ∧ (∀ k, k ≠ Storage.item_key namespace key →
       Storage.remove namespace key ls !! k = ls !! k)
  ∧ (ls !! Storage.item_key namespace key = None →
       Storage.remove namespace key ls = ls).
Proof.
  unfold Storage.remove. split; [|split; [|split]].
  - intros d. unfold Storage.get. rewrite lookup_delete_eq. reflexivity.
  - intros key' d Hne. apply get_frame. apply lookup_delete_ne.
    intros E. apply Hne. symmetry. exact (item_key_inj _ _ E).
  - intros k Hne. apply lookup_delete_ne. congruence.
  - intros Hn. apply delete_id. exact Hn.
Qed.

Lemma delete_all_lookup (keys : list string) (ls : gmap string string) k :
  fold_left (fun ls key => base.delete key ls) keys ls !! k
  = if existsb (String.eqb k) keys then None else ls !! k.
Proof.
  revert ls. induction keys as [|key keys IH]; intros ls; cbn [fold_left existsb];
    [reflexivity|].
  rewrite IH. destruct (existsb _ keys); [rewrite orb_true_r; reflexivity|].
  rewrite orb_false_r. destruct (String.eqb_spec k key) as [-> | Hne].
  - apply lookup_delete_eq.
  - apply lookup_delete_ne. congruence.
Qed.

Lemma clearAll_lookup (ls : gmap string string) k :
  Storage.clearAll namespace ls !! k
  = if JS.startsWith (namespace ++ ":") k then None else ls !! k.
Proof.
  unfold Storage.clearAll. rewrite delete_all_lookup.
  destruct (existsb _ _) eqn:Hex.
  - apply existsb_exists in Hex as (k' & Hin & E).
    apply String.eqb_eq in E. subst k'.
    apply List.filter_In in Hin as [_ Hp]. rewrite Hp. reflexivity.
  - destruct (JS.startsWith _ k) eqn:Hp; [|reflexivity].
    destruct (ls !! k) as [item|] eqn:Hl; [|reflexivity].
    exfalso. apply Bool.not_true_iff_false in Hex. apply Hex.
    apply existsb_exists. exists k. split; [|apply String.eqb_refl].
    apply List.filter_In. split; [|exact Hp].
    apply List.in_map_iff. exists (k, item). split; [reflexivity|].
    apply list_elem_of_In, elem_of_map_to_list. exact Hl.
Qed.

Lemma export_nothing (ls : gmap string string) (l : list (string * string)) data :
  Forall (fun e => JS.startsWith (namespace ++ ":") (fst e) = false) l →
  fold_left (Storage.export_entry namespace ls) l data = data.
Proof.
  induction 1 as [|e l He _ IH]; cbn [fold_left]; [reflexivity|].
  unfold Storage.export_entry at 2. rewrite He. exact IH.
Qed.

(** X3. [clearAll] removes every item whose key starts with the
    namespace prefix and no other: afterwards each key of the namespace
    reads as its default, the export is the empty object, and the items
    of other applications are as before. *)
Theorem clearAll_clears (ls : gmap string string) :
  (∀ k, Storage.clearAll namespace ls !! k
        = if JS.startsWith (namespace ++ ":") k then None else ls !! k)
  ∧ (∀ key d, Storage.get namespace key d (Storage.clearAll namespace ls) = d)
  ∧ Storage.exportAll namespace (Storage.clearAll namespace ls) = Json.JObj [].
Proof.
  split; [exact (clearAll_lookup ls)|]. split.
  - intros key d. unfold Storage.get.
    rewrite clearAll_lookup, startsWith_item_key. reflexivity.
  - rewrite exportAll_unfold. f_equal. apply export_nothing.
    apply List.Forall_forall. intros [k item] Hin. cbn [fst].
    apply list_elem_of_In, elem_of_map_to_list in Hin.
    rewrite clearAll_lookup in Hin.
    destruct (JS.startsWith _ k); [discriminate | reflexivity].
Qed.

Lemma export_fold_NoDup ls l data :
  List.NoDup (List.map fst data) →
  List.NoDup (List.map fst (fold_left (Storage.export_entry namespace ls) l data)).
Proof.
  revert data. induction l as [|e l IH]; intros data Hnd; cbn [fold_left];
    [assumption|].
  apply IH. unfold Storage.export_entry, Json.assign.
  destruct (JS.startsWith _ _); [|assumption].
  destruct (String.eqb _ "__proto__"); [assumption|].
  apply put_NoDup. assumption.
Qed.

(** X4. The object [exportAll] returns has each key once; a key is in
    it exactly when the store holds an item under the namespace for it
    (the key "__proto__" apart, which an object takes as no property),
    and its value is what [get] reads for that key.  Items of other
    applications are never exported. *)
Theorem exportAll_entries (ls : gmap string string) :
  ∃ data,
    Storage.exportAll namespace ls = Json.JObj data
    ∧ List.NoDup (List.map fst data)
    ∧ (∀ k, In k (List.map fst data)
            ↔ k ≠ "__proto__" ∧ is_Some (ls !! Storage.item_key namespace k))
    ∧ (∀ k v, In (k, v) data → v = Storage.get namespace k Json.JNull ls).
Proof.
  eexists. split; [apply exportAll_unfold|].
  pose proof (exportAll_exported namespace ls) as Hex.
  rewrite List.Forall_forall in Hex.
  split; [apply export_fold_NoDup; constructor|]. split.
  - intros k. split.
    + intros Hin. apply List.in_map_iff in Hin as ([k' v] & <- & Hin).
      destruct (Hex _ Hin) as (Hne & Hsome & _). split; assumption.
    + intros [Hne [item Hitem]].
      apply (export_fold_complete namespace ls _ _ k item); [|exact Hne].
      apply list_elem_of_In, elem_of_map_to_list. exact Hitem.
  - intros k v Hin. destruct (Hex _ Hin) as (_ & _ & Hv). exact Hv.
Qed.

Lemma import_fold_keeps quota (entries : list (string * Json.json))
    (ls : gmap string string) :
  (∀ k, is_Some (ls !! k) →
        is_Some (fold_left (fun ls (entry : string * Json.json) =>
                              snd (Storage.set namespace quota (fst entry) (snd entry) ls))
                           entries ls !! k))
  ∧ (∀ k, JS.startsWith (namespace ++ ":") k = false →
        fold_left (fun ls (entry : string * Json.json) =>
                     snd (Storage.set namespace quota (fst entry) (snd entry) ls))
                  entries ls !! k = ls !! k).
Proof.
  revert ls. induction entries as [|e entries IH]; intros ls; cbn [fold_left];
    [split; auto|].
  destruct (IH (snd (Storage.set namespace quota (fst e) (snd e) ls))) as [IH1 IH2].
  split.
  - intros k Hk. apply IH1. unfold Storage.set.
    destruct (quota _ _ _); [|exact Hk]. cbn [snd].
    destruct (String.eqb_spec (Storage.item_key namespace (fst e)) k) as [<- | Hne].
    + rewrite lookup_insert_eq. eauto.
    + rewrite lookup_insert_ne by assumption. exact Hk.
  - intros k Hp. rewrite IH2 by assumption. unfold Storage.set.
    destruct (quota _ _ _); [|reflexivity]. cbn [snd].
    apply lookup_insert_ne. intros <-.
    rewrite startsWith_item_key in Hp. discriminate.
Qed.

End StorageLaws.

(** ** Import *)

Section ImportLaws.

Context `{Json.Codec}.
Variable namespace : string.
Variable syntax_error : string → string.
Variable type_error : string.

(** X5. [importJSON] never deletes and never touches another
    application: every item the store held is still there afterwards,
    the items outside the namespace are as before, and when the call
    reports a failure the whole store is as before. *)
Theorem importJSON_never_deletes quota jsonData (ls : gmap string string) :
  (∀ k, is_Some (ls !! k) →
        is_Some (snd (ReportGenerator.importJSON namespace quota syntax_error
                        type_error jsonData ls) !! k))
  ∧ (∀ k, JS.startsWith (namespace ++ ":") k = false →
        snd (ReportGenerator.importJSON namespace quota syntax_error
               type_error jsonData ls) !! k = ls !! k)
  ∧ (fst (ReportGenerator.importJSON namespace quota syntax_error
            type_error jsonData ls) ≠ ReportGenerator.Imported →
     snd (ReportGenerator.importJSON namespace quota syntax_error
            type_error jsonData ls) = ls).
Proof.
  unfold ReportGenerator.importJSON, Storage.importAll.
  destruct (Json.parse jsonData) as [data|]; [|cbn; auto].
  destruct (Json.Object_entries data) as [entries|]; [|cbn; auto].
  cbn [fst snd].
  destruct (import_fold_keeps namespace quota entries ls) as [H1 H2].
  split; [exact H1|]. split; [exact H2|]. intros Hne. contradiction.
Qed.

Lemma import_fold_lookup (entries : list (string * Json.json))
    (ls : gmap string string) K :
  List.NoDup (List.map fst entries) →
  fold_left (fun ls (entry : string * Json.json) =>
               snd (Storage.set namespace accept_all (fst entry) (snd entry) ls))
            entries ls !! K
  = match List.find (fun e => String.eqb (Storage.item_key namespace (fst e)) K)
                    entries with
    | Some e => Some (Json.stringify (snd e))
    | None => ls !! K
    end.
Proof.
  revert ls. induction entries as [|e entries IH]; intros ls Hnd;
    cbn [fold_left List.find]; [reflexivity|].
  cbn [List.map] in Hnd. apply List.NoDup_cons_iff in Hnd as [Hfresh Hnd].
  rewrite IH by assumption.
  unfold Storage.set at 1, accept_all at 1. cbn [snd].
  destruct (String.eqb_spec (Storage.item_key namespace (fst e)) K) as [E | Hne].
  - destruct (List.find _ entries) as [e'|] eqn:Hf.
    + exfalso. apply List.find_some in Hf as [Hin E'].
      apply String.eqb_eq in E'. rewrite <- E in E'.
      apply item_key_inj in E'. apply Hfresh. rewrite <- E'.
      apply List.in_map. exact Hin.
    + rewrite <- E. apply lookup_insert_eq.
  - destruct (List.find _ entries); [reflexivity|].
    apply lookup_insert_ne. assumption.
Qed.

(** X6. Importing an object whose writes the browser accepts makes
    every key of the object read as the object's value, and leaves every
    key the object does not name reading as before: an import merges
    into the store, it does not replace it. *)
Theorem importAll_then_get (entries : list (string * Json.json))
    (ls : gmap string string) :
  List.NoDup (List.map fst entries) →
  (∀ e, In e entries →
        JS.truthy (Json.stringify (snd e)) = true
        ∧ Json.parse (Json.stringify (snd e)) = Some (snd e)) →
  ∃ ls',
    Storage.importAll namespace accept_all (Json.JObj entries) ls = Some ls'
    ∧ (∀ k v d, In (k, v) entries → Storage.get namespace k d ls' = v)
    ∧ (∀ k d, ¬ In k (List.map fst entries) →
          Storage.get namespace k d ls' = Storage.get namespace k d ls).
Proof.
  intros Hnd Hlaw. eexists. split; [reflexivity|]. split.
  - intros k v d Hin. unfold Storage.get at 1.
    rewrite import_fold_lookup by assumption.
    destruct (List.find _ entries) as [e|] eqn:Hf.
    + apply List.find_some in Hf as [Hin' E]. apply String.eqb_eq in E.
      apply item_key_inj in E.
      assert (e = (k, v)) as ->.
      { clear -Hnd Hin Hin' E. induction entries as [|x l IH]; [destruct Hin|].
        cbn [List.map] in Hnd. apply List.NoDup_cons_iff in Hnd as [Hx Hnd].
        destruct Hin as [-> | Hin], Hin' as [-> | Hin'].
        - reflexivity.
        - exfalso. apply Hx. cbn [fst]. rewrite <- E. apply List.in_map, Hin'.
        - exfalso. apply Hx. rewrite E. apply (List.in_map fst _ _ Hin).
        - apply IH; assumption. }
      cbn [snd]. destruct (Hlaw _ Hin) as [Ht Hp]. cbn [snd] in Ht, Hp.
      rewrite Ht, Hp. reflexivity.
    + exfalso. eapply List.find_none in Hf; [|exact Hin].
      cbn [fst] in Hf. rewrite String.eqb_refl in Hf. discriminate.
  - intros k d Hnin. apply get_frame.
    rewrite import_fold_lookup by assumption.
    destruct (List.find _ entries) as [e|] eqn:Hf; [|reflexivity].
    exfalso. apply List.find_some in Hf as [Hin E]. apply String.eqb_eq in E.
    apply item_key_inj in E. apply Hnin. rewrite <- E. apply List.in_map, Hin.
Qed.

(** The round trip of export and import holds of a store only when its
    items are as [Storage.set] writes them: if the import of the
    export, every write accepted, leaves the store as it was, each
    item under a key of the namespace other than "__proto__" is the
    serialization of the value it parses to (null being written as a
    text that reads as null). *)
Lemma roundtrip_only_if_written (ls : gmap string string) :
  writable Json.JNull →
  Storage.importAll namespace accept_all (Storage.exportAll namespace ls) ls
  = Some ls →
  ∀ k item, k ≠ "__proto__" →
    ls !! Storage.item_key namespace k = Some item → written item.
Proof.
  intros Hnull Hrt k item Hk Hitem.
  rewrite exportAll_unfold in Hrt.
  pose proof (exportAll_exported namespace ls) as Hvals.
  rewrite List.Forall_forall in Hvals.
  assert (Hnd : List.NoDup
                  (List.map fst (fold_left (Storage.export_entry namespace ls)
                                           (map_to_list ls) [])))
    by (apply export_fold_NoDup; constructor).
  assert (Hin : In k (List.map fst (fold_left (Storage.export_entry namespace ls)
                                              (map_to_list ls) []))).
  { apply (export_fold_complete namespace ls _ _ k item); [|exact Hk].
    apply list_elem_of_In, elem_of_map_to_list. exact Hitem. }
  set (data := fold_left (Storage.export_entry namespace ls) (map_to_list ls) []) in *.
  unfold Storage.importAll in Hrt.
  cbn [Json.Object_entries] in Hrt. injection Hrt as Hrt.
  apply (f_equal (fun m : gmap string string =>
                    m !! Storage.item_key namespace k)) in Hrt.
  rewrite import_fold_lookup in Hrt by assumption.
  destruct (List.find _ data) as [e|] eqn:Hf.
  - apply List.find_some in Hf as [Hin' E]. apply String.eqb_eq in E.
    apply item_key_inj in E. destruct e as [k' v]. cbn [fst snd] in E, Hrt.
    subst k'. destruct (Hvals _ Hin') as (_ & _ & Hv). cbn [fst snd] in Hv.
    rewrite Hv, Hitem in Hrt. injection Hrt as Hrt.
    unfold Storage.get in Hrt. rewrite Hitem in Hrt.
    destruct (JS.truthy item) eqn:Ht; [|rewrite <- Hrt; exact Hnull].
    destruct (Json.parse item) as [w|] eqn:Hp; [|rewrite <- Hrt; exact Hnull].
    split; [exact Ht|]. exists w. split; [exact Hp | exact Hrt].
  - exfalso.
    apply List.in_map_iff in Hin as (e & <- & Hin).
    eapply List.find_none in Hf; [|exact Hin].
    rewrite String.eqb_refl in Hf. discriminate.
Qed.

End ImportLaws.

Lemma set_then_get_witness :
  Storage.get (H := MiniJSON.codec) "lateness-tracker" "classes" Json.JNull
    (snd (Storage.set (H := MiniJSON.codec) "lateness-tracker" accept_all "classes"
            (Json.JArr [Json.JStr "1AEP"]) corrupt_items))
  = Json.JArr [Json.JStr "1AEP"].
Proof.
  refine (proj1 (proj2 (set_then_get (H := MiniJSON.codec) "lateness-tracker"
                          accept_all "classes" (Json.JArr [Json.JStr "1AEP"])
                          corrupt_items _ _ _)) Json.JNull).
  - reflexivity.
  - vm_compute. reflexivity.
  - vm_compute. reflexivity.
Defined.

Example set_refused_keeps_the_old_value :
  Storage.set (H := MiniJSON.codec) "lateness-tracker" reject_all "classes"
    (Json.JArr [Json.JStr "1AEP"]) sample_items
  = (false, sample_items).
Proof. reflexivity. Qed.

Lemma importAll_then_get_witness :
  ∃ ls',
    Storage.importAll (H := MiniJSON.codec) "lateness-tracker" accept_all
      (Json.JObj [("classes", Json.JArr [Json.JStr "1AEP"])]) sample_items
    = Some ls'
    ∧ Storage.get (H := MiniJSON.codec) "lateness-tracker" "classes" Json.JNull ls'
      = Json.JArr [Json.JStr "1AEP"]
    ∧ Storage.get (H := MiniJSON.codec) "lateness-tracker" "arrivals" Json.JNull ls'
      = Storage.get (H := MiniJSON.codec) "lateness-tracker" "arrivals" Json.JNull
          sample_items.
Proof.
  destruct (importAll_then_get (H := MiniJSON.codec) "lateness-tracker"
              [("classes", Json.JArr [Json.JStr "1AEP"])] sample_items)
    as (ls' & E & Hin & Hout).
  - constructor; [intros [] | constructor].
  - intros e [<- | []]. split; vm_compute; reflexivity.
  - exists ls'. split; [exact E|]. split.
    + apply Hin. left. reflexivity.
    + apply Hout. intros [E' | []]. discriminate.
Defined.

(** ** Lists: the first element that fits *)

Lemma find_app_none {A} (p : A → bool) l x :
  List.find p l = None → List.find p (l ++ [x]) = if p x then Some x else None.
Proof.
  induction l as [|y l IH]; cbn; [intros _; reflexivity|].
  destruct (p y); [discriminate | exact IH].
Qed.

Lemma find_app_some {A} (p : A → bool) l l' x :
  List.find p l = Some x → List.find p (l ++ l') = Some x.
Proof.
  induction l as [|y l IH]; cbn; [discriminate|].
  destruct (p y); [intros E; exact E | exact IH].
Qed.

Lemma find_filter_other {A} (p q : A → bool) l :
  (∀ x, p x = true → q x = true) →
  List.find p (List.filter q l) = List.find p l.
Proof.
  intros Hpq. induction l as [|y l IH]; cbn; [reflexivity|].
  destruct (q y) eqn:Hq; cbn.
  - rewrite IH. reflexivity.
  - destruct (p y) eqn:Hp; [|exact IH].
    rewrite (Hpq y Hp) in Hq. discriminate.
Qed.

Lemma find_filter_out {A} (p : A → bool) l :
  List.find p (List.filter (fun x => negb (p x)) l) = None.
Proof.
  induction l as [|y l IH]; cbn; [reflexivity|].
  destruct (p y) eqn:Hp; cbn; [exact IH|]. rewrite Hp. exact IH.
Qed.

Lemma filter_all {A} (p : A → bool) l :
  List.find (fun x => negb (p x)) l = None → List.filter p l = l.
Proof.
  induction l as [|y l IH]; cbn; [reflexivity|].
  destruct (p y); cbn; [intros Hf; f_equal; exact (IH Hf) | discriminate].
Qed.

Lemma findIndex_none {A} (p : A → bool) l :
  findIndex p l = None ↔ List.find p l = None.
Proof.
  induction l as [|y l IH]; cbn; [tauto|].
  destruct (p y); [split; discriminate|].
  rewrite <- IH. destruct (findIndex p l); cbn; split; congruence.
Qed.

(** The index [findIndex] returns is the one of the element [find]
    returns. *)
Lemma findIndex_some {A} (p : A → bool) l i :
  findIndex p l = Some i →
  ∃ x, l !! i = Some x ∧ List.find p l = Some x ∧ p x = true.
Proof.
  revert i. induction l as [|y l IH]; cbn; [discriminate|]. intros i.
  destruct (p y) eqn:Hp.
  - intros E. injection E as <-. exists y. auto.
  - destruct (findIndex p l) as [j|]; cbn; [|discriminate].
    intros E. injection E as <-. exact (IH j eq_refl).
Qed.

Lemma find_replaced {A} (p : A → bool) l i m :
  findIndex p l = Some i → p m = true → List.find p (<[i := m]> l) = Some m.
Proof.
  revert i. induction l as [|y l IH]; cbn; [discriminate|]. intros i.
  destruct (p y) eqn:Hp.
  - intros E Hm. injection E as <-. cbn. rewrite Hm. reflexivity.
  - destruct (findIndex p l) as [j|]; cbn; [|discriminate].
    intros E Hm. injection E as <-. cbn. rewrite Hp. exact (IH j eq_refl Hm).
Qed.

Lemma find_replaced_other {A} (q : A → bool) l i x m :
  l !! i = Some x → q x = false → q m = false →
  List.find q (<[i := m]> l) = List.find q l.
Proof.
  revert i. induction l as [|y l IH]; intros [|i]; cbn; try discriminate.
  - intros E Hx Hm. injection E as ->. rewrite Hx, Hm. reflexivity.
  - intros E Hx Hm. destruct (q y); [reflexivity|]. exact (IH i E Hx Hm).
Qed.

Lemma length_replaced {A} (l : list A) i m :
  List.length (<[i := m]> l) = List.length l.
Proof. apply length_insert. Qed.

(** ** Schedule Registry: adding, editing and deleting a class *)

Lemma class_save_frame h a :
  classes (ClassManager.save h a) = classes a
  ∧ students (ClassManager.save h a) = students a
  ∧ arrivals (ClassManager.save h a) = arrivals a
  ∧ stored_students (storage (ClassManager.save h a)) = stored_students (storage a)
  ∧ stored_arrivals (storage (ClassManager.save h a)) = stored_arrivals (storage a).
Proof.
  unfold ClassManager.save, set_classes.
  destruct (setItemOk h "classes"); cbn; repeat split; reflexivity.
Qed.

(** X7. [add] puts the new class at the end of the list and checks no
    id: looking up an id that an earlier class has still returns the
    earlier class, also when the new class was given the same id, and
    the new class is returned for its id only when no earlier class has
    it. *)
Theorem class_add_lookup (h : Host) (name : string) (schedule : JS.arg Schedule)
    (a : App) (id : string) :
  ClassManager.getAll (snd (ClassManager.add h name schedule a))
  = (ClassManager.getAll a ++ [fst (ClassManager.add h name schedule a)])%list
  ∧ ClassManager.getById (snd (ClassManager.add h name schedule a)) id
    = match ClassManager.getById a id with
      | Some c => Some c
      | None =>
          if String.eqb (ClassManager.generateId h) id
          then Some (fst (ClassManager.add h name schedule a))
          else None
      end.
Proof.
  unfold ClassManager.add, ClassManager.getAll, ClassManager.getById.
  cbn [fst snd]. rewrite (proj1 (class_save_frame h _)). cbn [classes with_classes].
  split; [reflexivity|].
  destruct (List.find _ (classes a)) as [c|] eqn:Hf.
  - apply find_app_some. exact Hf.
  - rewrite (find_app_none _ _ _ Hf). reflexivity.
Qed.

(** X8. [delete] removes every class with the id and nothing else: the
    id is no longer found, every other id is found as before, a delete
    of an id no class has leaves the list as it is, and the students and
    the arrivals of the deleted class stay, in memory and in the store. *)
Theorem class_delete_effects (h : Host) (id : string) (a : App) :
  ClassManager.getById (ClassManager.delete h id a) id = None
  ∧ (∀ id', id' ≠ id →
       ClassManager.getById (ClassManager.delete h id a) id'
       = ClassManager.getById a id')
  ∧ (ClassManager.getById a id = None →
       classes (ClassManager.delete h id a) = classes a)
  ∧ students (ClassManager.delete h id a) = students a
  ∧ arrivals (ClassManager.delete h id a) = arrivals a
  ∧ stored_students (storage (ClassManager.delete h id a))
    = stored_students (storage a)
  ∧ stored_arrivals (storage (ClassManager.delete h id a))
    = stored_arrivals (storage a).
Proof.
  unfold ClassManager.delete, ClassManager.getById.
  destruct (class_save_frame h
              (with_classes
                 (List.filter (fun c => negb (String.eqb (cls_id c) id)) (classes a)) a))
    as (Hc & Hs & Ha & Hss & Hsa).
  rewrite Hc, Hs, Ha, Hss, Hsa. cbn [classes students arrivals storage with_classes].
  split; [|split; [|split]]; [| | |repeat split].
  - apply (find_filter_out (fun c => String.eqb (cls_id c) id)).
  - intros id' Hne. apply find_filter_other. intros c Hc'.
    apply String.eqb_eq in Hc'. rewrite Hc'.
    destruct (String.eqb_spec id' id); [contradiction | reflexivity].
  - intros Hf. apply filter_all.
    rewrite <- Hf. clear. induction (classes a) as [|c l IH]; cbn; [reflexivity|].
    rewrite negb_involutive. destruct (String.eqb (cls_id c) id); [reflexivity | exact IH].
Qed.

(** X9. [update] of an id no class has returns null and changes
    nothing, the store included.  Otherwise it returns the first class
    with the id merged with the updates and puts it in that class's
    place: the list keeps its length, the id is found as the returned
    class when the updates carry no id, and every id that is neither the
    one updated nor the one of the returned class is found as before. *)
Theorem class_update_effects (h : Host) (id : string) (updates : ClassUpdates)
    (a : App) :
  match ClassManager.getById a id with
  | None => ClassManager.update h id updates a = (None, a)
  | Some c =>
      fst (ClassManager.update h id updates a) = Some (ClassManager.merge c updates)
      ∧ List.length (classes (snd (ClassManager.update h id updates a)))
        = List.length (classes a)
      ∧ (upd_id updates = None →
           ClassManager.getById (snd (ClassManager.update h id updates a)) id
           = Some (ClassManager.merge c updates))
      ∧ (∀ id', id' ≠ id → id' ≠ cls_id (ClassManager.merge c updates) →
           ClassManager.getById (snd (ClassManager.update h id updates a)) id'
           = ClassManager.getById a id')
  end.
Proof.
  unfold ClassManager.getById, ClassManager.update.
  destruct (findIndex _ (classes a)) as [i|] eqn:Hi.
  - destruct (findIndex_some _ _ _ Hi) as (c & Hc & Hf & Hp).
    rewrite Hf, Hc. cbn [fst snd].
    rewrite (proj1 (class_save_frame h _)). cbn [classes with_classes].
    apply String.eqb_eq in Hp.
    split; [|split; [|split]].
    + rewrite list_lookup_insert_eq; [reflexivity|].
      apply lookup_lt_Some in Hc. exact Hc.
    + apply length_replaced.
    + intros Hu. apply find_replaced; [exact Hi|].
      unfold ClassManager.merge. cbn. rewrite Hu. cbn. rewrite Hp.
      apply String.eqb_refl.
    + intros id' Hne Hne'. apply (find_replaced_other _ _ _ c); [exact Hc | |].
      * rewrite Hp. destruct (String.eqb_spec id id'); congruence.
      * destruct (String.eqb_spec (cls_id (ClassManager.merge c updates)) id');
          congruence.
  - apply findIndex_none in Hi. rewrite Hi. reflexivity.
Qed.

(** ** The store and the arrays of the managers *)

Lemma class_save_sync h l a :
  takes_writes h → in_sync a → in_sync (ClassManager.save h (with_classes l a)).
Proof.
  intros Hw (_ & Hs & Ha). unfold ClassManager.save, set_classes.
  rewrite (Hw "classes"). repeat split; assumption.
Qed.

Lemma student_save_sync h l a :
  takes_writes h → in_sync a → in_sync (StudentManager.save h (with_students l a)).
Proof.
  intros Hw (Hc & _ & Ha). unfold StudentManager.save, set_students.
  rewrite (Hw "students"). repeat split; assumption.
Qed.

Lemma arrival_save_sync h l a :
  takes_writes h → in_sync a → in_sync (ArrivalTracker.save h (with_arrivals l a)).
Proof.
  intros Hw (Hc & Hs & _). unfold ArrivalTracker.save, set_arrivals.
  rewrite (Hw "arrivals"). repeat split; assumption.
Qed.

Lemma class_update_sync h id u a :
  takes_writes h → in_sync a → in_sync (snd (ClassManager.update h id u a)).
Proof.
  intros Hw Hs. unfold ClassManager.update.
  destruct (findIndex _ _) as [i|]; [|exact Hs].
  destruct (classes a !! i) as [c|]; [|exact Hs].
  cbn [snd]. apply class_save_sync; assumption.
Qed.

Lemma markArrival_sync h s c d t a :
  takes_writes h → in_sync a →
  in_sync (snd (ArrivalTracker.markArrival h s c d t a)).
Proof.
  intros Hw Hs. unfold ArrivalTracker.markArrival.
  destruct (List.find _ _) as [e|]; [exact Hs|].
  match goal with |- context [let '(m, st) := ?X in _] => destruct X as [m st] end.
  cbn [snd]. apply arrival_save_sync; assumption.
Qed.

Lemma removeArrival_sync h s d a :
  takes_writes h → in_sync a →
  in_sync (snd (ArrivalTracker.removeArrival h s d a)).
Proof.
  intros Hw Hs. unfold ArrivalTracker.removeArrival.
  destruct (findIndex _ _) as [i|]; [|exact Hs].
  cbn [snd]. apply arrival_save_sync; assumption.
Qed.

Lemma import_line_sync h classId i raw st :
  takes_writes h → in_sync (snd st) →
  in_sync (snd (StudentManager.import_line h classId i raw st)).
Proof.
  intros Hw Hs. unfold StudentManager.import_line.
  destruct (JS.truthy (JS.trim raw)); [|exact Hs].
  destruct (JS.truthy _); [|exact Hs].
  cbn [snd]. unfold StudentManager.add. cbn [snd].
  apply student_save_sync; assumption.
Qed.

Lemma import_from_sync hs classId lines i st :
  (∀ j, takes_writes (hs j)) → in_sync (snd st) →
  in_sync (snd (StudentManager.import_from hs classId i lines st)).
Proof.
  intros Hw. revert i st. induction lines as [|raw lines IH]; intros i st Hs;
    cbn [StudentManager.import_from]; [exact Hs|].
  apply IH. apply import_line_sync; [apply Hw | exact Hs].
Qed.

Lemma init_in_sync a : in_sync (Main.init a).
Proof. repeat split. Qed.

Lemma in_sync_init a : in_sync a → Main.init a = a.
Proof.
  destruct a as [st cl stu arr]. intros (Hc & Hs & Ha). cbn in Hc, Hs, Ha.
  unfold Main.init, ArrivalTracker.load, StudentManager.load, ClassManager.load,
    with_arrivals, with_students, with_classes. cbn.
  rewrite <- Hc, <- Hs, <- Ha. reflexivity.
Qed.

Lemma perform_in_sync a act : accepted act → in_sync a → in_sync (perform a act).
Proof.
  intros Hacc Hs.
  destruct act as [[h n s | h id u | h id | h s c d t | h s d]
                  | h n c p | h id u | h id | hs csv c | h c d s | h c day
                  | h c day f v];
    cbn [perform app_step accepted] in *.
  - apply class_save_sync; assumption.
  - apply class_update_sync; assumption.
  - apply class_save_sync; assumption.
  - apply markArrival_sync; assumption.
  - apply removeArrival_sync; assumption.
  - apply student_save_sync; assumption.
  - unfold StudentManager.update.
    destruct (findIndex _ _) as [i|]; [|exact Hs].
    destruct (students a !! i) as [x|]; [|exact Hs].
    cbn [snd]. apply student_save_sync; assumption.
  - apply student_save_sync; assumption.
  - apply import_from_sync; assumption.
  - unfold UI.toggleArrival. destruct (ArrivalTracker.hasArrived a s d).
    + apply removeArrival_sync; assumption.
    + apply markArrival_sync; assumption.
  - unfold UI.toggleDay. destruct c as [id|]; [|exact Hs].
    destruct (UI.currentClass _ a); [|exact Hs].
    cbn [default]. apply class_update_sync; assumption.
  - unfold UI.updateSchedule. destruct c as [id|]; [|exact Hs].
    destruct (UI.currentClass _ a); [|exact Hs].
    cbn [default]. apply class_update_sync; assumption.
Qed.

Lemma run_in_sync acts a : Forall accepted acts → in_sync a → in_sync (run acts a).
Proof.
  unfold run. intros Hacc. revert a.
  induction Hacc as [|act acts Hact _ IH]; intros a Hs; cbn [fold_left];
    [exact Hs|].
  apply IH, perform_in_sync; assumption.
Qed.

(** X10. As long as the browser takes the writes, what the managers
    hold is what the store holds: after the application has loaded, any
    sequence of calls (adding, editing and deleting classes and
    students, importing a roster, marking, removing and toggling
    arrivals, editing a schedule) leaves a state that loading again
    gives back unchanged, provided the minutes of the arrivals it holds
    are numbers. *)
Theorem reload_changes_nothing (acts : list Action) (a : App) :
  Forall accepted acts →
  Forall numbered (arrivals (run acts (Main.init a))) →
  in_sync (run acts (Main.init a))
  ∧ Main.init (run acts (Main.init a)) = run acts (Main.init a).
Proof.
  intros Hacc _.
  assert (Hs : in_sync (run acts (Main.init a)))
    by (apply run_in_sync; [exact Hacc | apply init_in_sync]).
  split; [exact Hs | exact (in_sync_init _ Hs)].
Qed.

Lemma utc_host_takes_writes : takes_writes utc_host.
Proof. intros key. reflexivity. Qed.

Lemma reload_changes_nothing_witness :
  Main.init
    (run [Edit (ClassAdd utc_host "1AEP" JS.Undefined);
          StudentAdd utc_host " Amal " "cls_lt9x0k3ab12" None;
          ToggleArrival utc_host "cls_lt9x0k3ab12" "2024-03-04" "stu_lt9x0k3ab12";
          ToggleDay utc_host (Some "cls_lt9x0k3ab12") "monday"]
         (Main.init empty_app))
  = run [Edit (ClassAdd utc_host "1AEP" JS.Undefined);
         StudentAdd utc_host " Amal " "cls_lt9x0k3ab12" None;
         ToggleArrival utc_host "cls_lt9x0k3ab12" "2024-03-04" "stu_lt9x0k3ab12";
         ToggleDay utc_host (Some "cls_lt9x0k3ab12") "monday"]
        (Main.init empty_app).
Proof.
  refine (proj2 (reload_changes_nothing _ empty_app _ _)).
  - repeat constructor; exact utc_host_takes_writes.
  - vm_compute. repeat constructor. discriminate.
Defined.

(** X11. A write the browser refuses is not reported: [markArrival]
    still answers success and keeps the new arrival in its array, the
    store stays as it was, and once the application loads again from a
    store that was in step with the arrays the arrival is gone. *)
Theorem refused_write_is_silent (h : Host) (s c d : string) (t : option string)
    (a : App) :
  setItemOk h "arrivals" = false →
  ArrivalTracker.hasArrived a s d = None →
  success (fst (ArrivalTracker.markArrival h s c d t a)) = true
  ∧ ArrivalTracker.hasArrived (snd (ArrivalTracker.markArrival h s c d t a)) s d
    = Some (arrival (fst (ArrivalTracker.markArrival h s c d t a)))
  ∧ storage (snd (ArrivalTracker.markArrival h s c d t a)) = storage a
  ∧ (in_sync a →
       ArrivalTracker.hasArrived
         (Main.init (snd (ArrivalTracker.markArrival h s c d t a))) s d = None).
Proof.
  intros Hq Hn.
  destruct (markArrival_accepts h s c d t a Hn)
    as (Hsucc & Hkey & Harr & _).
  cbn zeta in Hsucc, Hkey, Harr.
  assert (Hst : storage (snd (ArrivalTracker.markArrival h s c d t a)) = storage a).
  { revert Hn. unfold ArrivalTracker.hasArrived, ArrivalTracker.markArrival.
    intros ->.
    match goal with |- context [let '(m, st) := ?X in _] => destruct X as [m st] end.
    cbn [snd]. unfold ArrivalTracker.save, set_arrivals. rewrite Hq. reflexivity. }
  split; [exact Hsucc|]. split; [|split; [exact Hst|]].
  - unfold ArrivalTracker.hasArrived. rewrite Harr.
    apply find_snoc_new; assumption.
  - intros (_ & _ & Ha). unfold ArrivalTracker.hasArrived, Main.init,
      ArrivalTracker.load, StudentManager.load, ClassManager.load.
    cbn [arrivals with_arrivals with_students with_classes storage].
    rewrite Hst, <- Ha. exact Hn.
Qed.

Lemma refused_write_is_silent_witness :
  success (fst (ArrivalTracker.markArrival full_host "stu_1" "cls_1" "2024-03-04"
                  (Some "12:45") (app_with []))) = true
  ∧ ArrivalTracker.hasArrived
      (Main.init (snd (ArrivalTracker.markArrival full_host "stu_1" "cls_1"
                         "2024-03-04" (Some "12:45") (app_with []))))
      "stu_1" "2024-03-04" = None.
Proof.
  destruct (refused_write_is_silent full_host "stu_1" "cls_1" "2024-03-04"
              (Some "12:45") (app_with []) eq_refl eq_refl) as (H1 & _ & _ & H4).
  split; [exact H1|]. apply H4. repeat split.
Defined.

(** ** The roster: adding, editing and deleting a student *)

Lemma student_save_frame h a :
  students (StudentManager.save h a) = students a
  ∧ classes (StudentManager.save h a) = classes a
  ∧ arrivals (StudentManager.save h a) = arrivals a
  ∧ stored_classes (storage (StudentManager.save h a)) = stored_classes (storage a)
  ∧ stored_arrivals (storage (StudentManager.save h a)) = stored_arrivals (storage a).
Proof.
  unfold StudentManager.save, set_students.
  destruct (setItemOk h "students"); cbn; repeat split; reflexivity.
Qed.

Lemma filter_snoc {A} (p : A → bool) l x :
  List.filter p (l ++ [x]) = (List.filter p l ++ if p x then [x] else [])%list.
Proof.
  rewrite List.filter_app. cbn. destruct (p x); reflexivity.
Qed.

(** X12. [add] puts the new student at the end of the roster of the
    class it was given, whether or not the registry has such a class,
    and leaves every other roster as it was; the name is stored trimmed,
    with no white space left at either end, so that trimming it again
    changes nothing; an id an earlier student has is still found as the
    earlier student. *)
Theorem student_add_roster (h : Host) (name classId : string)
    (photoUrl : option string) (a : App) :
  fst (StudentManager.add h name classId photoUrl a)
  = {| stu_id := "stu_" ++ idSuffix h; stu_name := JS.trim name;
       stu_classId := classId; stu_photoUrl := photoUrl;
       stu_createdAt := clockISO h |}
  ∧ JS.trim (stu_name (fst (StudentManager.add h name classId photoUrl a)))
    = stu_name (fst (StudentManager.add h name classId photoUrl a))
  ∧ (∀ c, StudentManager.getByClass
            (snd (StudentManager.add h name classId photoUrl a)) c
          = (StudentManager.getByClass a c
             ++ if String.eqb classId c
                then [fst (StudentManager.add h name classId photoUrl a)]
                else [])%list)
  ∧ (∀ id, StudentManager.getById
             (snd (StudentManager.add h name classId photoUrl a)) id
           = match StudentManager.getById a id with
             | Some s => Some s
             | None =>
                 if String.eqb ("stu_" ++ idSuffix h) id
                 then Some (fst (StudentManager.add h name classId photoUrl a))
                 else None
             end).
Proof.
  unfold StudentManager.add, StudentManager.getByClass, StudentManager.getById,
    StudentManager.generateId.
  cbn [fst snd]. rewrite (proj1 (student_save_frame h _)).
  cbn [students with_students].
  split; [reflexivity|]. split; [apply trim_trim|]. split.
  - intros c. rewrite filter_snoc. reflexivity.
  - intros id. destruct (List.find _ (students a)) as [s|] eqn:Hf.
    + apply find_app_some. exact Hf.
    + rewrite (find_app_none _ _ _ Hf). reflexivity.
Qed.

(** X13. [delete] removes every student with the id from every roster
    and nothing else; the arrivals recorded for the student stay in the
    ledger, in memory and in the store, so the statistics of the
    student and of the class count them as before. *)
Theorem student_delete_effects (h : Host) (id : string) (a : App) :
  StudentManager.getById (StudentManager.delete h id a) id = None
  ∧ (∀ id', id' ≠ id →
       StudentManager.getById (StudentManager.delete h id a) id'
       = StudentManager.getById a id')
  ∧ (∀ c, StudentManager.getByClass (StudentManager.delete h id a) c
          = List.filter (fun s => negb (String.eqb (stu_id s) id))
                        (StudentManager.getByClass a c))
  ∧ arrivals (StudentManager.delete h id a) = arrivals a
  ∧ stored_arrivals (storage (StudentManager.delete h id a))
    = stored_arrivals (storage a)
  ∧ (∀ s e, ArrivalTracker.getStudentStats (StudentManager.delete h id a) id s e
            = ArrivalTracker.getStudentStats a id s e)
  ∧ (∀ c s e, ArrivalTracker.getClassStats (StudentManager.delete h id a) c s e
              = ArrivalTracker.getClassStats a c s e).
Proof.
  unfold StudentManager.delete, StudentManager.getById, StudentManager.getByClass,
    ArrivalTracker.getStudentStats, ArrivalTracker.getClassStats.
  destruct (student_save_frame h
              (with_students
                 (List.filter (fun s => negb (String.eqb (stu_id s) id)) (students a)) a))
    as (Hs & Hc & Ha & Hsc & Hsa).
  rewrite Hs, Ha, Hsa. cbn [students arrivals storage with_students].
  split; [|split; [|split]]; [| | |repeat split].
  - apply (find_filter_out (fun s => String.eqb (stu_id s) id)).
  - intros id' Hne. apply find_filter_other. intros s Hs'.
    apply String.eqb_eq in Hs'. rewrite Hs'.
    destruct (String.eqb_spec id' id); [contradiction | reflexivity].
  - intros c. rewrite !filter_filter. apply filter_ext_bool.
    intros s. apply andb_comm.
Qed.

(** X14. [update] of an id no student has returns null and changes
    nothing, the store included.  Otherwise it returns the first student
    with the id merged with the updates, in that student's place: the
    roster keeps its length, the id is found as the returned student
    when the updates carry no id, and every id that is neither the one
    updated nor the one of the returned student is found as before. *)
Theorem student_update_effects (h : Host) (id : string) (updates : StudentUpdates)
    (a : App) :
  match StudentManager.getById a id with
  | None => StudentManager.update h id updates a = (None, a)
  | Some s =>
      fst (StudentManager.update h id updates a)
      = Some (StudentManager.merge s updates)
      ∧ List.length (students (snd (StudentManager.update h id updates a)))
        = List.length (students a)
      ∧ (supd_id updates = None →
           StudentManager.getById (snd (StudentManager.update h id updates a)) id
           = Some (StudentManager.merge s updates))
      ∧ (∀ id', id' ≠ id → id' ≠ stu_id (StudentManager.merge s updates) →
           StudentManager.getById (snd (StudentManager.update h id updates a)) id'
           = StudentManager.getById a id')
      ∧ arrivals (snd (StudentManager.update h id updates a)) = arrivals a
  end.
Proof.
  unfold StudentManager.getById, StudentManager.update.
  destruct (findIndex _ (students a)) as [i|] eqn:Hi.
  - destruct (findIndex_some _ _ _ Hi) as (s & Hs & Hf & Hp).
    rewrite Hf, Hs. cbn [fst snd].
    destruct (student_save_frame h
                (with_students (<[i := StudentManager.merge s updates]> (students a)) a))
      as (Hst & _ & Ha & _).
    rewrite Hst, Ha. cbn [students arrivals with_students].
    apply String.eqb_eq in Hp.
    split; [|split; [|split; [|split]]].
    + rewrite list_lookup_insert_eq; [reflexivity|].
      apply lookup_lt_Some in Hs. exact Hs.
    + apply length_replaced.
    + intros Hu. apply find_replaced; [exact Hi|].
      unfold StudentManager.merge. cbn. rewrite Hu. cbn. rewrite Hp.
      apply String.eqb_refl.
    + intros id' Hne Hne'. apply (find_replaced_other _ _ _ s); [exact Hs | |].
      * rewrite Hp. destruct (String.eqb_spec id id'); congruence.
      * destruct (String.eqb_spec (stu_id (StudentManager.merge s updates)) id');
          congruence.
    + reflexivity.
  - apply findIndex_none in Hi. rewrite Hi. reflexivity.
Qed.

(** ** The roster: import from a CSV text *)

Lemma import_line_spec h classId i raw st :
  StudentManager.import_line h classId i raw st
  = if has_name (i, raw) then
      ({| imp_success := imp_success (fst st);
          imported := imported (fst st) + 1;
          errors := errors (fst st) |},
       snd (StudentManager.add h (csv_name raw) classId (csv_photo raw) (snd st)))
    else if lacks_name (i, raw) then
      ({| imp_success := imp_success (fst st);
          imported := imported (fst st);
          errors := List.app (errors (fst st)) [error_of_line (i, raw)] |},
       snd st)
    else st.
Proof.
  unfold StudentManager.import_line, has_name, lacks_name, is_blank, csv_name,
    csv_photo, csv_fields, error_of_line. cbn [fst snd].
  destruct (JS.truthy (JS.trim raw)); cbn [negb andb]; [|reflexivity].
  destruct (List.map JS.trim (JS.split "," (JS.trim raw))) as [|n [|p parts]];
    cbn [lookup list_lookup]; destruct (JS.truthy _) eqn:E; cbn [negb];
    reflexivity.
Qed.

Lemma csv_name_trimmed raw : JS.trim (csv_name raw) = csv_name raw.
Proof.
  unfold csv_name, csv_fields.
  destruct (JS.split "," (JS.trim raw)) as [|n parts]; cbn [List.map];
    [reflexivity | apply trim_trim].
Qed.

Lemma import_from_spec hs classId lines i st :
  students (snd (StudentManager.import_from hs classId i lines st))
  = (students (snd st)
     ++ List.map (student_of_line hs classId)
                 (List.filter has_name (numbered_from i lines)))%list
  ∧ imported (fst (StudentManager.import_from hs classId i lines st))
    = imported (fst st)
      + Z.of_nat (List.length (List.filter has_name (numbered_from i lines)))
  ∧ errors (fst (StudentManager.import_from hs classId i lines st))
    = (errors (fst st)
       ++ List.map error_of_line (List.filter lacks_name (numbered_from i lines)))%list
  ∧ imp_success (fst (StudentManager.import_from hs classId i lines st))
    = imp_success (fst st)
  ∧ classes (snd (StudentManager.import_from hs classId i lines st))
    = classes (snd st)
  ∧ arrivals (snd (StudentManager.import_from hs classId i lines st))
    = arrivals (snd st).
Proof.
  revert i st. induction lines as [|raw lines IH]; intros i st;
    cbn [StudentManager.import_from numbered_from List.filter].
  - rewrite !app_nil_r, Z.add_0_r. repeat split.
  - destruct (IH (S i) (StudentManager.import_line (hs i) classId i raw st))
      as (Hs & Hn & He & Hok & Hc & Ha).
    rewrite Hs, Hn, He, Hok, Hc, Ha. clear IH Hs Hn He Hok Hc Ha.
    rewrite import_line_spec.
    destruct (has_name (i, raw)) eqn:Hh.
    + assert (Hl : lacks_name (i, raw) = false).
      { unfold has_name, lacks_name in *. apply andb_prop in Hh as [-> ->].
        reflexivity. }
      rewrite Hl. cbn [fst snd imported errors imp_success List.map List.length].
      unfold StudentManager.add. cbn [snd].
      destruct (student_save_frame (hs i)
                  (with_students
                     (students (snd st)
                      ++ [{| stu_id := StudentManager.generateId (hs i);
                             stu_name := JS.trim (csv_name raw);
                             stu_classId := classId;
                             stu_photoUrl := csv_photo raw;
                             stu_createdAt := clockISO (hs i) |}])%list (snd st)))
        as (Hs & Hc & Ha & _).
      rewrite Hs, Hc, Ha. cbn [students classes arrivals with_students].
      rewrite csv_name_trimmed, <- List.app_assoc. repeat split. lia.
    + destruct (lacks_name (i, raw)); cbn [fst snd imported errors imp_success List.map].
      * rewrite <- List.app_assoc. repeat split.
      * repeat split.
Qed.

Lemma csv_lines_loop csvContent :
  csv_lines csvContent
  = numbered_from
      (StudentManager.startIndex (JS.split "010" (JS.trim csvContent)))
      (drop (StudentManager.startIndex (JS.split "010" (JS.trim csvContent)))
            (JS.split "010" (JS.trim csvContent))).
Proof.
  unfold csv_lines, StudentManager.startIndex.
  destruct (JS.split "010" (JS.trim csvContent)) as [|l0 lines]; cbn [numbered_from];
    [reflexivity|].
  destruct (JS.includes "name" (JS.toLowerCase l0)); reflexivity.
Qed.

(** X15. [importFromCSV] goes through the lines of the trimmed text,
    the first one left out when it has the word "name" in it, and makes
    one student of each line with a name, in the order of the lines and
    at the end of the roster: the name is the first field, the photo the
    second when it is not empty, the class the one given.  It reports
    their number, and for each line with text but no name an error with
    the number of the line.  Classes and arrivals are as before. *)
Theorem importFromCSV_rows (hs : nat → Host) (csvContent classId : string)
    (a : App) :
  students (snd (StudentManager.importFromCSV hs csvContent classId a))
  = (students a
     ++ List.map (student_of_line hs classId)
                 (List.filter has_name (csv_lines csvContent)))%list
  ∧ imported (fst (StudentManager.importFromCSV hs csvContent classId a))
    = Z.of_nat (List.length (List.filter has_name (csv_lines csvContent)))
  ∧ errors (fst (StudentManager.importFromCSV hs csvContent classId a))
    = List.map error_of_line (List.filter lacks_name (csv_lines csvContent))
  ∧ classes (snd (StudentManager.importFromCSV hs csvContent classId a)) = classes a
  ∧ arrivals (snd (StudentManager.importFromCSV hs csvContent classId a))
    = arrivals a.
Proof.
  unfold StudentManager.importFromCSV. cbn zeta.
  rewrite (csv_lines_loop csvContent).
  destruct (import_from_spec hs classId
              (drop (StudentManager.startIndex (JS.split "010" (JS.trim csvContent)))
                    (JS.split "010" (JS.trim csvContent)))
              (StudentManager.startIndex (JS.split "010" (JS.trim csvContent)))
              ({| imp_success := true; imported := 0; errors := [] |}, a))
    as (Hs & Hn & He & _ & Hc & Ha).
  rewrite Hs, Hn, He, Hc, Ha. cbn [fst snd imported errors]. repeat split.
Qed.

Lemma split_lines_count (l : list (nat * string)) :
  (List.length (List.filter has_name l) + List.length (List.filter lacks_name l))%nat
  = List.length (List.filter (fun line => negb (is_blank (snd line))) l).
Proof.
  induction l as [|x l IH]; cbn [List.filter]; [reflexivity|].
  unfold has_name at 1, lacks_name at 1.
  destruct (negb (is_blank (snd x))); cbn [andb]; [|exact IH].
  destruct (JS.truthy (csv_name (snd x))); cbn [negb List.length]; lia.
Qed.

(** X16. [importFromCSV] answers [success: true] whatever it finds.
    The number it reports as imported is the number of students the
    roster grew by, and together with the number of errors it is the
    number of lines with text; the roster of every other class is as
    before. *)
Theorem importFromCSV_counts (hs : nat → Host) (csvContent classId : string)
    (a : App) :
  imp_success (fst (StudentManager.importFromCSV hs csvContent classId a)) = true
  ∧ Z.of_nat (List.length
                (students (snd (StudentManager.importFromCSV hs csvContent classId a))))
    = Z.of_nat (List.length (students a))
      + imported (fst (StudentManager.importFromCSV hs csvContent classId a))
  ∧ imported (fst (StudentManager.importFromCSV hs csvContent classId a))
    + Z.of_nat (List.length
                  (errors (fst (StudentManager.importFromCSV hs csvContent classId a))))
    = Z.of_nat (List.length
                  (List.filter (fun line => negb (is_blank (snd line)))
                               (csv_lines csvContent)))
  ∧ (∀ c, c ≠ classId →
       StudentManager.getByClass
         (snd (StudentManager.importFromCSV hs csvContent classId a)) c
       = StudentManager.getByClass a c).
Proof.
  unfold StudentManager.importFromCSV. cbn zeta.
  destruct (import_from_spec hs classId
              (drop (StudentManager.startIndex (JS.split "010" (JS.trim csvContent)))
                    (JS.split "010" (JS.trim csvContent)))
              (StudentManager.startIndex (JS.split "010" (JS.trim csvContent)))
              ({| imp_success := true; imported := 0; errors := [] |}, a))
    as (Hs & Hn & He & Hok & _).
  rewrite <- (csv_lines_loop csvContent) in Hs, Hn, He.
  cbn [fst snd imported errors imp_success] in Hs, Hn, He, Hok.
  unfold StudentManager.getByClass.
  rewrite Hs, Hn, He, Hok. clear Hs Hn He Hok.
  split; [reflexivity|]. split; [|split].
  - rewrite List.length_app, List.length_map. lia.
  - cbn [List.app]. rewrite List.length_map, <- split_lines_count. lia.
  - intros c Hne. rewrite List.filter_app.
    match goal with |- (_ ++ ?X)%list = _ => assert (X = []) as -> end;
      [|apply app_nil_r].
    induction (List.filter has_name (csv_lines csvContent)) as [|x l IH];
      cbn [List.map List.filter]; [reflexivity|].
    cbn [stu_classId student_of_line].
    destruct (String.eqb_spec classId c); [congruence | exact IH].
Qed.

(** A first line with the word "name" in it is taken for a header also
    when it is a pupil: Nameer is not imported, and no error tells. *)
Example nameer_is_taken_for_a_header :
  StudentManager.importFromCSV (fun _ => utc_host) headless_csv "cls_1" empty_app
  = StudentManager.importFromCSV (fun _ => utc_host) "Ahmed" "cls_1" empty_app
  ∧ fst (StudentManager.importFromCSV (fun _ => utc_host) headless_csv "cls_1"
           empty_app)
    = {| imp_success := true; imported := 1; errors := [] |}.
Proof. vm_compute. split; reflexivity. Qed.

Example import_of_sample_csv :
  fst (StudentManager.importFromCSV (fun _ => utc_host) sample_csv "cls_1" empty_app)
  = {| imp_success := true; imported := 2; errors := ["Line 3: Empty name"] |}
  ∧ List.map stu_name
      (students (snd (StudentManager.importFromCSV (fun _ => utc_host) sample_csv
                        "cls_1" empty_app)))
    = ["Ahmed"; "Sara"].
Proof. vm_compute. split; reflexivity. Qed.

(** A text of white space only imports nothing and writes nothing. *)
Lemma import_of_blank_text hs csvContent classId a :
  JS.trim csvContent = "" →
  StudentManager.importFromCSV hs csvContent classId a
  = ({| imp_success := true; imported := 0; errors := [] |}, a).
Proof. intros E. unfold StudentManager.importFromCSV. rewrite E. reflexivity. Qed.

(** ** Arrival Ledger: marking, removing, toggling *)

Lemma find_none_findIndex_snoc {A} (p : A → bool) l x :
  List.find p l = None → p x = true →
  findIndex p (l ++ [x]) = Some (List.length l).
Proof.
  intros Hf Hx. induction l as [|y l IH]; cbn; [rewrite Hx; reflexivity|].
  cbn in Hf. destruct (p y); [discriminate|]. rewrite (IH Hf). reflexivity.
Qed.

Lemma splice1_last {A} (l : list A) x :
  ArrivalTracker.splice1 (List.length l) (l ++ [x]) = l.
Proof.
  unfold ArrivalTracker.splice1.
  rewrite take_app_length.
  rewrite drop_ge by (rewrite length_app; cbn; lia).
  apply app_nil_r.
Qed.

Lemma find_splice_other {A} (q : A → bool) l i x :
  l !! i = Some x → q x = false →
  List.find q (ArrivalTracker.splice1 i l) = List.find q l.
Proof.
  unfold ArrivalTracker.splice1. revert i.
  induction l as [|y l IH]; intros [|i]; cbn; try discriminate.
  - intros E Hx. injection E as ->. rewrite Hx. reflexivity.
  - intros E Hx. destruct (q y); [reflexivity|]. exact (IH i E Hx).
Qed.

Lemma find_splice_same s d l i :
  one_per_key l → findIndex (ArrivalTracker.same_key s d) l = Some i →
  List.find (ArrivalTracker.same_key s d) (ArrivalTracker.splice1 i l) = None.
Proof.
  unfold ArrivalTracker.splice1, one_per_key. revert i.
  induction l as [|y l IH]; intros i Hl; cbn; [discriminate|].
  cbn [List.map] in Hl. apply List.NoDup_cons_iff in Hl as [Hy Hl].
  destruct (ArrivalTracker.same_key s d y) eqn:E.
  - intros [= <-]. cbn [take drop List.app]. rewrite drop_0.
    destruct (List.find (ArrivalTracker.same_key s d) l) as [z|] eqn:Hf;
      [|reflexivity].
    exfalso. apply Hy. apply List.find_some in Hf as [Hin Hz].
    apply same_key_spec in E. apply same_key_spec in Hz.
    apply List.in_map_iff. exists z. split; [congruence | exact Hin].
  - destruct (findIndex _ l) as [j|] eqn:Hj; cbn; [|discriminate].
    intros [= <-]. cbn [take drop List.app List.find]. rewrite E.
    exact (IH j Hl eq_refl).
Qed.

Lemma removeArrival_found h s d a i :
  findIndex (ArrivalTracker.same_key s d) (arrivals a) = Some i →
  fst (ArrivalTracker.removeArrival h s d a) = true
  ∧ arrivals (snd (ArrivalTracker.removeArrival h s d a))
    = ArrivalTracker.splice1 i (arrivals a)
  ∧ classes (snd (ArrivalTracker.removeArrival h s d a)) = classes a
  ∧ students (snd (ArrivalTracker.removeArrival h s d a)) = students a.
Proof.
  intros Hi. unfold ArrivalTracker.removeArrival. rewrite Hi. cbn [fst snd].
  unfold ArrivalTracker.save, set_arrivals.
  destruct (setItemOk h "arrivals"); repeat split.
Qed.

(** X17. [removeArrival] undoes [markArrival]: for a student not yet
    recorded on a date, marking and then removing gives back the very
    list of arrivals there was, with classes and students as before. *)
Theorem remove_undoes_mark (h h' : Host) (s c d : string) (t : option string)
    (a : App) :
  ArrivalTracker.hasArrived a s d = None →
  fst (ArrivalTracker.removeArrival h' s d
         (snd (ArrivalTracker.markArrival h s c d t a))) = true
  ∧ arrivals (snd (ArrivalTracker.removeArrival h' s d
                     (snd (ArrivalTracker.markArrival h s c d t a))))
    = arrivals a
  ∧ ArrivalTracker.hasArrived
      (snd (ArrivalTracker.removeArrival h' s d
              (snd (ArrivalTracker.markArrival h s c d t a)))) s d = None
  ∧ classes (snd (ArrivalTracker.removeArrival h' s d
                    (snd (ArrivalTracker.markArrival h s c d t a))))
    = classes a
  ∧ students (snd (ArrivalTracker.removeArrival h' s d
                     (snd (ArrivalTracker.markArrival h s c d t a))))
    = students a.
Proof.
  intros Hn.
  destruct (markArrival_accepts h s c d t a Hn)
    as (_ & Hkey & Harr & Hcl & Hst & _).
  cbn zeta in Hkey, Harr, Hcl, Hst.
  assert (Hi : findIndex (ArrivalTracker.same_key s d)
                 (arrivals (snd (ArrivalTracker.markArrival h s c d t a)))
               = Some (List.length (arrivals a))).
  { rewrite Harr. apply find_none_findIndex_snoc; [exact Hn|].
    apply same_key_spec. exact Hkey. }
  destruct (removeArrival_found h' s d _ _ Hi) as (Hr & Ha & Hc & Hs).
  unfold ArrivalTracker.hasArrived.
  rewrite Hr, Ha, Hc, Hs, Harr, splice1_last, Hcl, Hst.
  repeat split. exact Hn.
Qed.

Lemma remove_undoes_mark_witness :
  arrivals (snd (ArrivalTracker.removeArrival utc_host "stu_1" "2024-03-05"
                   (snd (ArrivalTracker.markArrival utc_host "stu_1" "cls_1"
                           "2024-03-05" (Some "12:45") february_app))))
  = arrivals february_app.
Proof.
  exact (proj1 (proj2 (remove_undoes_mark utc_host utc_host "stu_1" "cls_1"
                         "2024-03-05" (Some "12:45") february_app eq_refl))).
Defined.

(** The record [markArrival] builds when there is no lesson to be late
    for. *)
Lemma markArrival_no_lesson h s c d t a :
  ArrivalTracker.hasArrived a s d = None →
  no_lesson (ClassManager.getScheduleForDay a c (ArrivalTracker.dayOfWeek h d)) →
  arrival (fst (ArrivalTracker.markArrival h s c d t a))
  = {| arr_id := "arr_" ++ idSuffix h; arr_studentId := s; arr_classId := c;
       arr_date := d; arr_time := JS.or_string t (clockTime h);
       arr_minutesLate := JS.Int 0; arr_status := "on-time";
       arr_createdAt := clockISO h |}.
Proof.
  unfold ArrivalTracker.hasArrived, ArrivalTracker.markArrival, no_lesson.
  intros -> Hl.
  destruct (ClassManager.getScheduleForDay _ _ _) as [sch|]; [|reflexivity].
  destruct Hl as [-> | [-> | ->]]; cbn [andb get_or JS.truthy];
    rewrite ?andb_false_r; reflexivity.
Qed.

(** X18. [markArrival] checks neither the class nor the timetable.
    The arrival of a student not yet recorded that day is accepted and
    recorded on time with 0 minutes, at the time given or else at the
    time of the clock, for a class the registry does not hold, whatever
    the date, and for a date on which the class has no lesson: no
    entry for the day, a closed day or an entry without a start time.
    The day is the weekday of the date on a host on UTC or east of it,
    and the weekday before on a host west of UTC (the local time being
    less than a day from UTC). *)
Theorem markArrival_without_lesson (h : Host) (s c d : string) (t : option string)
    (a : App) :
  ArrivalTracker.hasArrived a s d = None →
  (ClassManager.getById a c = None → recorded_on_time h s c d t a)
  ∧ (∀ n, within_a_day h → weekday d = Some n →
       no_lesson (ClassManager.getScheduleForDay a c (JS.Int (judged_weekday h n))) →
       recorded_on_time h s c d t a).
Proof.
  intros Hn.
  assert (H : no_lesson (ClassManager.getScheduleForDay a c
                           (ArrivalTracker.dayOfWeek h d)) →
              recorded_on_time h s c d t a).
  { intros Hl.
    destruct (markArrival_accepts h s c d t a Hn) as (Hsucc & Hkey & Harr & _).
    cbn zeta in Hsucc, Hkey, Harr.
    split; [exact Hsucc|]. split; [exact (markArrival_no_lesson h s c d t a Hn Hl)|].
    unfold ArrivalTracker.hasArrived. rewrite Harr.
    apply find_snoc_new; assumption. }
  split.
  - intros Hc. apply H. unfold ClassManager.getScheduleForDay. rewrite Hc. exact I.
  - intros n Ho Hw Hl. apply H.
    rewrite (dayOfWeek_by_weekday h d n Ho Hw). exact Hl.
Qed.

Lemma markArrival_without_lesson_witness :
  recorded_on_time utc_host "stu_1" "cls_1" "2024-03-03" (Some "18:00") (app_with [])
  ∧ recorded_on_time west_host "stu_1" "cls_1" "2024-03-04" (Some "12:45")
      (app_with [])
  ∧ recorded_on_time utc_host "stu_1" "cls_gone" "2024-03-04" (Some "18:00")
      (app_with []).
Proof.
  split; [|split].
  - apply (proj2 (markArrival_without_lesson utc_host "stu_1" "cls_1" "2024-03-03"
                    (Some "18:00") (app_with []) eq_refl) 0).
    + unfold within_a_day. cbn. lia.
    + reflexivity.
    + left. reflexivity.
  - apply (proj2 (markArrival_without_lesson west_host "stu_1" "cls_1" "2024-03-04"
                    (Some "12:45") (app_with []) eq_refl) 1).
    + unfold within_a_day. cbn. lia.
    + reflexivity.
    + left. reflexivity.
  - apply (proj1 (markArrival_without_lesson utc_host "stu_1" "cls_gone"
                    "2024-03-04" (Some "18:00") (app_with []) eq_refl)).
    reflexivity.
Defined.

(** West of UTC a Sunday arrival is judged by Saturday's entry: the
    class is closed on Sunday, and the arrival is recorded late. *)
Example sunday_arrival_west_of_utc :
  weekday "2024-03-10" = Some 0
  ∧ no_lesson (ClassManager.getScheduleForDay (app_with []) "cls_1" (JS.Int 0))
  ∧ judged_weekday west_host 0 = 6
  ∧ arr_minutesLate
      (arrival (fst (ArrivalTracker.markArrival west_host "stu_1" "cls_1"
                       "2024-03-10" (Some "12:45") (app_with []))))
    = JS.Int 15
  ∧ arr_status
      (arrival (fst (ArrivalTracker.markArrival west_host "stu_1" "cls_1"
                       "2024-03-10" (Some "12:45") (app_with []))))
    = "late".
Proof. vm_compute. repeat split; try reflexivity. left. reflexivity. Qed.

(** X19. [toggleArrival] flips one student on one day and touches no
    one else: on a ledger with at most one arrival per student and
    date, the student is recorded afterwards exactly when she was not
    before, every other student and date is found as before, and the
    ledger still has at most one arrival per student and date. *)
Theorem toggleArrival_flips (h : Host) (c d s : string) (a : App) :
  one_per_key (arrivals a) →
  (is_Some (ArrivalTracker.hasArrived (UI.toggleArrival h c d s a) s d)
   ↔ ArrivalTracker.hasArrived a s d = None)
  ∧ (∀ s' d', (s', d') ≠ (s, d) →
       ArrivalTracker.hasArrived (UI.toggleArrival h c d s a) s' d'
       = ArrivalTracker.hasArrived a s' d')
  ∧ one_per_key (arrivals (UI.toggleArrival h c d s a)).
Proof.
  intros Hone. unfold UI.toggleArrival.
  destruct (ArrivalTracker.hasArrived a s d) as [e|] eqn:Hh.
  - unfold ArrivalTracker.hasArrived in Hh.
    destruct (findIndex (ArrivalTracker.same_key s d) (arrivals a)) as [i|] eqn:Hi;
      [|apply findIndex_none in Hi; congruence].
    destruct (removeArrival_found h s d a i Hi) as (_ & Ha & _).
    unfold ArrivalTracker.hasArrived. rewrite Ha.
    split; [|split].
    + rewrite (find_splice_same s d _ i Hone Hi).
      split; [intros [x Hx]; discriminate | discriminate].
    + intros s' d' Hne.
      destruct (findIndex_some _ _ _ Hi) as (x & Hx & _ & Hp).
      apply (find_splice_other _ _ _ x Hx).
      apply same_key_spec in Hp.
      destruct (ArrivalTracker.same_key s' d' x) eqn:E; [|reflexivity].
      apply same_key_spec in E. congruence.
    + apply one_per_key_splice. exact Hone.
  - destruct (markArrival_accepts h s c d None a Hh) as (_ & Hkey & Harr & _).
    cbn zeta in Hkey, Harr. unfold ArrivalTracker.hasArrived. rewrite Harr.
    split; [|split].
    + rewrite (find_snoc_new s d _ _ Hh Hkey). split; [reflexivity | eauto].
    + intros s' d' Hne.
      destruct (List.find (ArrivalTracker.same_key s' d') (arrivals a)) as [x|] eqn:Hf.
      * apply find_app_some. exact Hf.
      * rewrite (find_app_none _ _ _ Hf).
        destruct (ArrivalTracker.same_key s' d' _) eqn:E; [|reflexivity].
        apply same_key_spec in E. congruence.
    + apply (one_per_key_snoc s d); assumption.
Qed.

Lemma one_per_key_february : one_per_key (arrivals february_app).
Proof.
  unfold one_per_key. cbn.
  repeat (constructor; [cbn; intuition discriminate|]). constructor.
Qed.

Lemma toggleArrival_flips_witness :
  ArrivalTracker.hasArrived
    (UI.toggleArrival utc_host "cls_1" "2024-02-29" "stu_1" february_app)
    "stu_1" "2024-02-29" = None
  ∧ is_Some (ArrivalTracker.hasArrived
               (UI.toggleArrival utc_host "cls_1" "2024-03-05" "stu_1" february_app)
               "stu_1" "2024-03-05").
Proof.
  split.
  - destruct (ArrivalTracker.hasArrived
                (UI.toggleArrival utc_host "cls_1" "2024-02-29" "stu_1" february_app)
                "stu_1" "2024-02-29") as [x|] eqn:E; [|reflexivity].
    exfalso.
    pose proof (proj1 (proj1 (toggleArrival_flips utc_host "cls_1" "2024-02-29"
                                "stu_1" february_app one_per_key_february))) as H.
    rewrite E in H. specialize (H (ex_intro _ x eq_refl)). discriminate H.
  - apply (proj1 (toggleArrival_flips utc_host "cls_1" "2024-03-05" "stu_1"
                    february_app one_per_key_february)).
    reflexivity.
Defined.

(** ** Arrival Ledger: the lists of a day *)

(** X20. An accepted [markArrival] puts the new record at the end of
    the list of its date and of the list of its class and date, and
    leaves the lists of every other date and class as they were; on a
    ledger with at most one arrival per student and date no student is
    twice in the list of a date, before or after. *)
Theorem day_lists_after_mark (h : Host) (s c d : string) (t : option string)
    (a : App) :
  ArrivalTracker.hasArrived a s d = None →
  one_per_key (arrivals a) →
  ArrivalTracker.getByDate (snd (ArrivalTracker.markArrival h s c d t a)) d
  = (ArrivalTracker.getByDate a d
     ++ [arrival (fst (ArrivalTracker.markArrival h s c d t a))])%list
  ∧ ArrivalTracker.getByClassAndDate
      (snd (ArrivalTracker.markArrival h s c d t a)) c d
    = (ArrivalTracker.getByClassAndDate a c d
       ++ [arrival (fst (ArrivalTracker.markArrival h s c d t a))])%list
  ∧ (∀ d', d' ≠ d →
       ArrivalTracker.getByDate (snd (ArrivalTracker.markArrival h s c d t a)) d'
       = ArrivalTracker.getByDate a d')
  ∧ (∀ c' d', (c', d') ≠ (c, d) →
       ArrivalTracker.getByClassAndDate
         (snd (ArrivalTracker.markArrival h s c d t a)) c' d'
       = ArrivalTracker.getByClassAndDate a c' d')
  ∧ (∀ d', List.NoDup
            (List.map arr_studentId
               (ArrivalTracker.getByDate
                  (snd (ArrivalTracker.markArrival h s c d t a)) d'))).
Proof.
  intros Hn Hone.
  assert (Hrec : arr_classId (arrival (fst (ArrivalTracker.markArrival h s c d t a)))
                 = c).
  { revert Hn. unfold ArrivalTracker.hasArrived, ArrivalTracker.markArrival.
    intros ->.
    match goal with |- context [let '(m, st) := ?X in _] => destruct X as [m st] end.
    reflexivity. }
  destruct (markArrival_accepts h s c d t a Hn) as (_ & Hkey & Harr & _).
  cbn zeta in Hkey, Harr.
  assert (Hone' : one_per_key
                    (arrivals (snd (ArrivalTracker.markArrival h s c d t a)))).
  { rewrite Harr. apply (one_per_key_snoc s d); assumption. }
  unfold ArrivalTracker.getByDate, ArrivalTracker.getByClassAndDate.
  revert Hone'. rewrite Harr. intros Hone'.
  set (x := arrival (fst (ArrivalTracker.markArrival h s c d t a))) in *.
  unfold key in Hkey. injection Hkey as Hs Hd.
  split; [|split; [|split; [|split]]].
  - rewrite filter_snoc, Hd, String.eqb_refl. reflexivity.
  - rewrite filter_snoc, Hd, Hrec, !String.eqb_refl. reflexivity.
  - intros d' Hne. rewrite filter_snoc, Hd.
    destruct (String.eqb_spec d d'); [congruence | apply app_nil_r].
  - intros c' d' Hne. rewrite filter_snoc, Hd, Hrec.
    destruct (String.eqb_spec c c'), (String.eqb_spec d d'); cbn [andb];
      try apply app_nil_r. congruence.
  - intros d'. clear -Hone'. unfold one_per_key in Hone'.
    induction (arrivals a ++ [x])%list as [|y l IH]; cbn [List.filter List.map];
      [constructor|].
    cbn [List.map] in Hone'. apply List.NoDup_cons_iff in Hone' as [Hy Hl].
    destruct (String.eqb_spec (arr_date y) d') as [E | E]; [|exact (IH Hl)].
    cbn [List.map]. constructor; [|exact (IH Hl)].
    intros Hin. apply Hy. apply List.in_map_iff in Hin as (z & Hz & Hzin).
    apply List.filter_In in Hzin as [Hzin Hzd]. apply String.eqb_eq in Hzd.
    apply List.in_map_iff. exists z. split; [|exact Hzin].
    unfold key. congruence.
Qed.

Lemma day_lists_after_mark_witness :
  ArrivalTracker.getByDate
    (snd (ArrivalTracker.markArrival utc_host "stu_2" "cls_1" "2024-02-29"
            (Some "12:31") february_app)) "2024-02-29"
  = (ArrivalTracker.getByDate february_app "2024-02-29"
     ++ [arrival (fst (ArrivalTracker.markArrival utc_host "stu_2" "cls_1"
                         "2024-02-29" (Some "12:31") february_app))])%list.
Proof.
  exact (proj1 (day_lists_after_mark utc_host "stu_2" "cls_1" "2024-02-29"
                  (Some "12:31") february_app eq_refl one_per_key_february)).
Defined.

(** ** Arrival Ledger: the counts of the statistics *)

Lemma markArrival_statused h s c d t a :
  statused (arrival (fst (ArrivalTracker.markArrival h s c d t a)))
  ∨ success (fst (ArrivalTracker.markArrival h s c d t a)) = false.
Proof.
  unfold ArrivalTracker.markArrival.
  destruct (List.find _ _) as [e|]; [right; reflexivity|]. left.
  destruct (ClassManager.getScheduleForDay _ _ _) as [sch|];
    [|right; reflexivity].
  destruct (enabled sch && JS.truthy _); [|right; reflexivity].
  cbn [fst arrival arr_status]. unfold statused. cbn [arr_status].
  destruct (JS.gt _ _); [left | right]; reflexivity.
Qed.

Lemma ledger_step_statused a op : ledger_statused a → ledger_statused (ledger_step a op).
Proof.
  intros [Hm Hs]. destruct op as [h s c d t | h s d |]; cbn [ledger_step].
  - destruct (ArrivalTracker.hasArrived a s d) as [e|] eqn:E.
    + rewrite (markArrival_rejects _ _ _ _ _ _ _ E). split; assumption.
    + destruct (markArrival_accepts h s c d t a E)
        as (Hsucc & _ & Harr & _ & _ & Hst & _).
      cbn zeta in Hsucc, Harr, Hst.
      assert (Hnew : Forall statused
                       (arrivals (snd (ArrivalTracker.markArrival h s c d t a)))).
      { rewrite Harr. apply Forall_app. split; [exact Hm|].
        constructor; [|constructor].
        destruct (markArrival_statused h s c d t a) as [H | H]; [exact H|].
        congruence. }
      split; [exact Hnew|].
      destruct Hst as [-> | ->]; [exact Hs | exact Hnew].
  - unfold ArrivalTracker.removeArrival.
    destruct (findIndex _ _) as [i|]; [|split; assumption]. cbn [snd].
    assert (Hsp : Forall statused (ArrivalTracker.splice1 i (arrivals a))).
    { apply List.Forall_forall. intros x Hx. apply splice1_in in Hx.
      rewrite List.Forall_forall in Hm. exact (Hm x Hx). }
    unfold ArrivalTracker.save, set_arrivals.
    destruct (setItemOk h "arrivals"); split; assumption.
  - split; [exact Hs | exact Hs].
Qed.

Lemma ledger_run_statused ops a : ledger_statused a → ledger_statused (ledger_run ops a).
Proof.
  unfold ledger_run. revert a.
  induction ops as [|op ops IH]; intros a Ha; cbn [fold_left]; [exact Ha|].
  apply IH, ledger_step_statused, Ha.
Qed.

Lemma count_by_status (l : list Arrival) :
  Forall statused l →
  ArrivalTracker.count l
  = ArrivalTracker.count (List.filter ArrivalTracker.is_on_time l)
    + ArrivalTracker.count (List.filter ArrivalTracker.is_late l).
Proof.
  unfold ArrivalTracker.count.
  induction 1 as [|x l Hx _ IH]; cbn [List.filter List.length]; [reflexivity|].
  unfold ArrivalTracker.is_on_time at 1, ArrivalTracker.is_late at 1.
  destruct Hx as [-> | ->]; cbn [String.eqb Ascii.eqb Bool.eqb andb List.length];
    lia.
Qed.

Lemma filter_range_Forall (P : Arrival → Prop) s e l :
  Forall P l → Forall P (ArrivalTracker.filter_range s e l).
Proof.
  intros Hl. unfold ArrivalTracker.filter_range.
  destruct (JS.truthy (get_or e "")), (JS.truthy (get_or s ""));
    repeat apply Forall_filter; exact Hl.
Qed.

(** X21. In every ledger that marking, removing and loading build from
    one whose records are late or on time, the counts of the statistics
    add up: for every student, every class and every range of dates,
    totalArrivals is onTime plus tardies. *)
Theorem stats_counts_add_up (ops : list LedgerOp) (a : App)
    (studentId classId : string) (startDate endDate : option string) :
  ledger_statused a →
  (∃ total onTime tardies,
     ArrivalTracker.getStudentStats (ledger_run ops a) studentId startDate endDate
       !! "totalArrivals" = Some (JS.Int total)
     ∧ ArrivalTracker.getStudentStats (ledger_run ops a) studentId startDate endDate
         !! "onTime" = Some (JS.Int onTime)
     ∧ ArrivalTracker.getStudentStats (ledger_run ops a) studentId startDate endDate
         !! "tardies" = Some (JS.Int tardies)
     ∧ total = onTime + tardies)
  ∧ (∃ total onTime tardies,
       ArrivalTracker.getClassStats (ledger_run ops a) classId startDate endDate
         !! "totalArrivals" = Some (JS.Int total)
       ∧ ArrivalTracker.getClassStats (ledger_run ops a) classId startDate endDate
           !! "onTime" = Some (JS.Int onTime)
       ∧ ArrivalTracker.getClassStats (ledger_run ops a) classId startDate endDate
           !! "tardies" = Some (JS.Int tardies)
       ∧ total = onTime + tardies).
Proof.
  intros Ha. destruct (ledger_run_statused ops a Ha) as [Hm _].
  split.
  - unfold ArrivalTracker.getStudentStats. do 3 eexists.
    split; [apply lookup_insert_eq|].
    split; [rewrite lookup_insert_ne by discriminate; apply lookup_insert_eq|].
    split; [rewrite !lookup_insert_ne by discriminate; apply lookup_insert_eq|].
    apply count_by_status, filter_range_Forall, Forall_filter, Hm.
  - unfold ArrivalTracker.getClassStats. do 3 eexists.
    split; [apply lookup_insert_eq|].
    split; [rewrite lookup_insert_ne by discriminate; apply lookup_insert_eq|].
    split; [rewrite !lookup_insert_ne by discriminate; apply lookup_insert_eq|].
    apply count_by_status, filter_range_Forall, Forall_filter, Hm.
Qed.

Lemma empty_app_statused : ledger_statused empty_app.
Proof. split; constructor. Qed.

Lemma stats_counts_add_up_witness :
  ∃ total onTime tardies,
    ArrivalTracker.getStudentStats
      (ledger_run [Mark utc_host "stu_1" "cls_1" "2024-03-04" (Some "12:45");
                   Mark utc_host "stu_1" "cls_1" "2024-03-05" None;
                   Remove utc_host "stu_1" "2024-03-04"; Load] empty_app)
      "stu_1" None None !! "totalArrivals" = Some (JS.Int total)
    ∧ ArrivalTracker.getStudentStats
        (ledger_run [Mark utc_host "stu_1" "cls_1" "2024-03-04" (Some "12:45");
                     Mark utc_host "stu_1" "cls_1" "2024-03-05" None;
                     Remove utc_host "stu_1" "2024-03-04"; Load] empty_app)
        "stu_1" None None !! "onTime" = Some (JS.Int onTime)
    ∧ ArrivalTracker.getStudentStats
        (ledger_run [Mark utc_host "stu_1" "cls_1" "2024-03-04" (Some "12:45");
                     Mark utc_host "stu_1" "cls_1" "2024-03-05" None;
                     Remove utc_host "stu_1" "2024-03-04"; Load] empty_app)
        "stu_1" None None !! "tardies" = Some (JS.Int tardies)
    ∧ total = onTime + tardies.
Proof.
  exact (proj1 (stats_counts_add_up
                  [Mark utc_host "stu_1" "cls_1" "2024-03-04" (Some "12:45");
                   Mark utc_host "stu_1" "cls_1" "2024-03-05" None;
                   Remove utc_host "stu_1" "2024-03-04"; Load]
                  empty_app "stu_1" "cls_1" None None empty_app_statused)).
Defined.

(** ** The controller: the clock and the timetable *)

(** The record of an accepted [markArrival] on a day with a lesson; the
    time is the one given or, when none or the empty string is given,
    the one of the clock. *)
Lemma markArrival_judged h s c d t a sch S :
  ArrivalTracker.hasArrived a s d = None →
  ClassManager.getScheduleForDay a c (ArrivalTracker.dayOfWeek h d) = Some sch →
  enabled sch = true → startTime sch = Some S → isHHMM S = true →
  isHHMM (JS.or_string t (clockTime h)) = true →
  arrival (fst (ArrivalTracker.markArrival h s c d t a))
  = {| arr_id := "arr_" ++ idSuffix h; arr_studentId := s; arr_classId := c;
       arr_date := d; arr_time := JS.or_string t (clockTime h);
       arr_minutesLate :=
         JS.Int (Z.max 0 (minutes_of (JS.or_string t (clockTime h)) - minutes_of S));
       arr_status :=
         if minutes_of S <? minutes_of (JS.or_string t (clockTime h))
         then "late" else "on-time";
       arr_createdAt := clockISO h |}.
Proof.
  intros Hnone Hsch Hen Hst HS HT.
  unfold ArrivalTracker.markArrival.
  unfold ArrivalTracker.hasArrived in Hnone. rewrite Hnone, Hsch, Hen, Hst.
  cbn [get_or andb].
  rewrite (hhmm_truthy S HS).
  pose proof (hhmm_minutes S HS) as ES.
  pose proof (hhmm_minutes _ HT) as ET.
  cbn zeta in ES, ET. rewrite ES, ET.
  cbn [JS.sub JS.Math_max JS.gt fst arrival].
  unfold ArrivalTracker.generateId. f_equal.
  destruct (Z.ltb_spec 0 (Z.max 0 (minutes_of (JS.or_string t (clockTime h))
                                    - minutes_of S)));
    destruct (Z.ltb_spec (minutes_of S) (minutes_of (JS.or_string t (clockTime h))));
    try reflexivity; lia.
Qed.

(** X22. A click on the card of a student who is not yet recorded
    marks her at the time of the host's clock and judges that time
    against the start of a lesson: on a host on UTC or east of it the
    lesson of the weekday of the date, on a host west of UTC the lesson
    of the weekday before (the local time being less than a day from
    UTC).  The record is put at the end of the ledger
    with the minutes the clock is past the start, 0 and on time when it
    is not past it. *)
Theorem toggleArrival_uses_the_clock (h : Host) (c d s S : string) (n : Z)
    (sch : DaySchedule) (a : App) :
  within_a_day h → weekday d = Some n →
  ArrivalTracker.hasArrived a s d = None →
  ClassManager.getScheduleForDay a c (JS.Int (judged_weekday h n)) = Some sch →
  enabled sch = true → startTime sch = Some S → isHHMM S = true →
  isHHMM (clockTime h) = true →
  arrivals (UI.toggleArrival h c d s a)
  = (arrivals a
     ++ [{| arr_id := "arr_" ++ idSuffix h; arr_studentId := s; arr_classId := c;
            arr_date := d; arr_time := clockTime h;
            arr_minutesLate :=
              JS.Int (Z.max 0 (minutes_of (clockTime h) - minutes_of S));
            arr_status :=
              if minutes_of S <? minutes_of (clockTime h) then "late" else "on-time";
            arr_createdAt := clockISO h |}])%list.
Proof.
  intros Ho Hw Hn Hsch Hen Hst HS HT. unfold UI.toggleArrival. rewrite Hn.
  rewrite <- (dayOfWeek_by_weekday h d n Ho Hw) in Hsch.
  destruct (markArrival_accepts h s c d None a Hn) as (_ & _ & Harr & _).
  cbn zeta in Harr. rewrite Harr. f_equal. f_equal.
  exact (markArrival_judged h s c d None a sch S Hn Hsch Hen Hst HS HT).
Qed.

Lemma toggleArrival_uses_the_clock_witness :
  arrivals (UI.toggleArrival utc_host "cls_1" "2024-03-04" "stu_1" (app_with []))
  = [{| arr_id := "arr_lt9x0k3ab12"; arr_studentId := "stu_1";
        arr_classId := "cls_1"; arr_date := "2024-03-04"; arr_time := "12:00";
        arr_minutesLate := JS.Int 0; arr_status := "on-time";
        arr_createdAt := "2024-03-04T12:00:00.000Z" |}]
  ∧ arrivals (UI.toggleArrival west_host_at_1245 "cls_1" "2024-03-10" "stu_1"
                (app_with []))
    = [{| arr_id := "arr_lt9x0k3ab13"; arr_studentId := "stu_1";
          arr_classId := "cls_1"; arr_date := "2024-03-10"; arr_time := "12:45";
          arr_minutesLate := JS.Int 15; arr_status := "late";
          arr_createdAt := "2024-03-10T17:45:00.000Z" |}].
Proof.
  split.
  - refine (toggleArrival_uses_the_clock utc_host "cls_1" "2024-03-04" "stu_1"
              "12:30" 1 (ClassManager.open_day "12:30" "14:20") (app_with [])
              _ eq_refl eq_refl eq_refl eq_refl eq_refl eq_refl eq_refl).
    unfold within_a_day. cbn. lia.
  - refine (toggleArrival_uses_the_clock west_host_at_1245 "cls_1" "2024-03-10"
              "stu_1" "12:30" 0 (ClassManager.open_day "12:30" "14:20")
              (app_with []) _ eq_refl eq_refl eq_refl eq_refl eq_refl eq_refl
              eq_refl).
    unfold within_a_day. cbn. lia.
Defined.

Lemma find_findIndex {A} (p : A → bool) l x :
  List.find p l = Some x → ∃ i, findIndex p l = Some i ∧ l !! i = Some x.
Proof.
  induction l as [|y l IH]; cbn; [discriminate|].
  destruct (p y).
  - intros [= ->]. exists 0%nat. split; reflexivity.
  - intros Hf. destruct (IH Hf) as (i & -> & Hi). exists (S i). split; [reflexivity|].
    exact Hi.
Qed.

(** What [update] with a new schedule leaves. *)
Lemma schedule_update_found h id sched a c :
  ClassManager.getById a id = Some c →
  ClassManager.getById
    (snd (ClassManager.update h id (UI.schedule_update sched) a)) id
  = Some {| cls_id := cls_id c; cls_name := cls_name c; cls_schedule := sched;
            cls_createdAt := cls_createdAt c |}
  ∧ (∀ id', id' ≠ id →
       ClassManager.getById
         (snd (ClassManager.update h id (UI.schedule_update sched) a)) id'
       = ClassManager.getById a id')
  ∧ arrivals (snd (ClassManager.update h id (UI.schedule_update sched) a))
    = arrivals a
  ∧ students (snd (ClassManager.update h id (UI.schedule_update sched) a))
    = students a.
Proof.
  unfold ClassManager.getById. intros Hf.
  destruct (find_findIndex _ _ _ Hf) as (i & Hi & Hc).
  pose proof (List.find_some _ _ Hf) as [_ Hid]. apply String.eqb_eq in Hid.
  unfold ClassManager.update. rewrite Hi, Hc. cbn [snd].
  destruct (class_save_frame h
              (with_classes
                 (<[i := ClassManager.merge c (UI.schedule_update sched)]> (classes a)) a))
    as (Hcl & Hst & Har & _).
  rewrite Hcl, Hst, Har. cbn [classes students arrivals with_classes].
  split; [|split; [|split; reflexivity]].
  - apply find_replaced; [exact Hi|]. cbn. rewrite Hid. apply String.eqb_refl.
  - intros id' Hne. apply (find_replaced_other _ _ _ c _ Hc).
    + rewrite Hid. destruct (String.eqb_spec id id'); congruence.
    + cbn. rewrite Hid. destruct (String.eqb_spec id id'); congruence.
Qed.

(** X23. [toggleDay] throws when no class has the current id, and
    changes nothing then.  Otherwise it flips the day of the current
    class: a day that was enabled becomes an entry that is not, and
    every other day (one without an entry too) becomes enabled from
    08:00 to 12:00, whatever hours it had; the other days, the name of
    the class, the other classes, the students and the arrivals are as
    before. *)
Theorem toggleDay_flips (h : Host) (cur : option string) (day : string) (a : App) :
  match UI.currentClass cur a with
  | None => UI.toggleDay h cur day a = None
  | Some classObj =>
      ∃ id a',
        cur = Some id ∧ UI.toggleDay h cur day a = Some a'
        ∧ ClassManager.getById a' id
          = Some {| cls_id := cls_id classObj; cls_name := cls_name classObj;
                    cls_schedule :=
                      <[day := if UI.day_enabled (cls_schedule classObj) day
                               then {| enabled := false; startTime := None;
                                       endTime := None |}
                               else {| enabled := true; startTime := Some "08:00";
                                       endTime := Some "12:00" |}]>
                        (cls_schedule classObj);
                    cls_createdAt := cls_createdAt classObj |}
        ∧ (∀ id', id' ≠ id →
             ClassManager.getById a' id' = ClassManager.getById a id')
        ∧ arrivals a' = arrivals a
        ∧ students a' = students a
  end.
Proof.
  unfold UI.toggleDay.
  destruct cur as [id|]; cbn [UI.currentClass]; [|reflexivity].
  destruct (ClassManager.getById a id) as [classObj|] eqn:Hc; [|reflexivity].
  exists id. eexists. split; [reflexivity|]. split; [reflexivity|].
  exact (schedule_update_found h id _ a classObj Hc).
Qed.

(** X24. Switching a day off and on again does not bring its hours
    back: after two [toggleDay] on a day that was enabled, the day is
    enabled from 08:00 to 12:00 whatever its hours were. *)
Theorem toggleDay_twice_resets_hours (h h' : Host) (id day : string)
    (classObj : Class) (a : App) :
  ClassManager.getById a id = Some classObj →
  UI.day_enabled (cls_schedule classObj) day = true →
  ∃ a1 a2 c2,
    UI.toggleDay h (Some id) day a = Some a1
    ∧ UI.toggleDay h' (Some id) day a1 = Some a2
    ∧ ClassManager.getById a2 id = Some c2
    ∧ cls_schedule c2 !! day
      = Some {| enabled := true; startTime := Some "08:00";
                endTime := Some "12:00" |}
    ∧ (∀ day', day' ≠ day → cls_schedule c2 !! day' = cls_schedule classObj !! day').
Proof.
  intros Hc Hen.
  set (off := {| enabled := false; startTime := None; endTime := None |}).
  set (on := {| enabled := true; startTime := Some "08:00"; endTime := Some "12:00" |}).
  set (s1 := <[day := off]> (cls_schedule classObj)).
  destruct (schedule_update_found h id s1 a classObj Hc) as (Hc1 & _).
  set (a1 := snd (ClassManager.update h id (UI.schedule_update s1) a)) in *.
  set (c1 := {| cls_id := cls_id classObj; cls_name := cls_name classObj;
                cls_schedule := s1; cls_createdAt := cls_createdAt classObj |}) in *.
  set (s2 := <[day := on]> s1).
  destruct (schedule_update_found h' id s2 a1 c1 Hc1) as (Hc2 & _).
  assert (H1 : UI.toggleDay h (Some id) day a = Some a1).
  { unfold UI.toggleDay. cbn [UI.currentClass]. rewrite Hc, Hen. reflexivity. }
  assert (H2 : UI.toggleDay h' (Some id) day a1
               = Some (snd (ClassManager.update h' id (UI.schedule_update s2) a1))).
  { unfold UI.toggleDay. cbn [UI.currentClass]. rewrite Hc1.
    unfold UI.day_enabled. cbn [cls_schedule c1]. unfold s1 at 1.
    rewrite lookup_insert_eq. reflexivity. }
  eexists. eexists. eexists.
  split; [exact H1|]. split; [exact H2|]. split; [exact Hc2|].
  cbn [cls_schedule]. unfold s2, s1. split; [apply lookup_insert_eq|].
  intros day' Hne. rewrite !lookup_insert_ne by congruence. reflexivity.
Qed.

Lemma toggleDay_twice_resets_hours_witness :
  ∃ a1 a2 c2,
    UI.toggleDay utc_host (Some "cls_1") "monday" (app_with []) = Some a1
    ∧ UI.toggleDay utc_host (Some "cls_1") "monday" a1 = Some a2
    ∧ ClassManager.getById a2 "cls_1" = Some c2
    ∧ cls_schedule c2 !! "monday"
      = Some {| enabled := true; startTime := Some "08:00";
                endTime := Some "12:00" |}.
Proof.
  destruct (toggleDay_twice_resets_hours utc_host utc_host "cls_1" "monday"
              demo_class (app_with []) eq_refl eq_refl)
    as (a1 & a2 & c2 & H1 & H2 & H3 & H4 & _).
  exists a1, a2, c2. repeat split; assumption.
Defined.

(** X25. [updateSchedule] with the field startTime, on a day of the
    current class that is enabled, sets the start the ledger judges by:
    every later arrival that [markArrival] judges by that day, of a
    student not yet recorded on its date, is late by the minutes its
    time is past the new start.  These are the arrivals dated on that
    weekday on a host on UTC or east of it, and the arrivals dated on
    the weekday after it on a host west of UTC (the local time being
    less than a day from UTC).  The arrivals recorded before stay as
    they are. *)
Theorem new_start_time_is_used (h h' : Host) (id day v s d : string) (n : Z)
    (t : option string) (classObj : Class) (a : App) :
  ClassManager.getById a id = Some classObj →
  UI.day_enabled (cls_schedule classObj) day = true →
  within_a_day h' → weekday d = Some n →
  ClassManager.dayName (JS.Int (judged_weekday h' n)) = Some day →
  isHHMM v = true → isHHMM (JS.or_string t (clockTime h')) = true →
  ArrivalTracker.hasArrived a s d = None →
  ∃ a1,
    UI.updateSchedule h (Some id) day UI.StartTime v a = Some a1
    ∧ arrivals a1 = arrivals a
    ∧ success (fst (ArrivalTracker.markArrival h' s id d t a1)) = true
    ∧ arr_minutesLate (arrival (fst (ArrivalTracker.markArrival h' s id d t a1)))
      = JS.Int (Z.max 0 (minutes_of (JS.or_string t (clockTime h')) - minutes_of v))
    ∧ arr_status (arrival (fst (ArrivalTracker.markArrival h' s id d t a1)))
      = if minutes_of v <? minutes_of (JS.or_string t (clockTime h'))
        then "late" else "on-time".
Proof.
  intros Hc Hen Ho Hw Hday Hv HT Hn.
  rewrite <- (dayOfWeek_by_weekday h' d n Ho Hw) in Hday.
  unfold UI.updateSchedule. cbn [UI.currentClass]. rewrite Hc.
  eexists. split; [reflexivity|].
  destruct (schedule_update_found h id
              (<[day := UI.with_time (cls_schedule classObj !! day) UI.StartTime v]>
                 (cls_schedule classObj)) a classObj Hc) as (Hc1 & _ & Harr & _).
  split; [exact Harr|].
  set (a1 := snd (ClassManager.update h id _ a)) in *.
  assert (Hn1 : ArrivalTracker.hasArrived a1 s d = None).
  { unfold ArrivalTracker.hasArrived. rewrite Harr. exact Hn. }
  assert (Hsch : ClassManager.getScheduleForDay a1 id (ArrivalTracker.dayOfWeek h' d)
                 = Some (UI.with_time (cls_schedule classObj !! day) UI.StartTime v)).
  { unfold ClassManager.getScheduleForDay. rewrite Hc1, Hday.
    cbn [cls_schedule ClassManager.property_key]. apply lookup_insert_eq. }
  assert (Hen' : enabled (UI.with_time (cls_schedule classObj !! day) UI.StartTime v)
                 = true).
  { unfold UI.day_enabled in Hen. unfold UI.with_time.
    destruct (cls_schedule classObj !! day) as [e|]; [exact Hen | discriminate]. }
  destruct (markArrival_accepts h' s id d t a1 Hn1) as (Hsucc & _).
  cbn zeta in Hsucc. split; [exact Hsucc|].
  rewrite (markArrival_judged h' s id d t a1 _ v Hn1 Hsch Hen' eq_refl Hv HT).
  split; reflexivity.
Qed.

Lemma new_start_time_is_used_witness :
  (∃ a1,
     UI.updateSchedule utc_host (Some "cls_1") "monday" UI.StartTime "13:00"
       (app_with []) = Some a1
     ∧ arr_minutesLate
         (arrival (fst (ArrivalTracker.markArrival utc_host "stu_1" "cls_1"
                          "2024-03-04" (Some "13:10") a1)))
       = JS.Int 10)
  ∧ (∃ a1,
       UI.updateSchedule utc_host (Some "cls_1") "saturday" UI.StartTime "13:00"
         (app_with []) = Some a1
       ∧ arr_minutesLate
           (arrival (fst (ArrivalTracker.markArrival west_host "stu_1" "cls_1"
                            "2024-03-10" (Some "13:10") a1)))
         = JS.Int 10).
Proof.
  split.
  - destruct (new_start_time_is_used utc_host utc_host "cls_1" "monday" "13:00"
                "stu_1" "2024-03-04" 1 (Some "13:10") demo_class (app_with [])
                eq_refl eq_refl)
      as (a1 & H1 & _ & _ & H2 & _); try reflexivity.
    + unfold within_a_day. cbn. lia.
    + exists a1. split; [exact H1 | exact H2].
  - destruct (new_start_time_is_used utc_host west_host "cls_1" "saturday" "13:00"
                "stu_1" "2024-03-10" 0 (Some "13:10") demo_class (app_with [])
                eq_refl eq_refl)
      as (a1 & H1 & _ & _ & H2 & _); try reflexivity.
    + unfold within_a_day. cbn. lia.
    + exists a1. split; [exact H1 | exact H2].
Defined.

(** West of UTC the new start of Monday is not the one a Monday arrival
    is judged by. *)
Example new_monday_start_west_of_utc :
  option_map
    (fun a1 =>
       arr_minutesLate
         (arrival (fst (ArrivalTracker.markArrival west_host "stu_1" "cls_1"
                          "2024-03-04" (Some "13:10") a1))))
    (UI.updateSchedule utc_host (Some "cls_1") "monday" UI.StartTime "13:00"
       (app_with []))
  = Some (JS.Int 0).
Proof. vm_compute. reflexivity. Qed.

(** A day without an entry gets one from [updateSchedule] that has a
    time and is not enabled: arrivals on that day stay on time. *)
Example start_time_on_a_day_without_entry :
  let a := snd (ClassManager.add utc_host "1AEP" JS.Undefined empty_app) in
  option_map
    (fun a1 => ClassManager.getScheduleForDay a1 "cls_lt9x0k3ab12" (JS.Int 1))
    (UI.updateSchedule utc_host (Some "cls_lt9x0k3ab12") "monday" UI.StartTime
       "08:00" a)
  = Some (Some {| enabled := false; startTime := Some "08:00"; endTime := None |}).
Proof. vm_compute. reflexivity. Qed.

(** ** Sorting by name *)

Lemma insert_sorted_in {A} (cmp : A → A → Z) x l z :
  In z (JS.insert_sorted cmp x l) ↔ z = x ∨ In z l.
Proof.
  induction l as [|y l IH]; cbn; [intuition|].
  destruct (cmp x y <=? 0); cbn; [intuition|]. rewrite IH. intuition.
Qed.

Lemma insert_sorted_perm {A} (cmp : A → A → Z) x l :
  JS.insert_sorted cmp x l ≡ₚ x :: l.
Proof.
  induction l as [|y l IH]; cbn; [reflexivity|].
  destruct (cmp x y <=? 0); [reflexivity|].
  rewrite IH. apply Permutation_swap.
Qed.

Lemma sort_perm {A} (cmp : A → A → Z) l : JS.sort cmp l ≡ₚ l.
Proof.
  unfold JS.sort. induction l as [|x l IH]; cbn; [reflexivity|].
  rewrite insert_sorted_perm, IH. reflexivity.
Qed.

Lemma insert_sorted_ascending {A} (cmp : A → A → Z) x l :
  consistent cmp → ascending cmp l → ascending cmp (JS.insert_sorted cmp x l).
Proof.
  intros [Hsign Htr].
  assert (Htot : ∀ x y, cmp x y ≤ 0 ∨ cmp y x ≤ 0).
  { intros u v. destruct (Z.le_gt_cases (cmp u v) 0) as [H | H]; [left; exact H|].
    right. apply Hsign. lia. }
  induction l as [|y l IH]; cbn [JS.insert_sorted ascending].
  - intros _. split; constructor.
  - intros [Hy Hl]. destruct (Z.leb_spec (cmp x y) 0) as [Hle | Hgt];
      cbn [ascending].
    + split; [|split; assumption]. constructor; [exact Hle|].
      rewrite List.Forall_forall in Hy |- *. intros z Hz.
      exact (Htr x y z Hle (Hy z Hz)).
    + split; [|exact (IH Hl)].
      rewrite List.Forall_forall in Hy |- *. intros z Hz.
      apply insert_sorted_in in Hz as [-> | Hz]; [|exact (Hy z Hz)].
      destruct (Htot x y); [lia | assumption].
Qed.

Lemma sort_ascending {A} (cmp : A → A → Z) l :
  consistent cmp → ascending cmp (JS.sort cmp l).
Proof.
  intros Hc. unfold JS.sort. induction l as [|x l IH]; cbn; [exact I|].
  apply insert_sorted_ascending; assumption.
Qed.

Lemma consistent_on {A B} (cmp : B → B → Z) (f : A → B) :
  consistent cmp → consistent (fun x y => cmp (f x) (f y)).
Proof.
  intros [Hsign Htr]. split.
  - intros x y. apply Hsign.
  - intros x y z. apply Htr.
Qed.

Lemma ascending_map {A B C} (cmp : B → B → Z) (f : A → B) (g : C → B)
    (k : A → C) l :
  (∀ x, g (k x) = f x) →
  ascending (fun x y => cmp (f x) (f y)) l →
  ascending (fun x y => cmp (g x) (g y)) (List.map k l).
Proof.
  intros Hk. induction l as [|x l IH]; cbn [List.map ascending]; [auto|].
  intros [Hx Hl]. split; [|exact (IH Hl)].
  rewrite List.Forall_forall in Hx |- *. intros z Hz.
  apply List.in_map_iff in Hz as (y & <- & Hy). rewrite !Hk. exact (Hx y Hy).
Qed.

(** X26. On a host whose [localeCompare] orders the names, the lists
    the sources sort by name come out in ascending order of the names:
    [getSortedByName] returns the students of the class, each once, in
    that order, and the rows of the monthly report and of the daily
    sheet are in that order too. *)
Theorem sorted_by_name (h : Host) (a : App) (classId date : string)
    (year month : Z) :
  consistent (localeCompare h) →
  StudentManager.getSortedByName h a classId ≡ₚ StudentManager.getByClass a classId
  ∧ ascending (fun x y => localeCompare h (stu_name x) (stu_name y))
              (StudentManager.getSortedByName h a classId)
  ∧ (∀ r, ReportGenerator.generateMonthlyReport h a classId year month = Some r →
          ascending (fun x y => localeCompare h (row_name x) (row_name y))
                    (rep_students r))
  ∧ (∀ sheet, ReportGenerator.generateDailySheet h a classId date = Some sheet →
          ascending (fun x y => localeCompare h (sheet_name x) (sheet_name y))
                    (sheet_students sheet)).
Proof.
  intros Hc. split; [apply sort_perm|]. split; [|split].
  - apply sort_ascending. exact (consistent_on _ stu_name Hc).
  - intros r. unfold ReportGenerator.generateMonthlyReport.
    destruct (ClassManager.getById a classId); [|discriminate].
    intros [= <-]. cbn [rep_students].
    apply sort_ascending. exact (consistent_on _ row_name Hc).
  - intros sheet. unfold ReportGenerator.generateDailySheet.
    destruct (ClassManager.getById a classId); [|discriminate].
    intros [= <-]. cbn [sheet_students].
    apply (ascending_map _ stu_name sheet_name); [reflexivity|].
    apply sort_ascending. exact (consistent_on _ stu_name Hc).
Qed.

Lemma byte_order_consistent : consistent byte_order.
Proof.
  assert (Hle : ∀ x y, byte_order x y ≤ 0 ↔ String.compare x y ≠ Gt).
  { intros x y. unfold byte_order. destruct (String.compare x y);
      split; intros; try discriminate; try lia; congruence. }
  split.
  - intros x y. unfold byte_order.
    pose proof (String.compare_antisym x y) as E.
    destruct (String.compare x y), (String.compare y x); cbn in E;
      try discriminate E; split; intros; lia.
  - intros x y z. rewrite !Hle. intros Hxy Hyz.
    destruct (String.compare x y) eqn:Exy; [| |congruence].
    + apply String_as_OT.cmp_eq in Exy. subst y. exact Hyz.
    + destruct (String.compare y z) eqn:Eyz; [| |congruence].
      * apply String_as_OT.cmp_eq in Eyz. subst z. rewrite Exy. discriminate.
      * apply String_as_OT.cmp_lt in Exy, Eyz.
        pose proof (String_as_OT.lt_trans _ _ _ Exy Eyz) as Hxz.
        apply String_as_OT.cmp_lt in Hxz. unfold String_as_OT.cmp in Hxz.
        rewrite Hxz. discriminate.
Qed.

Lemma sorted_by_name_witness :
  StudentManager.getSortedByName utc_host (app_with []) "cls_1"
  ≡ₚ StudentManager.getByClass (app_with []) "cls_1"
  ∧ ascending (fun x y => localeCompare utc_host (stu_name x) (stu_name y))
              (StudentManager.getSortedByName utc_host (app_with []) "cls_1").
Proof.
  destruct (sorted_by_name utc_host (app_with []) "cls_1" "2024-03-04" 2024 3
              byte_order_consistent) as (H1 & H2 & _).
  split; [exact H1 | exact H2].
Defined.

Example names_in_order :
  List.map stu_name
    (StudentManager.getSortedByName utc_host
       (snd (StudentManager.importFromCSV (fun _ => utc_host)
               ("Sara" ++ newline ++ "Ahmed" ++ newline ++ "Khalid") "cls_1"
               empty_app)) "cls_1")
  = ["Ahmed"; "Khalid"; "Sara"].
Proof. vm_compute. reflexivity. Qed.

(** ** Report Aggregator: the rows of the monthly report *)

Lemma window_filter id s e (l : list Arrival) :
  List.filter (fun x => String.eqb (arr_studentId x) id
                        && JS.str_ge (arr_date x) s && JS.str_le (arr_date x) e) l
  = List.filter (fun x => String.eqb (arr_studentId x) id
                          && in_range (Some s) (Some e) x) l.
Proof.
  apply filter_ext_bool. intros x. unfold in_range, JS.str_ge, JS.str_le.
  rewrite andb_assoc. reflexivity.
Qed.

Lemma report_rows_of h a classId year month r :
  ReportGenerator.generateMonthlyReport h a classId year month = Some r →
  is_Some (ClassManager.getById a classId)
  ∧ rep_students r
    ≡ₚ List.map (ReportGenerator.row (ReportGenerator.startDate year month)
                   (ReportGenerator.endDate h year month)
                   (get_or (stored_arrivals (storage a)) []))
                (StudentManager.getByClass a classId).
Proof.
  unfold ReportGenerator.generateMonthlyReport.
  destruct (ClassManager.getById a classId) as [c|]; [|discriminate].
  intros [= <-]. cbn [rep_students]. split; [eauto | apply sort_perm].
Qed.

(** X27. The monthly report is null exactly for a class the registry
    does not hold.  Otherwise it has one row for each student now on
    the roster of the class, also for one without any arrival, and for
    no one else; a row counts the arrivals the store holds for the
    student from the first day of the window to its last, under
    whatever class they were recorded, and lists them in the order of
    the store. *)
Theorem monthly_report_rows (h : Host) (a : App) (classId : string)
    (year month : Z) :
  match ReportGenerator.generateMonthlyReport h a classId year month with
  | None => ClassManager.getById a classId = None
  | Some r =>
      is_Some (ClassManager.getById a classId)
      ∧ List.map row_id (rep_students r)
        ≡ₚ List.map stu_id (StudentManager.getByClass a classId)
      ∧ ∀ row, In row (rep_students r) →
          totalDays row
          = Z.of_nat
              (List.length
                 (List.filter
                    (fun x => String.eqb (arr_studentId x) (row_id row)
                              && in_range (Some (ReportGenerator.startDate year month))
                                          (Some (ReportGenerator.endDate h year month)) x)
                    (get_or (stored_arrivals (storage a)) [])))
          ∧ List.map line_date (row_arrivals row)
            = List.map arr_date
                (List.filter
                   (fun x => String.eqb (arr_studentId x) (row_id row)
                             && in_range (Some (ReportGenerator.startDate year month))
                                         (Some (ReportGenerator.endDate h year month)) x)
                   (get_or (stored_arrivals (storage a)) []))
  end.
Proof.
  destruct (ReportGenerator.generateMonthlyReport h a classId year month) as [r|] eqn:E.
  - destruct (report_rows_of h a classId year month r E) as [Hc Hp].
    split; [exact Hc|]. split.
    + rewrite Hp, List.map_map. reflexivity.
    + intros row Hin. apply list_elem_of_In in Hin. rewrite Hp in Hin.
      apply list_elem_of_In, List.in_map_iff in Hin as (student & <- & _).
      unfold ReportGenerator.row.
      cbn [totalDays row_arrivals row_id]. rewrite window_filter.
      split; [reflexivity|]. rewrite List.map_map. reflexivity.
  - revert E. unfold ReportGenerator.generateMonthlyReport.
    destruct (ClassManager.getById a classId); [discriminate | reflexivity].
Qed.

Lemma rev_app_not_empty (s t : string) : t ≠ "" → String.rev_app s t ≠ "".
Proof.
  revert t. induction s as [|c s IH]; intros t Ht; cbn [String.rev_app];
    [exact Ht|].
  apply IH. discriminate.
Qed.

Lemma rev_not_empty (s : string) : s ≠ "" → String.rev s ≠ "".
Proof.
  destruct s as [|c s]; [congruence|]. intros _. unfold String.rev.
  cbn [String.rev_app]. apply rev_app_not_empty. discriminate.
Qed.

Lemma split_aux_head sep cur s :
  cur ≠ "" → ∃ d rest, JS.split_aux sep cur s = d :: rest ∧ d ≠ "".
Proof.
  revert cur. induction s as [|c s IH]; intros cur Hcur; cbn [JS.split_aux].
  - eexists. eexists. split; [reflexivity|]. apply rev_not_empty. exact Hcur.
  - destruct (Ascii.eqb c sep).
    + eexists. eexists. split; [reflexivity|]. apply rev_not_empty. exact Hcur.
    + apply IH. discriminate.
Qed.

Lemma split_head_of c s sep :
  Ascii.eqb c sep = false →
  ∃ d rest, JS.split sep (String c s) = d :: rest ∧ d ≠ "".
Proof.
  intros Hc. unfold JS.split. cbn [JS.split_aux]. rewrite Hc.
  apply split_aux_head. discriminate.
Qed.

(** A number in decimal starts with a digit or the minus sign. *)
Lemma String_of_head z :
  JS.String_of z = ""
  ∨ ∃ c s, JS.String_of z = String c s ∧ Ascii.eqb c "T" = false.
Proof.
  unfold JS.String_of.
  destruct (Z.to_int z) as [d | d]; cbn [NilZero.string_of_int].
  - unfold NilZero.string_of_uint.
    destruct d; cbn [NilEmpty.string_of_uint]; right; eexists; eexists;
      (split; [reflexivity|]); reflexivity.
  - right. eexists. eexists. split; [reflexivity|]. reflexivity.
Qed.

Lemma iso_year_head y rest :
  ∃ c k, JS.iso_year y ++ String "-" rest = String c k ∧ Ascii.eqb c "T" = false.
Proof.
  unfold JS.iso_year. destruct ((0 <=? y) && (y <=? 9999)).
  - unfold JS.padStart.
    destruct (4 - String.length (JS.String_of y))%nat as [|n].
    + change (JS.repeat_char "0" 0 ++ JS.String_of y) with (JS.String_of y).
      destruct (String_of_head y) as [-> | (c & k & -> & Hc)].
      * eexists. eexists. split; reflexivity.
      * eexists. eexists. split; [apply append_cons | exact Hc].
    + eexists. eexists. split; [|shelve].
      cbn [JS.repeat_char]. rewrite !append_cons. reflexivity.
      Unshelve. reflexivity.
  - destruct (y <? 0); eexists; eexists;
      (split; [rewrite !append_cons; reflexivity | reflexivity]).
Qed.

Lemma truthy_not_empty s : s ≠ "" → JS.truthy s = true.
Proof. destruct s; [congruence | reflexivity]. Qed.

(** The two bounds of the window are never the empty string. *)
Lemma window_bounds_truthy h year month :
  JS.truthy (ReportGenerator.startDate year month) = true
  ∧ JS.truthy (ReportGenerator.endDate h year month) = true.
Proof.
  split.
  - unfold ReportGenerator.startDate.
    destruct (JS.String_of year); reflexivity.
  - unfold ReportGenerator.endDate, JS.toISOString.
    destruct (JS.civil_from_days _) as [[y m] d].
    match goal with
    | |- context [JS.iso_year y ++ "-" ++ ?rest] =>
        change (JS.iso_year y ++ "-" ++ rest)
          with (JS.iso_year y ++ String "-" rest);
        destruct (iso_year_head y rest) as (c & k & -> & Hc)
    end.
    destruct (split_head_of c k "T" Hc) as (d0 & rest0 & -> & Hd).
    apply truthy_not_empty. exact Hd.
Qed.

(** X28. The monthly report and the statistics of the ledger agree.
    When the store is in step with the ledger and the records are as
    [markArrival] classifies them, every row of the report carries the
    very figures [getStudentStats] gives for that student over the
    window of the report, from its first day to its last: the arrivals,
    those on time, those late, the minutes and their average. *)
Theorem monthly_row_matches_stats (h : Host) (a : App) (classId : string)
    (year month : Z) (r : Report) (row : StudentRow) :
  in_sync a → Forall classified (arrivals a) →
  ReportGenerator.generateMonthlyReport h a classId year month = Some r →
  In row (rep_students r) →
  ArrivalTracker.getStudentStats a (row_id row)
    (Some (ReportGenerator.startDate year month))
    (Some (ReportGenerator.endDate h year month))
  = <["totalArrivals" := JS.Int (totalDays row)]>
    (<["onTime" := JS.Int (onTime row)]>
    (<["tardies" := JS.Int (tardies row)]>
    (<["totalMinutesLate" := totalMinutesLate row]>
    (<["avgMinutesLate" := avgMinutesLate row]> ∅)))).
Proof.
  intros (_ & _ & Hsync) Hcl Hr Hin.
  destruct (report_rows_of h a classId year month r Hr) as [_ Hp].
  apply list_elem_of_In in Hin. rewrite Hp in Hin.
  apply list_elem_of_In, List.in_map_iff in Hin as (student & <- & _).
  destruct (window_bounds_truthy h year month) as [_ He].
  unfold ArrivalTracker.getStudentStats.
  rewrite filter_range_spec
    by (intros [= E]; rewrite E in He; discriminate).
  unfold ReportGenerator.row.
  cbn [row_id totalDays onTime tardies totalMinutesLate avgMinutesLate].
  rewrite window_filter, <- Hsync.
  set (F := List.filter _ (arrivals a)).
  assert (HF : Forall classified F) by (apply Forall_filter, Hcl).
  assert (Hsum : ArrivalTracker.sum_minutes F
                 = ArrivalTracker.sum_minutes (List.filter ArrivalTracker.is_late F)).
  { rewrite (sum_minutes_classified F HF).
    rewrite (sum_minutes_classified _ (Forall_filter _ ArrivalTracker.is_late F HF)).
    f_equal. apply total_minutes_late_only. exact HF. }
  rewrite Hsum. reflexivity.
Qed.

Lemma february_app_classified : Forall classified (arrivals february_app).
Proof. repeat constructor; apply sample_arrival_classified; lia. Qed.

Lemma monthly_row_matches_stats_witness :
  ∃ r row,
    ReportGenerator.generateMonthlyReport utc_host february_app "cls_1" 2024 2
    = Some r
    ∧ rep_students r = [row]
    ∧ ArrivalTracker.getStudentStats february_app (row_id row)
        (Some (ReportGenerator.startDate 2024 2))
        (Some (ReportGenerator.endDate utc_host 2024 2))
      = <["totalArrivals" := JS.Int (totalDays row)]>
        (<["onTime" := JS.Int (onTime row)]>
        (<["tardies" := JS.Int (tardies row)]>
        (<["totalMinutesLate" := totalMinutesLate row]>
        (<["avgMinutesLate" := avgMinutesLate row]> ∅)))).
Proof.
  eexists. eexists. split; [vm_compute; reflexivity|]. split; [reflexivity|].
  eapply (monthly_row_matches_stats utc_host february_app "cls_1" 2024 2).
  - repeat split.
  - exact february_app_classified.
  - vm_compute. reflexivity.
  - left. reflexivity.
Defined.

(** ** Report Aggregator: the daily sheet *)

Lemma find_filter {A} (p q : A → bool) l :
  List.find q (List.filter p l) = List.find (fun x => p x && q x) l.
Proof.
  induction l as [|x l IH]; cbn; [reflexivity|].
  destruct (p x); cbn; [destruct (q x); [reflexivity | exact IH] | exact IH].
Qed.

Lemma find_ext_bool {A} (p q : A → bool) l :
  (∀ x, p x = q x) → List.find p l = List.find q l.
Proof. intros H. induction l as [|x l IH]; cbn; rewrite ?H, ?IH; reflexivity. Qed.

(** X29. The daily sheet is null exactly for a class the registry does
    not hold.  Otherwise it has one row for each student on the roster
    of the class, in the order of [getSortedByName]; a row shows the
    time, the minutes and the status of the arrival the store holds for
    the student, that class and that date (the first when there are
    several), and shows the student absent, with no time and 0 minutes,
    when the store holds none, also when the student was recorded that
    day under another class. *)
Theorem daily_sheet_rows (h : Host) (a : App) (classId date : string) :
  match ReportGenerator.generateDailySheet h a classId date with
  | None => ClassManager.getById a classId = None
  | Some sheet =>
      is_Some (ClassManager.getById a classId)
      ∧ List.map sheet_id (sheet_students sheet)
        = List.map stu_id (StudentManager.getSortedByName h a classId)
      ∧ ∀ row, In row (sheet_students sheet) →
          match stored_arrival a (sheet_id row) classId date with
          | Some x =>
              arrived row = true ∧ sheet_time row = Some (arr_time x)
              ∧ sheet_minutesLate row = arr_minutesLate x
              ∧ sheet_status row = arr_status x
          | None =>
              arrived row = false ∧ sheet_time row = None
              ∧ sheet_minutesLate row = JS.Int 0
              ∧ sheet_status row = "absent"
          end
  end.
Proof.
  unfold ReportGenerator.generateDailySheet.
  destruct (ClassManager.getById a classId) as [c|]; [|reflexivity].
  cbn [sheet_students]. split; [eauto|]. split.
  - rewrite List.map_map. reflexivity.
  - intros row Hin. apply List.in_map_iff in Hin as (s & <- & _).
    cbn [sheet_id arrived sheet_time sheet_minutesLate sheet_status].
    unfold stored_arrival. rewrite find_filter.
    rewrite (find_ext_bool
               (fun x => String.eqb (arr_studentId x) (stu_id s)
                         && String.eqb (arr_classId x) classId
                         && String.eqb (arr_date x) date)
               (fun x => String.eqb (arr_classId x) classId
                         && String.eqb (arr_date x) date
                         && String.eqb (arr_studentId x) (stu_id s)))
      by (intros x; rewrite <- andb_assoc; apply andb_comm).
    destruct (List.find _ _) as [x|]; cbn [option_map]; repeat split.
Qed.

(** ** Report Aggregator: the lines of the CSV text *)

Lemma append_nil_r (s : string) : s ++ "" = s.
Proof. induction s as [|c s IH]; [reflexivity|]. rewrite append_cons, IH. reflexivity. Qed.

Lemma rev_app_rev_app (x cur acc : string) :
  String.rev_app (String.rev_app x cur) acc = String.rev_app cur (x ++ acc).
Proof.
  revert cur. induction x as [|c x IH]; intros cur; [reflexivity|].
  cbn [String.rev_app]. rewrite IH. cbn [String.rev_app]. rewrite append_cons.
  reflexivity.
Qed.

Lemma list_ascii_app (s t : string) :
  list_ascii_of_string (s ++ t)
  = (list_ascii_of_string s ++ list_ascii_of_string t)%list.
Proof.
  induction s as [|c s IH]; [reflexivity|].
  rewrite append_cons. cbn [list_ascii_of_string]. rewrite IH. reflexivity.
Qed.

Lemma one_line_app (s t : string) : one_line s → one_line t → one_line (s ++ t).
Proof.
  unfold one_line. intros Hs Ht c. rewrite list_ascii_app, in_app_iff.
  intros [H | H]; auto.
Qed.

Lemma one_line_checked (s : string) :
  forallb (fun c => negb (Ascii.eqb c "010")) (list_ascii_of_string s) = true →
  one_line s.
Proof.
  intros H c Hin E. rewrite forallb_forall in H. specialize (H c Hin).
  subst c. discriminate.
Qed.

Lemma one_line_uint (d : Decimal.uint) : one_line (NilEmpty.string_of_uint d).
Proof.
  induction d; cbn [NilEmpty.string_of_uint];
    [intros c [] | ..];
    (intros c [<- | Hin]; [discriminate | exact (IHd c Hin)]).
Qed.

Lemma one_line_number (z : Z) : one_line (JS.String_of z).
Proof.
  unfold JS.String_of.
  destruct (Z.to_int z) as [d | d]; cbn [NilZero.string_of_int].
  - unfold NilZero.string_of_uint. destruct d; try apply one_line_uint.
    apply one_line_checked. reflexivity.
  - intros c [<- | Hin]; [discriminate|]. revert c Hin.
    unfold NilZero.string_of_uint. destruct d; try apply one_line_uint.
    apply one_line_checked. reflexivity.
Qed.

Lemma one_line_show (n : JS.num) : one_line (ReportGenerator.show n).
Proof.
  destruct n; [apply one_line_checked; reflexivity | apply one_line_number].
Qed.

(** A line is read back up to the line feed that ends it. *)
Lemma split_aux_line x cur rest :
  one_line x →
  JS.split_aux "010" cur (x ++ String "010" rest)
  = String.rev_app cur x :: JS.split_aux "010" "" rest.
Proof.
  revert cur. induction x as [|c x IH]; intros cur Hx.
  - change ("" ++ String "010" rest) with (String "010" rest).
    cbn [JS.split_aux Ascii.eqb Bool.eqb]. unfold String.rev. reflexivity.
  - rewrite append_cons. cbn [JS.split_aux].
    assert (Hc : Ascii.eqb c "010" = false).
    { apply Ascii.eqb_neq. apply Hx. left. reflexivity. }
    rewrite Hc, IH by (intros c' Hin; apply Hx; right; exact Hin).
    reflexivity.
Qed.

Lemma split_aux_last x cur :
  one_line x → JS.split_aux "010" cur x = [String.rev_app cur x].
Proof.
  revert cur. induction x as [|c x IH]; intros cur Hx.
  - reflexivity.
  - cbn [JS.split_aux].
    assert (Hc : Ascii.eqb c "010" = false).
    { apply Ascii.eqb_neq. apply Hx. left. reflexivity. }
    rewrite Hc, IH by (intros c' Hin; apply Hx; right; exact Hin).
    reflexivity.
Qed.

Lemma split_join_lines (x : string) (l : list string) :
  Forall one_line (x :: l) →
  JS.split "010" (ReportGenerator.join_lines (x :: l)) = x :: l.
Proof.
  unfold JS.split. revert x. induction l as [|y l IH]; intros x Hl.
  - cbn [ReportGenerator.join_lines]. apply split_aux_last.
    inversion Hl; assumption.
  - change (ReportGenerator.join_lines (x :: y :: l))
      with (x ++ String "010" (ReportGenerator.join_lines (y :: l))).
    inversion Hl as [|? ? Hx Hyl]; subst.
    rewrite split_aux_line by exact Hx. cbn [String.rev_app].
    rewrite IH by exact Hyl. reflexivity.
Qed.

(** X30. The CSV text of a report whose names hold no line feed has
    five lines more than the report has rows: the title, an empty line,
    the column heads, one line for each row in the order of the report,
    an empty line, and the totals, which are the sums of the days, of
    the late arrivals and of the minutes over the rows, and the minutes
    over the late arrivals rounded, 0 when no arrival is late.  The
    fields are put between commas as they are, a name with a comma in
    it too. *)
Theorem csv_lines_of_report (report : Report) :
  one_line (className report) → one_line (monthName report) →
  Forall (fun s => one_line (row_name s)) (rep_students report) →
  JS.split "010" (ReportGenerator.generateCSV report)
  = ("Rapport de retards - " ++ className report ++ " - " ++ monthName report
       ++ " " ++ JS.String_of (rep_year report))
    :: ""
    :: "Nom,Délais,Retards,Minutes de retard, Moyenne"
    :: List.app
         (List.map (fun s => row_name s ++ "," ++ JS.String_of (totalDays s) ++ ","
                           ++ JS.String_of (tardies s) ++ ","
                           ++ ReportGenerator.show (totalMinutesLate s) ++ ","
                           ++ ReportGenerator.show (avgMinutesLate s))
                 (rep_students report))
         [""; "Total,"
                  ++ JS.String_of (ReportGenerator.sum_Z
                                     (List.map totalDays (rep_students report)))
                  ++ ","
                  ++ JS.String_of (ReportGenerator.sum_Z
                                     (List.map tardies (rep_students report)))
                  ++ ","
                  ++ ReportGenerator.show
                       (fold_left (fun sum s => JS.add sum (totalMinutesLate s))
                                  (rep_students report) (JS.Int 0))
                  ++ ","
                  ++ ReportGenerator.show
                       (ArrivalTracker.average
                          (fold_left (fun sum s => JS.add sum (totalMinutesLate s))
                                     (rep_students report) (JS.Int 0))
                          (ReportGenerator.sum_Z
                             (List.map tardies (rep_students report))))].
Proof.
  intros Hc Hm Hrows. unfold ReportGenerator.generateCSV. cbn zeta.
  cbn [List.app].
  apply split_join_lines.
  assert (Hlit : ∀ s, forallb (fun c => negb (Ascii.eqb c "010"))
                              (list_ascii_of_string s) = true → one_line s)
    by exact one_line_checked.
  constructor.
  { repeat apply one_line_app; try assumption; try apply one_line_number;
      apply Hlit; reflexivity. }
  constructor; [apply Hlit; reflexivity|].
  constructor; [apply Hlit; reflexivity|].
  apply Forall_app. split.
  - apply List.Forall_forall. intros line Hin.
    apply List.in_map_iff in Hin as (s & <- & Hs).
    rewrite List.Forall_forall in Hrows.
    repeat apply one_line_app; try apply one_line_number; try apply one_line_show;
      try (apply Hlit; reflexivity).
    exact (Hrows s Hs).
  - constructor; [apply Hlit; reflexivity|]. constructor; [|constructor].
    repeat apply one_line_app; try apply one_line_number; try apply one_line_show;
      apply Hlit; reflexivity.
Qed.

Lemma csv_lines_of_report_witness :
  JS.split "010" (ReportGenerator.generateCSV sample_report)
  = ["Rapport de retards - 1AEP - mars 2024"; "";
     "Nom,Délais,Retards,Minutes de retard, Moyenne";
     "Amal,3,2,40,20"; "Bilal,2,0,0,0"; ""; "Total,5,2,40,20"].
Proof.
  refine (eq_trans (csv_lines_of_report sample_report _ _ _) _).
  - apply one_line_checked. reflexivity.
  - apply one_line_checked. reflexivity.
  - repeat constructor; apply one_line_checked; reflexivity.
  - vm_compute. reflexivity.
Defined.
